(** * Humanet: the Streamlit front-end [streamlit_app.py]

    A shallow embedding of the script: Python strings as lists of code
    points, JSON/Python values as an inductive type, the session state as a
    record, and one run of the script as a computation in a small monad that
    threads the session, the rendered elements and the requests sent, and
    that can end early with [st.stop()], [st.experimental_rerun()] or an
    uncaught exception, be it one of Python, of [requests] or of Streamlit
    (a form or a widget made twice, a label that is no string).  A run is
    started by at most one click. *)

From Stdlib Require Import List NArith ZArith Bool Lia.
From Stdlib Require Import Strings.String Strings.Ascii Numbers.DecimalString.
Import ListNotations.

Set Implicit Arguments.
Set Warnings "-register-all".

(* ================================================================== *)
(** ** Python strings *)

(** A Python [str] is a sequence of Unicode code points. *)
Definition pystr := list N.

(** An ASCII literal of the source as a [pystr]. *)
Definition u (s : string) : pystr :=
  map N_of_ascii (list_ascii_of_string s).

Fixpoint pystr_eqb (a b : pystr) : bool :=
  match a, b with
  | [], [] => true
  | x :: a', y :: b' => N.eqb x y && pystr_eqb a' b'
  | _, _ => false
  end.

(** [str.isspace] on one character, the set [str.strip()] removes:
    U+0009..U+000D, U+001C..U+0020, U+0085, U+00A0, U+1680,
    U+2000..U+200A, U+2028, U+2029, U+202F, U+205F, U+3000. *)
Definition isspace (c : N) : bool :=
  ((9 <=? c) && (c <=? 13) || (28 <=? c) && (c <=? 32)
   || (c =? 133) || (c =? 160) || (c =? 5760)
   || (8192 <=? c) && (c <=? 8202)
   || (c =? 8232) || (c =? 8233) || (c =? 8239) || (c =? 8287)
   || (c =? 12288))%N.

(** [s.lstrip(chars)] and [s.rstrip(chars)], the set [chars] as a predicate. *)
Fixpoint lstrip_by (p : N -> bool) (s : pystr) : pystr :=
  match s with
  | [] => []
  | c :: s' => if p c then lstrip_by p s' else s
  end.

Definition rstrip_by (p : N -> bool) (s : pystr) : pystr :=
  rev (lstrip_by p (rev s)).

(** [s.strip()] *)
Definition strip (s : pystr) : pystr := rstrip_by isspace (lstrip_by isspace s).

(** The line boundaries of [str.splitlines()]: \n, \r, \v, \f, \x1c, \x1d,
    \x1e, \x85, U+2028, U+2029 (and \r\n as one boundary). *)
Definition is_linebreak (c : N) : bool :=
  ((10 <=? c) && (c <=? 13) || (28 <=? c) && (c <=? 30)
   || (c =? 133) || (c =? 8232) || (c =? 8233))%N.

(** [splitlines_from cur s]: the lines of [rev cur ++ s], where [cur] holds
    (reversed) the characters of the line being read.  A line is closed at
    each boundary; the text after the last boundary is a line only when it
    is not empty. *)
Fixpoint splitlines_from (cur s : pystr) : list pystr :=
  match s with
  | [] => match cur with [] => [] | _ => [rev cur] end
  | c :: rest =>
      if is_linebreak c then
        match rest with
        | c' :: rest' =>
            if (c =? 13)%N && (c' =? 10)%N
            then rev cur :: splitlines_from [] rest'
            else rev cur :: splitlines_from [] rest
        | [] => [rev cur]
        end
      else splitlines_from (c :: cur) rest
  end.

(** [s.splitlines()] *)
Definition splitlines (s : pystr) : list pystr := splitlines_from [] s.

(** Truth value of a [str]: non-empty. *)
Definition str_truthy (s : pystr) : bool :=
  match s with [] => false | _ => true end.

(** Line 214:
    [questions = [q.strip() for q in questions_blob.splitlines() if q.strip()]] *)
Definition parse_questions (questions_blob : pystr) : list pystr :=
  map strip (filter (fun q => str_truthy (strip q)) (splitlines questions_blob)).

(** The same list as the specification words it: split on line breaks, trim
    each line, drop the lines that are empty after trimming. *)
Definition non_blank_trimmed_lines (text : pystr) : list pystr :=
  filter str_truthy (map strip (splitlines text)).

(** [str(n)] for an [int]. *)
Definition str_of_Z (z : Z) : pystr := u (NilEmpty.string_of_int (Z.to_int z)).

(** [sep.join(parts)] *)
Fixpoint join (sep : pystr) (parts : list pystr) : pystr :=
  match parts with
  | [] => []
  | [p] => p
  | p :: ps => p ++ sep ++ join sep ps
  end.

(* ================================================================== *)
(** ** Python values *)

(** The values that [r.json()] returns and that payloads are built from
    ([float] left out).  A [dict] keeps its items in insertion order; its
    keys are distinct, so a lookup may stop at the first key that matches. *)
Inductive pyval :=
| PNone
| PBool (b : bool)
| PInt (z : Z)
| PStr (s : pystr)
| PList (l : list pyval)
| PDict (kv : list (pyval * pyval)).

(** Truth value, as [if v:] / [not v] / [v or w] test it. *)
Definition truthy (v : pyval) : bool :=
  match v with
  | PNone => false
  | PBool b => b
  | PInt z => negb (z =? 0)%Z
  | PStr s => str_truthy s
  | PList l => match l with [] => false | _ => true end
  | PDict kv => match kv with [] => false | _ => true end
  end.

(** [a or b] *)
Definition py_or (a b : pyval) : pyval := if truthy a then a else b.

(** The item of a [dict] under a [str] key. *)
Fixpoint dict_find (k : pystr) (kv : list (pyval * pyval)) : option pyval :=
  match kv with
  | [] => None
  | (PStr k', v) :: kv' => if pystr_eqb k' k then Some v else dict_find k kv'
  | _ :: kv' => dict_find k kv'
  end.

(** [x or ""] and friends on an optional session field. *)
Definition opt_str (o : option pystr) : pyval :=
  match o with Some s => PStr s | None => PNone end.

Definition opt_int (o : option Z) : pyval :=
  match o with Some z => PInt z | None => PNone end.

(* ================================================================== *)
(** ** Session state, requests, rendered elements *)

Inductive Role := Individual | NGO.

Definition role_name (r : Role) : pystr :=
  match r with Individual => u "Individual" | NGO => u "NGO" end.

Definition opt_role (o : option Role) : pyval :=
  match o with Some r => PStr (role_name r) | None => PNone end.

(** The seven keys of [st.session_state] the script uses. [token] holds
    whatever the server sent as [access_token]; [None] is [PNone]. *)
Record Session := mkSession {
  token : pyval;
  role : option Role;
  email : option pystr;
  name : option pystr;
  location : option pystr;
  age : option Z;
  ngo_goals : option pystr
}.

(** Lines 54-67: every key missing from a fresh session is set to [None];
    a session that already went through a run has all seven. *)
Definition empty_session : Session :=
  mkSession PNone None None None None None None.

Definition session_init (prev : option Session) : Session :=
  match prev with
  | None => empty_session
  | Some s => s
  end.

Inductive method := GET | POST.

(** The arguments of one [requests.get] / [requests.post] call. *)
Record request := mkRequest {
  meth : method;
  url : pystr;
  params : option (list (pystr * pyval));
  headers : list (pystr * pystr);
  data : option pystr;
  timeout : Z
}.

Record response := mkResponse {
  status_code : Z;
  text : pystr;
  json : option pyval   (* [r.json()]; [None] when the body is not JSON *)
}.

(** What the [requests] call comes back with. *)
Inductive reply :=
| Responded (r : response)
| ConnectionFailed.      (* [requests.ConnectionError], [requests.Timeout] *)

Inductive exn :=
| HTTPError (r : response)
| RequestException
| JSONDecodeError
| KeyError (k : pystr)
| TypeError
| AttributeError
| DuplicateWidgetID        (* Streamlit: a second widget with the same ID *)
| StreamlitAPIException.   (* Streamlit: a call it refuses *)

(** How a run of the script can end before its last line. *)
Inductive signal :=
| StopScript              (* [st.stop()] *)
| RerunScript             (* [st.experimental_rerun()] *)
| Raised (e : exn).       (* an exception no handler caught *)

Inductive View :=
| VSurveys | VCivicReports | VSkillUp | VDiscussions | VAIReport | VProfile.

(** What the script puts on the page, in order. *)
Inductive element :=
| st_image (path : pystr)
| st_write (v : pyval)
| st_markdown (body : pystr)
| st_caption (body : pystr)
| st_subheader (body : pystr)
| st_code (body : pystr)
| st_info (body : pystr)
| st_success (body : pystr)
| st_warning (body : pystr)
| st_error (body : pystr)
| st_divider
| st_tab (v : View)                  (* [with tabs[i]:] *)
| st_form (key : pystr)              (* [with st.form(key):] *)
| st_expander (label : pyval)        (* [with st.expander(label):] *)
| st_text_area_value (label : pystr) (value : pyval).

(** What lies outside the script: the process environment, the file system,
    the remote backend (its answer may depend on the requests already sent in
    this run) and the library functions whose results the script only passes
    on. *)
Record Env := mkEnv {
  getenv : pystr -> option pystr;           (* [os.getenv] *)
  path_exists : pystr -> bool;              (* [os.path.exists] *)
  backend : list request -> request -> reply;
  json_dumps : pyval -> pystr;              (* [json.dumps] *)
  container_str : pyval -> pystr;           (* [str()] of a list or dict *)
  str_upper : pystr -> pystr                (* [str.upper] *)
}.

Inductive AuthMode := Login | SignUp.

(** The widgets of the sign-up form (lines 100-109). *)
Record SignupForm := mkSignupForm {
  su_role : Role;
  su_name : pystr;
  su_email : pystr;
  su_password : pystr;
  su_location : pystr;
  su_age : Z;
  su_goals : pystr
}.

(** What the user did to start a run: Streamlit runs the script again for
    one interaction at a time.  A button is named by its label, the submit
    button of a form by the key of the form. *)
Inductive click :=
| Button (label : pystr)
| FormSubmit (form : pystr).

(** The values the widgets return in one run.  [clicked] is the click that
    started the run, if it was a click; text widgets that were given a
    [key=] are found by that key; the others have a field each. *)
Record UI := mkUI {
  clicked : option click;
  keyed : pystr -> pystr;
  auth_mode : AuthMode;
  signup : SignupForm;
  my_loc : pystr;
  cs_title : pystr;
  cs_description : pystr;
  cs_sdg : Z;
  cs_target_location : pystr;
  cs_questions_blob : pystr;
  cr_category : pystr;
  cr_title : pystr;
  cr_content : pystr;
  cr_location : pystr;
  f_loc : pystr;
  f_cat : pystr;
  ft_tag : pystr;
  ft_loc : pystr;
  topic_title : pystr;
  topic_content : pystr;
  ai_survey_id : Z;
  ai_region : pystr
}.

(** [st.button(label)]: [True] in the run that the click on this button
    started, [False] in every other run. *)
Definition button (ui : UI) (label : pystr) : bool :=
  match clicked ui with
  | Some (Button l) => pystr_eqb l label
  | _ => false
  end.

(** [st.form_submit_button(...)] of the form [form]: [True] in the run that
    the click on it started, [False] in every other run. *)
Definition form_submit (ui : UI) (form : pystr) : bool :=
  match clicked ui with
  | Some (FormSubmit k) => pystr_eqb k form
  | _ => false
  end.

(* ================================================================== *)
(** ** The script monad *)

Record state := mkState {
  session : Session;
  shown : list element;
  sent : list request
}.

Inductive res (A : Type) :=
| Val (a : A)
| Sig (s : signal).
Arguments Sig {A} s.

Definition M (A : Type) := state -> res A * state.

Definition ret {A} (a : A) : M A := fun st => (Val a, st).

Definition bind {A B} (m : M A) (k : A -> M B) : M B :=
  fun st =>
    match m st with
    | (Val a, st') => k a st'
    | (Sig s, st') => (Sig s, st')
    end.

Declare Scope script_scope.
Delimit Scope script_scope with script.
Notation "x <- m ;; k" := (bind m (fun x => k))
  (at level 100, m at next level, right associativity) : script_scope.
Notation "m ;; k" := (bind m (fun _ => k))
  (at level 100, right associativity) : script_scope.
Open Scope script_scope.

Definition signal_with {A} (s : signal) : M A := fun st => (Sig s, st).

Definition raise {A} (e : exn) : M A := signal_with (Raised e).

Definition st_stop {A} : M A := signal_with StopScript.

Definition st_experimental_rerun {A} : M A := signal_with RerunScript.

(** [st.<element>(...)]: one more element on the page. *)
Definition show (e : element) : M unit :=
  fun st => (Val tt, mkState (session st) (shown st ++ [e]) (sent st)).

(** The page already holds a form with this key. *)
Definition is_form (key : pystr) (e : element) : bool :=
  match e with
  | st_form k => pystr_eqb k key
  | _ => false
  end.

Definition has_form (key : pystr) (els : list element) : bool :=
  existsb (is_form key) els.

Definition get_session : M Session := fun st => (Val (session st), st).

Definition set_session (f : Session -> Session) : M unit :=
  fun st => (Val tt, mkState (f (session st)) (shown st) (sent st)).

(** [try: body  except requests.HTTPError as e: handler(e.response)].
    Only [HTTPError] is caught; [st.stop()], the rerun and every other
    exception pass through.  What the body did before raising stays done. *)
Definition try_except_HTTPError (body : M unit) (handler : response -> M unit)
  : M unit :=
  fun st =>
    match body st with
    | (Sig (Raised (HTTPError r)), st') => handler r st'
    | other => other
    end.

(** [for x in xs: body(x)] *)
Fixpoint for_each {A} (xs : list A) (body : A -> M unit) : M unit :=
  match xs with
  | [] => ret tt
  | x :: xs' => body x ;; for_each xs' body
  end.

(** [if c: body] *)
Definition when (c : bool) (body : M unit) : M unit :=
  if c then body else ret tt.

(** Assignments to [st.session_state.<key>]. *)
Definition set_token (v : pyval) (s : Session) : Session :=
  mkSession v (role s) (email s) (name s) (location s) (age s) (ngo_goals s).
Definition set_role (v : option Role) (s : Session) : Session :=
  mkSession (token s) v (email s) (name s) (location s) (age s) (ngo_goals s).
Definition set_email (v : option pystr) (s : Session) : Session :=
  mkSession (token s) (role s) v (name s) (location s) (age s) (ngo_goals s).
Definition set_name (v : option pystr) (s : Session) : Session :=
  mkSession (token s) (role s) (email s) v (location s) (age s) (ngo_goals s).
Definition set_location (v : option pystr) (s : Session) : Session :=
  mkSession (token s) (role s) (email s) (name s) v (age s) (ngo_goals s).
Definition set_age (v : option Z) (s : Session) : Session :=
  mkSession (token s) (role s) (email s) (name s) (location s) v (ngo_goals s).
Definition set_ngo_goals (v : option pystr) (s : Session) : Session :=
  mkSession (token s) (role s) (email s) (name s) (location s) (age s) v.

(** ** Operations on values that can raise *)

(** [v[key]] for a [str] key: only a [dict] can be indexed so. *)
Definition getitem (v : pyval) (key : pystr) : M pyval :=
  match v with
  | PDict kv =>
      match dict_find key kv with
      | Some x => ret x
      | None => raise (KeyError key)
      end
  | _ => raise TypeError
  end.

(** [v.get(key, default)]: only a [dict] has [get]. *)
Definition get_or (v : pyval) (key : pystr) (default : pyval) : M pyval :=
  match v with
  | PDict kv =>
      match dict_find key kv with
      | Some x => ret x
      | None => ret default
      end
  | _ => raise AttributeError
  end.

(** The items [for x in v] visits. *)
Definition py_iter (v : pyval) : M (list pyval) :=
  match v with
  | PList l => ret l
  | PDict kv => ret (map fst kv)
  | PStr s => ret (map (fun c => PStr [c]) s)
  | _ => raise TypeError
  end.

(** [enumerate(xs)] *)
Definition enumerate {A} (xs : list A) : list (nat * A) :=
  combine (seq 0 (List.length xs)) xs.

(* ================================================================== *)
(** ** The script *)

Section Script.

Variable env : Env.
Variable ui : UI.

(** [str(v)], as an f-string formats [v]. *)
Definition py_str (v : pyval) : pystr :=
  match v with
  | PNone => u "None"
  | PBool true => u "True"
  | PBool false => u "False"
  | PInt z => str_of_Z z
  | PStr s => s
  | _ => container_str env v
  end.

(** Line 10: [os.getenv("BACKEND_URL", "http://localhost:8000").rstrip("/")] *)
Definition BACKEND_URL : pystr :=
  rstrip_by (N.eqb 47)
    (match getenv env (u "BACKEND_URL") with
     | Some v => v
     | None => u "http://localhost:8000"
     end).

Definition APP_NAME : pystr := u "Humanet".

(** Line 12 *)
Definition ICON_PATH : pystr :=
  match getenv env (u "ICON_PATH") with
  | Some v => v
  | None => u "icon.png"
  end.

(** Lines 14-18 configure the page ([st.set_page_config]) and show nothing;
    [time.sleep] only delays the rerun.  Neither has a counterpart here. *)

(** *** Helpers (lines 23-49) *)

(** Lines 24-26 and 32-34: the headers, [Authorization] added when the token
    is truthy. *)
Definition with_authorization (headers : list (pystr * pystr)) (tok : pyval)
  : list (pystr * pystr) :=
  if truthy tok
  then headers ++ [(u "Authorization", u "Bearer " ++ py_str tok)]
  else headers.

(** Line 27: the call [requests.get(...)] of [api_get]. *)
Definition get_request (path : pystr) (query : option (list (pystr * pyval)))
  (tok : pyval) : request :=
  mkRequest GET (BACKEND_URL ++ path) query
    (with_authorization [(u "accept", u "application/json")] tok)
    None 30.

(** Line 35: the call [requests.post(...)] of [api_post]; the body is
    [json.dumps(payload or {})]. *)
Definition post_request (path : pystr) (payload : pyval) (tok : pyval)
  : request :=
  mkRequest POST (BACKEND_URL ++ path) None
    (with_authorization
       [(u "accept", u "application/json");
        (u "Content-Type", u "application/json")] tok)
    (Some (json_dumps env (py_or payload (PDict [])))) 60.

(** The [requests] call itself: the request goes out, the backend answers
    or the connection fails. *)
Definition requests_send (rq : request) : M response :=
  fun st =>
    let st' := mkState (session st) (shown st) (sent st ++ [rq]) in
    match backend env (sent st) rq with
    | Responded r => (Val r, st')
    | ConnectionFailed => (Sig (Raised RequestException), st')
    end.

(** [r.raise_for_status()]: [HTTPError] for a 4xx or 5xx status. *)
Definition is_error_status (code : Z) : bool :=
  ((400 <=? code) && (code <? 600))%Z.

Definition raise_for_status (r : response) : M unit :=
  if is_error_status (status_code r) then raise (HTTPError r) else ret tt.

(** [r.json()] *)
Definition response_json (r : response) : M pyval :=
  match json r with
  | Some v => ret v
  | None => raise JSONDecodeError
  end.

(** Lines 23-29 *)
Definition api_get (path : pystr) (query : option (list (pystr * pyval)))
  (tok : pyval) : M pyval :=
  r <- requests_send (get_request path query tok) ;;
  raise_for_status r ;;
  response_json r.

(** Lines 31-37 *)
Definition api_post (path : pystr) (payload : pyval) (tok : pyval) : M pyval :=
  r <- requests_send (post_request path payload tok) ;;
  raise_for_status r ;;
  response_json r.

(** Lines 39-42 (defined by the script, called nowhere in it). *)
Definition require_auth : M unit :=
  s <- get_session ;;
  if negb (truthy (token s))
  then show (st_warning (u "Please log in first.")) ;; st_stop
  else ret tt.

(** Lines 44-49 *)
Definition badge_markup (body : pystr) : pystr :=
  u "<span style='background:#EEF5FF;border:1px solid #CFE2FF;color:#0A58CA;"
  ++ u "padding:2px 8px;border-radius:12px;font-size:12px'>"
  ++ body ++ u "</span>".

Definition badge (body : pystr) : M unit :=
  show (st_markdown (badge_markup body)).

(** The token the views hand to the gateway: [st.session_state.token]. *)
Definition session_token : M pyval :=
  s <- get_session ;; ret (token s).

(** [with st.form(key):].  Streamlit refuses a second form with the key of
    a form the run has already made. *)
Definition with_form (key : pystr) : M unit :=
  fun st =>
    if has_form key (shown st)
    then raise StreamlitAPIException st
    else show (st_form key) st.

(** [with st.expander(label):].  A label is required, and it must be a
    [str]. *)
Definition with_expander (label : pyval) : M unit :=
  match label with
  | PStr _ => show (st_expander label)
  | PNone => raise StreamlitAPIException
  | _ => raise TypeError
  end.

(** [st.text_area(label, key=key)] in a form: the label must be a [str];
    the value is the text the user typed into the widget of that key. *)
Definition st_text_area (label : pyval) (key : pystr) : M pystr :=
  match label with
  | PStr _ => ret (keyed ui key)
  | _ => raise TypeError
  end.

(** *** Header (lines 72-89) *)

(** Lines 86-88: what Logout assigns. *)
Definition logout_assignments : M unit :=
  set_session (set_token PNone) ;;
  set_session (set_role None) ;;
  set_session (set_email None).

Definition header : M unit :=
  (if path_exists env ICON_PATH
   then show (st_image ICON_PATH)
   else show (st_write (PStr [127757%N]))) ;;
  show (st_markdown (u "### " ++ APP_NAME)) ;;
  show (st_caption
          (u "Civic reports, SDG surveys, SkillUp tutorials, NGO insights "
           ++ [8212%N] ++ u " in one place.")) ;;
  s <- get_session ;;
  when (truthy (token s))
    (badge (u "Logged in as " ++ py_str (opt_role (role s))) ;;
     show (st_write (py_or (opt_str (email s)) (PStr []))) ;;
     when (button ui (u "Logout"))
       (logout_assignments ;;
        st_experimental_rerun)).

(** *** Auth panel (lines 96-149) *)

(** Lines 113-121 *)
Definition register_payload (f : SignupForm) : pyval :=
  let goals := match su_role f with NGO => su_goals f | Individual => [] end in
  PDict
    [(PStr (u "email"), PStr (strip (su_email f)));
     (PStr (u "password"), PStr (su_password f));
     (PStr (u "role"), PStr (role_name (su_role f)));
     (PStr (u "name"), PStr (strip (su_name f)));
     (PStr (u "age"),
       match su_role f with Individual => PInt (su_age f) | NGO => PNone end);
     (PStr (u "location"), PStr (strip (su_location f)));
     (PStr (u "goals"),
       match su_role f with NGO => PStr (strip goals) | Individual => PNone end)].

(** Lines 123-129: what a successful sign-up assigns. *)
Definition register_assignments (f : SignupForm) (access_token : pyval)
  : M unit :=
  let goals := match su_role f with NGO => su_goals f | Individual => [] end in
  set_session (set_token access_token) ;;
  set_session (set_role (Some (su_role f))) ;;
  set_session (set_email (Some (strip (su_email f)))) ;;
  set_session (set_name (Some (strip (su_name f)))) ;;
  set_session (set_location (Some (strip (su_location f)))) ;;
  set_session (set_age
    (match su_role f with Individual => Some (su_age f) | NGO => None end)) ;;
  set_session (set_ngo_goals
    (match su_role f with NGO => Some (strip goals) | Individual => None end)).

(** Lines 112-134: the handler of "Create account". *)
Definition create_account (f : SignupForm) : M unit :=
  try_except_HTTPError
    (data <- api_post (u "/auth/register") (register_payload f) PNone ;;
     access_token <- getitem data (u "access_token") ;;
     register_assignments f access_token ;;
     show (st_success (u "Account created & logged in.")) ;;
     (* time.sleep(0.6) *)
     st_experimental_rerun)
    (fun r => show (st_error (u "Sign up failed: " ++ text r))).

(** Lines 143-144: what a successful login assigns. *)
Definition login_assignments (login_email : pystr) (access_token : pyval)
  : M unit :=
  set_session (set_token access_token) ;;
  set_session (set_email (Some (strip login_email))).

(** Lines 140-149: the handler of "Login". *)
Definition login (login_email password : pystr) : M unit :=
  try_except_HTTPError
    (data <- api_post (u "/auth/login")
               (PDict [(PStr (u "email"), PStr (strip login_email));
                       (PStr (u "password"), PStr password)]) PNone ;;
     (* We don't know role from token; keep minimal header *)
     access_token <- getitem data (u "access_token") ;;
     login_assignments login_email access_token ;;
     show (st_success (u "Logged in.")) ;;
     (* time.sleep(0.5) *)
     st_experimental_rerun)
    (fun r => show (st_error (u "Login failed: " ++ text r))).

Definition auth_panel : M unit :=
  match auth_mode ui with
  | SignUp => when (button ui (u "Create account")) (create_account (signup ui))
  | Login =>
      when (button ui (u "Login"))
        (login (keyed ui (u "login_email")) (keyed ui (u "login_pwd")))
  end.

(** Lines 152-153: if not logged in, stop here. *)
Definition auth_gate : M unit :=
  s <- get_session ;;
  if negb (truthy (token s)) then st_stop else ret tt.

(** *** Surveys (lines 166-225) *)

(** The common shape of the [except requests.HTTPError as e] clauses:
    [st.error(f"<what> failed: {e.response.text}")]. *)
Definition error_with (prefix : pystr) (r : response) : M unit :=
  show (st_error (prefix ++ text r)).

(** Lines 191-197: the answers of one survey are sent. *)
Definition submit_answers (id answers : pyval) : M unit :=
  try_except_HTTPError
    (tok <- session_token ;;
     _ <- api_post (u "/surveys/" ++ py_str id ++ u "/respond")
            (PDict [(PStr (u "answers"), answers)]) tok ;;
     show (st_success (u "Submitted. Thank you!")))
    (error_with (u "Submit failed: ")).

(** Lines 186-188: [answers[i] = st.text_area(q, key=f"ans_{s['id']}_{i}")]
    for each numbered question, in order; the items of [answers].  The keys
    of two text areas differ when their forms' keys do, so that a key met
    twice means a form met twice, which [with_form] has refused before. *)
Fixpoint collect_answers (id : pyval) (numbered : list (nat * pyval))
  : M (list (pyval * pyval)) :=
  match numbered with
  | [] => ret []
  | (i, q) :: rest =>
      answer <- st_text_area q (u "ans_" ++ py_str id ++ u "_"
                                ++ str_of_Z (Z.of_nat i)) ;;
      answers <- collect_answers id rest ;;
      ret ((PInt (Z.of_nat i), PStr answer) :: answers)
  end.

(** Line 183: the numbered questions, one per line. *)
Definition numbered_questions (questions : list pyval) : pystr :=
  join [10%N]
    (map (fun iq => u "Q" ++ str_of_Z (Z.of_nat (fst iq) + 1) ++ u ": "
                    ++ py_str (snd iq))
         (enumerate questions)).

(** Lines 180-197: one survey of the list. *)
Definition survey_card (s : pyval) : M unit :=
  title <- getitem s (u "title") ;;
  sdg <- getitem s (u "sdg") ;;
  show (st_write (PStr (u "**" ++ py_str title ++ u "** (SDG "
                        ++ py_str sdg ++ u ")"))) ;;
  target <- getitem s (u "target_location") ;;
  show (st_caption (u "Target: " ++ py_str target)) ;;
  qs <- getitem s (u "questions") ;;
  questions <- py_iter qs ;;
  show (st_code (numbered_questions questions)) ;;
  id <- getitem s (u "id") ;;
  with_form (u "resp_" ++ py_str id) ;;
  show (st_markdown (u "**Your Answers**")) ;;
  answers <- collect_answers id (enumerate questions) ;;
  when (form_submit ui (u "resp_" ++ py_str id))
    (submit_answers id (PDict answers)).

(** Lines 174-199: the handler of "List surveys".  The cards and their
    forms are made here and nowhere else: on a page made by a run in which
    "List surveys" was not the click, there is none. *)
Definition list_surveys : M unit :=
  try_except_HTTPError
    (tok <- session_token ;;
     res <- api_get (u "/surveys/list")
              (Some [(u "location", PStr (my_loc ui))]) tok ;;
     if negb (truthy res)
     then show (st_info (u "No surveys found for that location."))
     else (surveys <- py_iter res ;; for_each surveys survey_card))
    (error_with (u "List failed: ")).

(** Lines 215-221 *)
Definition create_survey_payload : pyval :=
  let questions := parse_questions (cs_questions_blob ui) in
  PDict
    [(PStr (u "title"), PStr (strip (cs_title ui)));
     (PStr (u "description"), PStr (strip (cs_description ui)));
     (PStr (u "sdg"), PInt (cs_sdg ui));
     (PStr (u "target_location"), PStr (strip (cs_target_location ui)));
     (PStr (u "questions"), PList (map PStr questions))].

(** Lines 213-225: the handler of "Create Survey". *)
Definition create_survey : M unit :=
  try_except_HTTPError
    (tok <- session_token ;;
     out <- api_post (u "/surveys/create") create_survey_payload tok ;;
     survey_id <- get_or out (u "survey_id") PNone ;;
     show (st_success (u "Survey created. ID: " ++ py_str survey_id)))
    (error_with (u "Create failed: ")).

Definition surveys_view : M unit :=
  show (st_tab VSurveys) ;;
  show (st_subheader (u "Surveys")) ;;
  show (st_markdown (u "##### Find Surveys Where You Are")) ;;
  when (button ui (u "List surveys")) list_surveys ;;
  show (st_markdown (u "##### Create Survey (NGOs)")) ;;
  show (st_caption (u "Only visible to NGOs.")) ;;
  with_form (u "create_survey_form") ;;
  when (form_submit ui (u "create_survey_form")) create_survey.

(** *** Civic Reports (lines 230-270) *)

(** Lines 243-253: the handler of the report form. *)
Definition submit_report : M unit :=
  try_except_HTTPError
    (tok <- session_token ;;
     out <- api_post (u "/civic/report")
              (PDict
                 [(PStr (u "category"), PStr (cr_category ui));
                  (PStr (u "title"), PStr (strip (cr_title ui)));
                  (PStr (u "content"), PStr (strip (cr_content ui)));
                  (PStr (u "location"), PStr (strip (cr_location ui)))]) tok ;;
     verified <- get_or out (u "verified") PNone ;;
     let ok := if truthy verified
               then [9989%N] ++ u " Verified human"
               else [9888%N; 65039%N] ++ u " Needs review" in
     id <- get_or out (u "id") PNone ;;
     show (st_success (u "Report stored (ID " ++ py_str id ++ u "). " ++ ok)))
    (error_with (u "Submit failed: ")).

(** [v.upper()]: only a [str] has it. *)
Definition upper (v : pyval) : M pystr :=
  match v with
  | PStr s => ret (str_upper env s)
  | _ => raise AttributeError
  end.

(** Lines 265-268: one report of the feed. *)
Definition feed_card (r : pyval) : M unit :=
  title <- getitem r (u "title") ;;
  category <- getitem r (u "category") ;;
  category_upper <- upper category ;;
  show (st_write (PStr (u "**" ++ py_str title ++ u "** " ++ [8212%N] ++ u " "
                        ++ category_upper))) ;;
  loc <- getitem r (u "location") ;;
  created_at <- getitem r (u "created_at") ;;
  show (st_caption (py_str loc ++ u " " ++ [8226%N] ++ u " "
                    ++ py_str created_at)) ;;
  verified <- get_or r (u "verified") PNone ;;
  badge (if truthy verified then u "Verified" else u "Unverified").

(** Lines 260-270: the handler of "Load feed". *)
Definition load_feed : M unit :=
  try_except_HTTPError
    (tok <- session_token ;;
     res <- api_get (u "/civic/feed")
              (Some [(u "location", PStr (f_loc ui));
                     (u "category", PStr (f_cat ui))]) tok ;;
     when (negb (truthy res)) (show (st_info (u "No recent reports."))) ;;
     reports <- py_iter res ;;
     for_each reports feed_card)
    (error_with (u "Load failed: ")).

Definition civic_view : M unit :=
  show (st_tab VCivicReports) ;;
  show (st_subheader
          (u "Civic Reports (Disasters, Crimes, Achievements, SDG progress)")) ;;
  show (st_markdown (u "##### Publish a Report")) ;;
  with_form (u "civic_report_form") ;;
  when (form_submit ui (u "civic_report_form")) submit_report ;;
  show (st_markdown (u "##### Local Feed")) ;;
  when (button ui (u "Load feed")) load_feed.

(** *** SkillUp (lines 275-346) *)

(** Lines 288-297: the handler of "Publish Tutorial". *)
Definition publish_tutorial : M unit :=
  try_except_HTTPError
    (tok <- session_token ;;
     out <- api_post (u "/skillup/tutorials/create")
              (PDict
                 [(PStr (u "title"), PStr (strip (keyed ui (u "t_title"))));
                  (PStr (u "content"), PStr (strip (keyed ui (u "t_content"))));
                  (PStr (u "sdg_tags"), PStr (strip (keyed ui (u "t_tags"))));
                  (PStr (u "location"), PStr (strip (keyed ui (u "t_loc"))))])
              tok ;;
     tutorial_id <- get_or out (u "tutorial_id") PNone ;;
     show (st_success (u "Tutorial created. ID: " ++ py_str tutorial_id)))
    (error_with (u "Create failed: ")).

(** Lines 308-310: one tutorial of the list. *)
Definition tutorial_card (t : pyval) : M unit :=
  title <- getitem t (u "title") ;;
  show (st_write (PStr (u "**" ++ py_str title ++ u "**"))) ;;
  tags <- get_or t (u "sdg_tags") PNone ;;
  loc <- get_or t (u "location") PNone ;;
  show (st_caption (py_str (py_or tags (PStr (u "No tags")))
                    ++ u " " ++ [8226%N] ++ u " "
                    ++ py_str (py_or loc (PStr [8212%N])))).

(** Lines 303-312: the handler of "Load tutorials". *)
Definition load_tutorials : M unit :=
  try_except_HTTPError
    (tok <- session_token ;;
     res <- api_get (u "/skillup/tutorials")
              (Some [(u "tag", PStr (ft_tag ui));
                     (u "location", PStr (ft_loc ui))]) tok ;;
     when (negb (truthy res)) (show (st_info (u "No tutorials found."))) ;;
     tutorials <- py_iter res ;;
     for_each tutorials tutorial_card)
    (error_with (u "Load failed: ")).

(** Lines 323-332: the handler of "Create Opportunity". *)
Definition create_opportunity : M unit :=
  try_except_HTTPError
    (tok <- session_token ;;
     out <- api_post (u "/skillup/opportunities/create")
              (PDict
                 [(PStr (u "title"), PStr (strip (keyed ui (u "o_title"))));
                  (PStr (u "details"), PStr (strip (keyed ui (u "o_details"))));
                  (PStr (u "location"), PStr (strip (keyed ui (u "o_loc"))));
                  (PStr (u "sdg_tags"), PStr (strip (keyed ui (u "o_tags"))))])
              tok ;;
     opportunity_id <- get_or out (u "opportunity_id") PNone ;;
     show (st_success (u "Opportunity created. ID: " ++ py_str opportunity_id)))
    (error_with (u "Create failed: ")).

(** Lines 342-344: one opportunity of the list. *)
Definition opportunity_card (o : pyval) : M unit :=
  title <- getitem o (u "title") ;;
  show (st_write (PStr (u "**" ++ py_str title ++ u "**"))) ;;
  tags <- get_or o (u "sdg_tags") PNone ;;
  loc <- getitem o (u "location") ;;
  show (st_caption (py_str (py_or tags (PStr (u "No tags")))
                    ++ u " " ++ [8226%N] ++ u " " ++ py_str loc)).

(** Lines 337-346: the handler of "Load opportunities". *)
Definition load_opportunities : M unit :=
  try_except_HTTPError
    (tok <- session_token ;;
     res <- api_get (u "/skillup/opportunities")
              (Some [(u "location", PStr (keyed ui (u "fo_loc")))]) tok ;;
     when (negb (truthy res)) (show (st_info (u "No opportunities found."))) ;;
     opportunities <- py_iter res ;;
     for_each opportunities opportunity_card)
    (error_with (u "Load failed: ")).

(** Line 301: [st.text_input("Filter by location (optional)",
    value=st.session_state.location or "")], without [key=] and outside a
    form.  Line 257 is the same call, word for word.  A run that arrives
    here has made it, since line 257 stands under no condition, and with
    the same value, since no view assigns to the session.  Streamlit gives
    a widget without a key an ID made of its kind, its label and its
    arguments, and refuses the second widget of one ID: the call raises. *)
Definition repeated_text_input (label : pystr) : M pystr :=
  raise DuplicateWidgetID.

Definition skillup_view : M unit :=
  show (st_tab VSkillUp) ;;
  show (st_subheader
          (u "SkillUp " ++ [8212%N] ++ u " Tutorials & NGO Opportunities")) ;;
  show (st_markdown (u "##### Post a Tutorial (any user)")) ;;
  with_form (u "tutorial_form") ;;
  when (form_submit ui (u "tutorial_form")) publish_tutorial ;;
  show (st_markdown (u "##### Browse Tutorials")) ;;
  repeated_text_input (u "Filter by location (optional)") ;;
  when (button ui (u "Load tutorials")) load_tutorials ;;
  show (st_markdown (u "##### Post Volunteer Opportunity (NGO only)")) ;;
  with_form (u "opp_form") ;;
  when (form_submit ui (u "opp_form")) create_opportunity ;;
  show (st_markdown (u "##### Browse Opportunities")) ;;
  when (button ui (u "Load opportunities")) load_opportunities.

(** *** Discussions (lines 354-395) *)

(** Lines 364-371: the handler of "Post Topic". *)
Definition post_topic : M unit :=
  try_except_HTTPError
    (tok <- session_token ;;
     out <- api_post (u "/discussions/new")
              (PDict
                 [(PStr (u "title"), PStr (strip (topic_title ui)));
                  (PStr (u "content"), PStr (strip (topic_content ui)))]) tok ;;
     topic_id <- get_or out (u "topic_id") PNone ;;
     show (st_success (u "Topic created with ID: " ++ py_str topic_id)))
    (error_with (u "Topic creation failed: ")).

(** Lines 386-393: the handler of "Post Comment" under one topic. *)
Definition post_comment (id : pyval) (body : pystr) : M unit :=
  try_except_HTTPError
    (tok <- session_token ;;
     out <- api_post (u "/discussions/comment")
              (PDict [(PStr (u "topic_id"), id);
                      (PStr (u "body"), PStr (strip body))]) tok ;;
     comment_id <- get_or out (u "comment_id") PNone ;;
     show (st_success (u "Comment added. ID: " ++ py_str comment_id)))
    (error_with (u "Comment failed: ")).

(** Lines 377-393: one topic of the list. *)
Definition topic_card (t : pyval) : M unit :=
  title <- getitem t (u "title") ;;
  with_expander title ;;
  content <- getitem t (u "content") ;;
  show (st_write content) ;;
  author <- getitem t (u "author") ;;
  created_at <- getitem t (u "created_at") ;;
  show (st_caption (u "By: " ++ py_str author ++ u " | " ++ py_str created_at)) ;;
  id <- getitem t (u "id") ;;
  with_form (u "comment_form_" ++ py_str id) ;;
  let body := keyed ui (u "comment_" ++ py_str id) in
  when (form_submit ui (u "comment_form_" ++ py_str id)) (post_comment id body).

(** Lines 374-395: the topics are fetched and shown on every run. *)
Definition show_topics : M unit :=
  try_except_HTTPError
    (tok <- session_token ;;
     listing <- api_post (u "/discussions/list") (PDict []) tok ;;
     topics <- get_or listing (u "topics") (PList []) ;;
     topics <- py_iter topics ;;
     for_each topics topic_card)
    (error_with (u "Failed to load discussions: ")).

Definition discussions_view : M unit :=
  show (st_tab VDiscussions) ;;
  show (st_subheader (u "Community Discussions")) ;;
  show (st_caption (u "Post a topic and share views with others.")) ;;
  with_form (u "new_topic_form") ;;
  when (form_submit ui (u "new_topic_form")) post_topic ;;
  show_topics.

(** *** NGO AI Report (lines 400-414) *)

(** Lines 408-414: the handler of "Generate Report". *)
Definition generate_report : M unit :=
  try_except_HTTPError
    (tok <- session_token ;;
     res <- api_post (u "/reports/ai-summary")
              (PDict
                 [(PStr (u "survey_id"), PInt (ai_survey_id ui));
                  (PStr (u "region"), py_or (PStr (ai_region ui)) PNone)]) tok ;;
     count <- get_or res (u "count") (PStr [8212%N]) ;;
     show (st_success (u "Responses analyzed: " ++ py_str count)) ;;
     summary <- get_or res (u "summary") (PStr []) ;;
     show (st_text_area_value (u "Summary") summary))
    (error_with (u "Report failed: ")).

Definition ai_report_view : M unit :=
  show (st_tab VAIReport) ;;
  show (st_subheader (u "NGO AI Report (Survey Insights)")) ;;
  show (st_caption (u "Generate a quick summary over survey responses.")) ;;
  with_form (u "ai_report_form") ;;
  when (form_submit ui (u "ai_report_form")) generate_report.

(** *** Profile (lines 419-428) *)

Definition role_is (r : Role) (o : option Role) : bool :=
  match o, r with
  | Some Individual, Individual => true
  | Some NGO, NGO => true
  | _, _ => false
  end.

Definition profile_view : M unit :=
  show (st_tab VProfile) ;;
  show (st_subheader (u "Profile")) ;;
  s <- get_session ;;
  show (st_write (PStr (u "**Email:** "
                        ++ py_str (py_or (opt_str (email s)) (PStr []))))) ;;
  show (st_write (PStr (u "**Role:** "
                        ++ py_str (py_or (opt_role (role s)) (PStr [8212%N]))))) ;;
  show (st_write (PStr (u "**Name:** "
                        ++ py_str (py_or (opt_str (name s)) (PStr [8212%N]))))) ;;
  show (st_write (PStr (u "**Location:** "
                        ++ py_str (py_or (opt_str (location s)) (PStr [8212%N]))))) ;;
  when (role_is Individual (role s))
    (show (st_write (PStr (u "**Age:** "
                           ++ py_str (py_or (opt_int (age s)) (PStr [8212%N])))))) ;;
  when (role_is NGO (role s))
    (show (st_write (PStr (u "**NGO Goals:** "
                           ++ py_str (py_or (opt_str (ngo_goals s))
                                        (PStr [8212%N])))))).

(** *** The whole script *)

(** Lines 72-149: what runs before the gate. *)
Definition before_gate : M unit :=
  header ;;
  show st_divider ;;
  auth_panel.

(** Lines 158-428: the six tabs. *)
Definition views : M unit :=
  surveys_view ;;
  civic_view ;;
  skillup_view ;;
  discussions_view ;;
  ai_report_view ;;
  profile_view.

Definition script : M unit :=
  before_gate ;;
  auth_gate ;;
  views ;;
  show (st_caption ([169%N] ++ u " Humanet prototype")).

(** One run of the script on the session the previous run left ([None]
    for the first run of a browser session). *)
Definition run (prev : option Session) : res unit * state :=
  script (mkState (session_init prev) [] []).

End Script.

(* ================================================================== *)
(** ** Reading requests and payloads *)

(** The value a [dict] holds under a [str] key, if any. *)
Definition field (key : pystr) (v : pyval) : option pyval :=
  match v with
  | PDict kv => dict_find key kv
  | _ => None
  end.

(** The value of a header, if the request carries it. *)
Fixpoint header_value (key : pystr) (hs : list (pystr * pystr)) : option pystr :=
  match hs with
  | [] => None
  | (k, v) :: hs' => if pystr_eqb k key then Some v else header_value key hs'
  end.

(** The first character of a string, when there is one, passes [ok]. *)
Definition head_ok (ok : N -> bool) (s : pystr) : bool :=
  match s with [] => true | c :: _ => ok c end.

(** The last character of a string, when there is one, passes [ok]. *)
Definition last_ok (ok : N -> bool) (s : pystr) : bool := head_ok ok (rev s).

(** No character of the string is a line boundary. *)
Definition one_line (s : pystr) : bool :=
  forallb (fun c => negb (is_linebreak c)) s.

(** ** What a gateway call comes to *)

(** The state once one more request has gone out. *)
Definition after_sending (rq : request) (st : state) : state :=
  mkState (session st) (shown st) (sent st ++ [rq]).

(** What a gateway call comes to, by what the backend answers. *)
Definition gateway_result (env : Env) (rq : request) (st : state)
  : res pyval * state :=
  match backend env (sent st) rq with
  | ConnectionFailed => (Sig (Raised RequestException), after_sending rq st)
  | Responded r =>
      if is_error_status (status_code r)
      then (Sig (Raised (HTTPError r)), after_sending rq st)
      else match json r with
           | Some v => (Val v, after_sending rq st)
           | None => (Sig (Raised JSONDecodeError), after_sending rq st)
           end
  end.

(** ** The user-triggered actions *)

(** The fifteen places where the script calls the gateway, each inside a
    [try] of its own. *)
Inductive action :=
| ARegister
| ALogin
| AListSurveys
| ASubmitAnswers (id answers : pyval)
| ACreateSurvey
| ASubmitReport
| ALoadFeed
| APublishTutorial
| ALoadTutorials
| ACreateOpportunity
| ALoadOpportunities
| APostTopic
| AShowTopics
| APostComment (id : pyval) (body : pystr)
| AGenerateReport.

(** The [try ... except requests.HTTPError] block of an action. *)
Definition handler (env : Env) (ui : UI) (a : action) : M unit :=
  match a with
  | ARegister => create_account env (signup ui)
  | ALogin => login env (keyed ui (u "login_email")) (keyed ui (u "login_pwd"))
  | AListSurveys => list_surveys env ui
  | ASubmitAnswers id answers => submit_answers env id answers
  | ACreateSurvey => create_survey env ui
  | ASubmitReport => submit_report env ui
  | ALoadFeed => load_feed env ui
  | APublishTutorial => publish_tutorial env ui
  | ALoadTutorials => load_tutorials env ui
  | ACreateOpportunity => create_opportunity env ui
  | ALoadOpportunities => load_opportunities env ui
  | APostTopic => post_topic env ui
  | AShowTopics => show_topics env ui
  | APostComment id body => post_comment env id body
  | AGenerateReport => generate_report env ui
  end.

(** The request an action sends, [tok] being the token of the session. *)
Definition action_request (env : Env) (ui : UI) (a : action) (tok : pyval)
  : request :=
  match a with
  | ARegister =>
      post_request env (u "/auth/register") (register_payload (signup ui)) PNone
  | ALogin =>
      post_request env (u "/auth/login")
        (PDict [(PStr (u "email"), PStr (strip (keyed ui (u "login_email"))));
                (PStr (u "password"), PStr (keyed ui (u "login_pwd")))]) PNone
  | AListSurveys =>
      get_request env (u "/surveys/list")
        (Some [(u "location", PStr (my_loc ui))]) tok
  | ASubmitAnswers id answers =>
      post_request env (u "/surveys/" ++ py_str env id ++ u "/respond")
        (PDict [(PStr (u "answers"), answers)]) tok
  | ACreateSurvey =>
      post_request env (u "/surveys/create") (create_survey_payload ui) tok
  | ASubmitReport =>
      post_request env (u "/civic/report")
        (PDict
           [(PStr (u "category"), PStr (cr_category ui));
            (PStr (u "title"), PStr (strip (cr_title ui)));
            (PStr (u "content"), PStr (strip (cr_content ui)));
            (PStr (u "location"), PStr (strip (cr_location ui)))]) tok
  | ALoadFeed =>
      get_request env (u "/civic/feed")
        (Some [(u "location", PStr (f_loc ui));
               (u "category", PStr (f_cat ui))]) tok
  | APublishTutorial =>
      post_request env (u "/skillup/tutorials/create")
        (PDict
           [(PStr (u "title"), PStr (strip (keyed ui (u "t_title"))));
            (PStr (u "content"), PStr (strip (keyed ui (u "t_content"))));
            (PStr (u "sdg_tags"), PStr (strip (keyed ui (u "t_tags"))));
            (PStr (u "location"), PStr (strip (keyed ui (u "t_loc"))))]) tok
  | ALoadTutorials =>
      get_request env (u "/skillup/tutorials")
        (Some [(u "tag", PStr (ft_tag ui));
               (u "location", PStr (ft_loc ui))]) tok
  | ACreateOpportunity =>
      post_request env (u "/skillup/opportunities/create")
        (PDict
           [(PStr (u "title"), PStr (strip (keyed ui (u "o_title"))));
            (PStr (u "details"), PStr (strip (keyed ui (u "o_details"))));
            (PStr (u "location"), PStr (strip (keyed ui (u "o_loc"))));
            (PStr (u "sdg_tags"), PStr (strip (keyed ui (u "o_tags"))))]) tok
  | ALoadOpportunities =>
      get_request env (u "/skillup/opportunities")
        (Some [(u "location", PStr (keyed ui (u "fo_loc")))]) tok
  | APostTopic =>
      post_request env (u "/discussions/new")
        (PDict
           [(PStr (u "title"), PStr (strip (topic_title ui)));
            (PStr (u "content"), PStr (strip (topic_content ui)))]) tok
  | AShowTopics => post_request env (u "/discussions/list") (PDict []) tok
  | APostComment id body =>
      post_request env (u "/discussions/comment")
        (PDict [(PStr (u "topic_id"), id);
                (PStr (u "body"), PStr (strip body))]) tok
  | AGenerateReport =>
      post_request env (u "/reports/ai-summary")
        (PDict
           [(PStr (u "survey_id"), PInt (ai_survey_id ui));
            (PStr (u "region"), py_or (PStr (ai_region ui)) PNone)]) tok
  end.

(** The text before the response body in the action's error message. *)
Definition failure_prefix (a : action) : pystr :=
  match a with
  | ARegister => u "Sign up failed: "
  | ALogin => u "Login failed: "
  | AListSurveys => u "List failed: "
  | ASubmitAnswers _ _ => u "Submit failed: "
  | ACreateSurvey => u "Create failed: "
  | ASubmitReport => u "Submit failed: "
  | ALoadFeed => u "Load failed: "
  | APublishTutorial => u "Create failed: "
  | ALoadTutorials => u "Load failed: "
  | ACreateOpportunity => u "Create failed: "
  | ALoadOpportunities => u "Load failed: "
  | APostTopic => u "Topic creation failed: "
  | AShowTopics => u "Failed to load discussions: "
  | APostComment _ _ => u "Comment failed: "
  | AGenerateReport => u "Report failed: "
  end.

(** ** Properties of computations *)

(** The computation leaves an observation [f] of the state as it found it,
    however it ends. *)
Definition preserves {A X} (f : state -> X) (m : M A) : Prop :=
  forall st, f (snd (m st)) = f st.

(** The computation leaves the session as it found it. *)
Definition keeps_session {A} (m : M A) : Prop := preserves session m.

Definition is_tab (e : element) : bool :=
  match e with st_tab _ => true | _ => false end.

(** The tabs entered so far. *)
Definition tabs_of (st : state) : list element := filter is_tab (shown st).

(** The computation enters none of the six tabs. *)
Definition opens_no_tab {A} (m : M A) : Prop := preserves tabs_of m.

(** No [requests.HTTPError] leaves the computation. *)
Definition catches_HTTPError {A} (m : M A) : Prop :=
  forall st r, fst (m st) <> Sig (Raised (HTTPError r)).

(** [needle in s] for strings. *)
Definition contains (s needle : pystr) : Prop :=
  exists pre post, s = pre ++ needle ++ post.

(** The session after each of the three mutations the script has. *)
Definition after_logout (s : Session) : Session :=
  mkSession PNone None None (name s) (location s) (age s) (ngo_goals s).

Definition after_register (f : SignupForm) (access_token : pyval) : Session :=
  mkSession access_token (Some (su_role f))
    (Some (strip (su_email f))) (Some (strip (su_name f)))
    (Some (strip (su_location f)))
    (match su_role f with Individual => Some (su_age f) | NGO => None end)
    (match su_role f with NGO => Some (strip (su_goals f)) | Individual => None end).

Definition after_login (login_email : pystr) (access_token : pyval)
  (s : Session) : Session :=
  mkSession access_token (role s) (Some (strip login_email))
    (name s) (location s) (age s) (ngo_goals s).

(** ** Sample inputs *)

(** An environment with no variables set and no icon file, around a given
    backend. *)
Definition sample_env (b : list request -> request -> reply) : Env :=
  mkEnv (fun _ => None) (fun _ => false) b
        (fun _ => u "<json>") (fun _ => u "<container>") (fun s => s).

(** A backend that gives every request the same answer. *)
Definition always (r : response) : list request -> request -> reply :=
  fun _ _ => Responded r.

(** Nothing pressed, every field at its default. *)
Definition idle_ui : UI :=
  mkUI None (fun _ => []) Login
       (mkSignupForm Individual [] [] [] [] 25 [])
       [] [] [] 4 (u "Uganda") [] (u "disaster") [] [] [] [] [] [] [] [] [] 1 [].

(** The run that the click on the button [label] starts. *)
Definition pressing (label : pystr) (ui : UI) : UI :=
  mkUI (Some (Button label)) (keyed ui)
       (auth_mode ui) (signup ui) (my_loc ui) (cs_title ui) (cs_description ui)
       (cs_sdg ui) (cs_target_location ui) (cs_questions_blob ui)
       (cr_category ui) (cr_title ui) (cr_content ui) (cr_location ui)
       (f_loc ui) (f_cat ui) (ft_tag ui) (ft_loc ui) (topic_title ui)
       (topic_content ui) (ai_survey_id ui) (ai_region ui).

(** The run that the click on the submit button of [form] starts. *)
Definition submitting (form : pystr) (ui : UI) : UI :=
  mkUI (Some (FormSubmit form)) (keyed ui)
       (auth_mode ui) (signup ui) (my_loc ui) (cs_title ui) (cs_description ui)
       (cs_sdg ui) (cs_target_location ui) (cs_questions_blob ui)
       (cr_category ui) (cr_title ui) (cr_content ui) (cr_location ui)
       (f_loc ui) (f_cat ui) (ft_tag ui) (ft_loc ui) (topic_title ui)
       (topic_content ui) (ai_survey_id ui) (ai_region ui).

Definition typing (key value : pystr) (ui : UI) : UI :=
  mkUI (clicked ui)
       (fun k => if pystr_eqb k key then value else keyed ui k)
       (auth_mode ui) (signup ui) (my_loc ui) (cs_title ui) (cs_description ui)
       (cs_sdg ui) (cs_target_location ui) (cs_questions_blob ui)
       (cr_category ui) (cr_title ui) (cr_content ui) (cr_location ui)
       (f_loc ui) (f_cat ui) (ft_tag ui) (ft_loc ui) (topic_title ui)
       (topic_content ui) (ai_survey_id ui) (ai_region ui).

Definition signing_up (f : SignupForm) (ui : UI) : UI :=
  mkUI (clicked ui) (keyed ui) SignUp f
       (my_loc ui) (cs_title ui) (cs_description ui)
       (cs_sdg ui) (cs_target_location ui) (cs_questions_blob ui)
       (cr_category ui) (cr_title ui) (cr_content ui) (cr_location ui)
       (f_loc ui) (f_cat ui) (ft_tag ui) (ft_loc ui) (topic_title ui)
       (topic_content ui) (ai_survey_id ui) (ai_region ui).

(** A 400 whose body is the text "bad email". *)
Definition bad_email : response := mkResponse 400 (u "bad email") None.

(** A 200 that carries [{"access_token": tok}]. *)
Definition grants (tok : pystr) : response :=
  mkResponse 200 (u "{...}")
    (Some (PDict [(PStr (u "access_token"), PStr tok)])).

(** A 200 with an empty JSON object. *)
Definition acknowledges : response := mkResponse 200 (u "{}") (Some (PDict [])).

(** Jane, an Individual, as her registration left the session. *)
Definition jane : Session :=
  mkSession (PStr (u "tok-jane")) (Some Individual) (Some (u "jane@example.org"))
            (Some (u "Jane")) (Some (u "Kampala")) (Some 30%Z) None.

(** The sign-up form with blanks around the name. *)
Definition padded_form : SignupForm :=
  mkSignupForm Individual (u " Jane ") (u "jane@example.org") (u "secret")
               (u "Kampala") 30 [].

Definition empty_state (s : Session) : state := mkState s [] [].

(** The requests of the two auth actions. *)
Definition register_request (env : Env) (f : SignupForm) : request :=
  post_request env (u "/auth/register") (register_payload f) PNone.

Definition login_request (env : Env) (login_email password : pystr) : request :=
  post_request env (u "/auth/login")
    (PDict [(PStr (u "email"), PStr (strip login_email));
            (PStr (u "password"), PStr password)]) PNone.

(** ** What the header shows *)

(** The elements of lines 72-84, for the session the run started with. *)
Definition header_elements (env : Env) (s : Session) : list element :=
  [ (if path_exists env (ICON_PATH env)
     then st_image (ICON_PATH env)
     else st_write (PStr [127757%N]));
    st_markdown (u "### " ++ APP_NAME);
    st_caption
      (u "Civic reports, SDG surveys, SkillUp tutorials, NGO insights "
       ++ [8212%N] ++ u " in one place.") ]
  ++ (if truthy (token s)
      then [ st_markdown
               (badge_markup (u "Logged in as " ++ py_str env (opt_role (role s))));
             st_write (py_or (opt_str (email s)) (PStr [])) ]
      else []).

(** ** Answering a survey *)

(** Survey 42 with two questions, and the user who answers "yes" and "no"
    and submits. *)
Definition survey_42 : pyval :=
  PDict [(PStr (u "id"), PInt 42);
         (PStr (u "title"), PStr (u "Water"));
         (PStr (u "sdg"), PInt 6);
         (PStr (u "target_location"), PStr (u "Kampala"));
         (PStr (u "questions"),
           PList [PStr (u "Is water clean?"); PStr (u "Is it far?")])].

Definition answering_42 : UI :=
  submitting (u "resp_42")
    (typing (u "ans_42_0") (u "yes") (typing (u "ans_42_1") (u "no") idle_ui)).

(** A 200 that carries the given JSON value. *)
Definition answers_with (v : pyval) : response := mkResponse 200 (u "...") (Some v).

(** A backend that has this one survey for every location. *)
Definition one_survey : list request -> request -> reply :=
  always (answers_with (PList [survey_42])).

(** The request of "List surveys" with the location box left empty. *)
Definition list_request (env : Env) (tok : pyval) : request :=
  get_request env (u "/surveys/list") (Some [(u "location", PStr [])]) tok.

(** ** Answers that are neither 2xx nor an error for [raise_for_status] *)

(** A 304 with no body. *)
Definition not_modified : response := mkResponse 304 [] None.


(** ** A page on which no handler runs *)

(** The click that started the run, if there was one, is on none of the
    buttons and forms that lines 72-299 make outside a handler. *)
Definition quiet (ui : UI) : Prop :=
  button ui (u "Logout") = false
  /\ button ui (u "Login") = false
  /\ button ui (u "Create account") = false
  /\ button ui (u "List surveys") = false
  /\ button ui (u "Load feed") = false
  /\ form_submit ui (u "create_survey_form") = false
  /\ form_submit ui (u "civic_report_form") = false
  /\ form_submit ui (u "tutorial_form") = false.

(** What lines 167-299 put on the page when no handler runs: the Surveys
    tab, the Civic Reports tab, and the SkillUp tab down to "Browse
    Tutorials". *)
Definition quiet_views : list element :=
  [ st_tab VSurveys;
    st_subheader (u "Surveys");
    st_markdown (u "##### Find Surveys Where You Are");
    st_markdown (u "##### Create Survey (NGOs)");
    st_caption (u "Only visible to NGOs.");
    st_form (u "create_survey_form");
    st_tab VCivicReports;
    st_subheader
      (u "Civic Reports (Disasters, Crimes, Achievements, SDG progress)");
    st_markdown (u "##### Publish a Report");
    st_form (u "civic_report_form");
    st_markdown (u "##### Local Feed");
    st_tab VSkillUp;
    st_subheader (u "SkillUp " ++ [8212%N] ++ u " Tutorials & NGO Opportunities");
    st_markdown (u "##### Post a Tutorial (any user)");
    st_form (u "tutorial_form");
    st_markdown (u "##### Browse Tutorials") ].

(** ** What a survey card shows before its form *)

(** The elements of lines 181-183 for a survey with these fields. *)
Definition card_head (env : Env) (title sdg target : pyval)
  (questions : list pyval) : list element :=
  [ st_write (PStr (u "**" ++ py_str env title ++ u "** (SDG "
                    ++ py_str env sdg ++ u ")"));
    st_caption (u "Target: " ++ py_str env target);
    st_code (numbered_questions env questions) ].

Definition is_str (v : pyval) : bool :=
  match v with PStr _ => true | _ => false end.

(** Survey 42 with a number as its second question. *)
Definition survey_42_numbered : pyval :=
  PDict [(PStr (u "id"), PInt 42);
         (PStr (u "title"), PStr (u "Water"));
         (PStr (u "sdg"), PInt 6);
         (PStr (u "target_location"), PStr (u "Kampala"));
         (PStr (u "questions"), PList [PStr (u "Is water clean?"); PInt 2])].

(** The computation never returns: it ends the run, with [st.stop()], a
    rerun or an exception. *)
Definition never_returns {A} (m : M A) : Prop :=
  forall st, exists sg, fst (m st) = Sig sg.

(** The element is not the tab of Discussions, of the AI report or of the
    profile. *)
Definition early_tab (e : element) : Prop :=
  match e with
  | st_tab VDiscussions | st_tab VAIReport | st_tab VProfile => False
  | _ => True
  end.

(** ** The lines of a text, told without the scanner *)

(** [lines_of s ls]: [ls] are the lines of [s] as [str.splitlines]
    documents them.  The empty text has no line; a text without a line
    boundary is one line; otherwise the first line is the text before the
    first boundary, and the lines of what follows the boundary come after
    it, where \r\n counts as one boundary. *)
Inductive lines_of : pystr -> list pystr -> Prop :=
| lines_none : lines_of [] []
| lines_last (a : pystr) :
    a <> [] -> one_line a = true -> lines_of a [a]
| lines_crlf (a rest : pystr) (ls : list pystr) :
    one_line a = true -> lines_of rest ls ->
    lines_of (a ++ 13%N :: 10%N :: rest) (a :: ls)
| lines_break (a : pystr) (c : N) (rest : pystr) (ls : list pystr) :
    one_line a = true -> is_linebreak c = true ->
    (c = 13%N -> hd_error rest <> Some 10%N) ->
    lines_of rest ls ->
    lines_of (a ++ c :: rest) (a :: ls).

(** ** More properties of computations *)

(** The computation only appends to the list [f] of the state (what was
    shown, what was sent), however it ends. *)
Definition grows {A X} (f : state -> list X) (m : M A) : Prop :=
  forall st, exists more, f (snd (m st)) = f st ++ more.

(** Run in the session [s], the computation keeps it and sends only
    requests that satisfy [P]. *)
Definition sends_only {A} (s : Session) (P : request -> Prop) (m : M A) : Prop :=
  forall st,
    session st = s -> Forall P (sent st) ->
    session (snd (m st)) = s /\ Forall P (sent (snd (m st))).

(** The request carries [Authorization: Bearer <tok>]. *)
Definition bears (env : Env) (tok : pyval) (rq : request) : Prop :=
  header_value (u "Authorization") (headers rq)
  = Some (u "Bearer " ++ py_str env tok).

(** No button is pressed and no form is submitted in this run. *)
Definition idle (ui : UI) : Prop :=
  (forall label, button ui label = false)
  /\ (forall form, form_submit ui form = false).

(** The computation adds to the page only elements that satisfy [Q]. *)
Definition shows_only {A} (Q : element -> Prop) (m : M A) : Prop :=
  forall st, Forall Q (shown st) -> Forall Q (shown (snd (m st))).

(** The texts of the [st.markdown] calls of the script that hold no
    variable part, and the five badges it can build. *)
Definition fixed_markdown : list pystr :=
  [ u "### " ++ APP_NAME;
    u "##### Find Surveys Where You Are";
    u "**Your Answers**";
    u "##### Create Survey (NGOs)";
    u "##### Publish a Report";
    u "##### Local Feed";
    u "##### Post a Tutorial (any user)";
    u "##### Browse Tutorials";
    u "##### Post Volunteer Opportunity (NGO only)";
    u "##### Browse Opportunities";
    badge_markup (u "Logged in as Individual");
    badge_markup (u "Logged in as NGO");
    badge_markup (u "Logged in as None");
    badge_markup (u "Verified");
    badge_markup (u "Unverified") ].

(** The element is not made by [st.markdown], or its text is one of
    [fixed_markdown]. *)
Definition fixed_text (e : element) : Prop :=
  match e with
  | st_markdown body => existsb (pystr_eqb body) fixed_markdown = true
  | _ => True
  end.

(* ================================================================== *)
(** * Properties *)

(** ** Strings *)

Example splitlines_mixed :
  splitlines (u "a" ++ [10; 10]%N ++ u " b " ++ [13; 10]%N ++ u "c" ++ [10]%N)
  = [u "a"; []; u " b "; u "c"].
Proof. reflexivity. Qed.

Example str_of_Z_samples :
  str_of_Z 42 = u "42" /\ str_of_Z 0 = u "0" /\ str_of_Z (-5) = u "-5".
Proof. repeat split; reflexivity. Qed.

Lemma pystr_eqb_refl (a : pystr) : pystr_eqb a a = true.
Proof.
  induction a as [|x a IH]; simpl; [reflexivity|].
  now rewrite N.eqb_refl, IH.
Qed.

Lemma pystr_eqb_eq (a b : pystr) : pystr_eqb a b = true <-> a = b.
Proof.
  split; [|intros ->; apply pystr_eqb_refl].
  revert b; induction a as [|x a IH]; intros [|y b]; simpl; try easy.
  rewrite andb_true_iff, N.eqb_eq. intros [-> H]. now rewrite (IH _ H).
Qed.

Lemma lstrip_by_head (p : N -> bool) (s : pystr) :
  head_ok (fun c => negb (p c)) (lstrip_by p s) = true.
Proof.
  induction s as [|c s IH]; simpl; [reflexivity|].
  destruct (p c) eqn:E; [exact IH|]. simpl. now rewrite E.
Qed.

Lemma lstrip_by_fixed (p : N -> bool) (s : pystr) :
  head_ok (fun c => negb (p c)) s = true -> lstrip_by p s = s.
Proof.
  destruct s as [|c s]; simpl; [reflexivity|].
  now destruct (p c).
Qed.

Lemma lstrip_by_snoc (p : N -> bool) (a : pystr) (c : N) :
  lstrip_by p (a ++ [c]) =
  match lstrip_by p a with
  | [] => if p c then [] else [c]
  | r => r ++ [c]
  end.
Proof.
  induction a as [|x a IH]; simpl; [reflexivity|].
  destruct (p x); [exact IH|reflexivity].
Qed.

(** [rstrip_by] read from the left. *)
Lemma rstrip_by_cons (p : N -> bool) (c : N) (s : pystr) :
  rstrip_by p (c :: s) =
  match rstrip_by p s with
  | [] => if p c then [] else [c]
  | r => c :: r
  end.
Proof.
  unfold rstrip_by. simpl. rewrite lstrip_by_snoc.
  destruct (lstrip_by p (rev s)) as [|y r] eqn:E; simpl.
  - now destruct (p c).
  - rewrite rev_app_distr. simpl.
    destruct (rev r ++ [y]) eqn:E2; [now destruct (rev r)|reflexivity].
Qed.

Lemma rstrip_by_nil (p : N -> bool) : rstrip_by p [] = [].
Proof. reflexivity. Qed.

Lemma rstrip_by_head (p ok : N -> bool) (s : pystr) :
  head_ok ok s = true -> head_ok ok (rstrip_by p s) = true.
Proof.
  destruct s as [|c s]; [reflexivity|]. simpl. intros H.
  rewrite rstrip_by_cons.
  destruct (rstrip_by p s); [destruct (p c)|]; simpl; auto.
Qed.

Lemma rstrip_by_idem (p : N -> bool) (s : pystr) :
  rstrip_by p (rstrip_by p s) = rstrip_by p s.
Proof.
  induction s as [|c s IH]; [reflexivity|].
  rewrite rstrip_by_cons.
  destruct (rstrip_by p s) as [|y r] eqn:E.
  - destruct (p c) eqn:Ec; [reflexivity|].
    rewrite rstrip_by_cons, rstrip_by_nil. now rewrite Ec.
  - rewrite rstrip_by_cons, IH. reflexivity.
Qed.

Lemma rstrip_by_last (p : N -> bool) (s : pystr) :
  last_ok (fun c => negb (p c)) (rstrip_by p s) = true.
Proof.
  unfold last_ok, rstrip_by. rewrite rev_involutive. apply lstrip_by_head.
Qed.

(** What [strip] returns starts and ends with a character that is not
    white space (or is empty), and stripping it again changes nothing. *)
Lemma strip_head (s : pystr) :
  head_ok (fun c => negb (isspace c)) (strip s) = true.
Proof. apply rstrip_by_head, lstrip_by_head. Qed.

Lemma strip_last (s : pystr) :
  last_ok (fun c => negb (isspace c)) (strip s) = true.
Proof. apply rstrip_by_last. Qed.

Lemma strip_idem (s : pystr) : strip (strip s) = strip s.
Proof.
  unfold strip at 1.
  rewrite (lstrip_by_fixed _ _ (strip_head s)).
  unfold strip. apply rstrip_by_idem.
Qed.

(** Stripping removes characters from the two ends only. *)
Lemma lstrip_by_suffix (p : N -> bool) (s : pystr) :
  exists pre, s = pre ++ lstrip_by p s /\ forallb p pre = true.
Proof.
  induction s as [|c s [pre [E F]]]; simpl.
  - now exists [].
  - destruct (p c) eqn:Ec.
    + exists (c :: pre). simpl. rewrite Ec, F. now rewrite <- E.
    + now exists [].
Qed.

Lemma strip_middle (s : pystr) :
  exists pre post,
    s = pre ++ strip s ++ post
    /\ forallb isspace pre = true /\ forallb isspace post = true.
Proof.
  destruct (lstrip_by_suffix isspace s) as [pre [E F]].
  destruct (lstrip_by_suffix isspace (rev (lstrip_by isspace s))) as [q [E2 F2]].
  exists pre, (rev q). repeat split; auto.
  - rewrite E at 1. f_equal. unfold strip, rstrip_by.
    rewrite <- rev_app_distr, <- E2. now rewrite rev_involutive.
  - rewrite forallb_forall in *. intros x Hx. apply F2. now apply in_rev.
Qed.

(** ** Lines *)

Lemma splitlines_from_one_line (n : nat) :
  forall (s cur : pystr),
    (List.length s <= n)%nat ->
    one_line cur = true ->
    Forall (fun l => one_line l = true) (splitlines_from cur s).
Proof.
  assert (Hrev : forall cur, one_line cur = true -> one_line (rev cur) = true).
  { intros cur H. unfold one_line in *. rewrite forallb_forall in *.
    intros x Hx. apply H. now apply in_rev. }
  induction n as [|n IH]; intros s cur Hn Hc.
  - destruct s; [|simpl in Hn; lia]. simpl.
    destruct cur; repeat constructor. now apply (Hrev (n :: cur)).
  - destruct s as [|c rest]; simpl.
    + destruct cur; repeat constructor. now apply (Hrev (n0 :: cur)).
    + simpl in Hn. destruct (is_linebreak c) eqn:Ec.
      * destruct rest as [|c' rest'].
        -- repeat constructor. now apply Hrev.
        -- simpl in Hn.
           destruct ((c =? 13)%N && (c' =? 10)%N);
             constructor; try now apply Hrev.
           ++ apply IH; [lia|reflexivity].
           ++ apply IH; [simpl; lia|reflexivity].
      * apply IH; [lia|]. unfold one_line in *. simpl. now rewrite Ec.
Qed.

(** No line that [splitlines] returns contains a line boundary. *)
Lemma splitlines_one_line (s : pystr) :
  Forall (fun l => one_line l = true) (splitlines s).
Proof. now apply (splitlines_from_one_line (n := List.length s)). Qed.

(** A newline closes the line read so far. *)
Lemma splitlines_from_newline (a b cur : pystr) :
  one_line a = true ->
  splitlines_from cur (a ++ 10%N :: b) = (rev cur ++ a) :: splitlines b.
Proof.
  revert cur. induction a as [|c a IH]; intros cur H; simpl.
  - rewrite app_nil_r. now destruct b.
  - unfold one_line in H. simpl in H. apply andb_true_iff in H as [Hc Ha].
    apply negb_true_iff in Hc. rewrite Hc.
    rewrite (IH (c :: cur) Ha). simpl. now rewrite <- app_assoc.
Qed.

Lemma splitlines_newline (a b : pystr) :
  one_line a = true -> splitlines (a ++ 10%N :: b) = a :: splitlines b.
Proof. intros H. unfold splitlines at 1. now rewrite splitlines_from_newline. Qed.

(** Text without a line boundary is one line, or none when it is empty. *)
Lemma splitlines_from_last (a cur : pystr) :
  one_line a = true ->
  splitlines_from cur a =
  match rev cur ++ a with [] => [] | l => [l] end.
Proof.
  revert cur. induction a as [|c a IH]; intros cur H; simpl.
  - rewrite app_nil_r. destruct cur as [|x cur]; [reflexivity|].
    simpl. now destruct (rev cur ++ [x]) eqn:E; [destruct (rev cur)|].
  - unfold one_line in H. simpl in H. apply andb_true_iff in H as [Hc Ha].
    apply negb_true_iff in Hc. rewrite Hc.
    rewrite (IH (c :: cur) Ha). simpl. now rewrite <- app_assoc.
Qed.

Lemma one_line_strip (s : pystr) : one_line s = true -> one_line (strip s) = true.
Proof.
  intros H. destruct (strip_middle s) as [pre [post [E _]]].
  unfold one_line in *. rewrite forallb_forall in *.
  intros x Hx. apply H. rewrite E. apply in_or_app. right.
  apply in_or_app. now left.
Qed.

(** A line boundary closes the line read so far; \r before \n does so
    together with it. *)
Lemma splitlines_from_break (a : pystr) (c : N) (rest cur : pystr) :
  one_line a = true -> is_linebreak c = true ->
  (c = 13%N -> hd_error rest <> Some 10%N) ->
  splitlines_from cur (a ++ c :: rest) = (rev cur ++ a) :: splitlines rest.
Proof.
  revert cur. induction a as [|x a IH]; intros cur Ha Hc Hr; simpl.
  - rewrite app_nil_r, Hc. destruct rest as [|c' rest']; [reflexivity|].
    destruct ((c =? 13)%N && (c' =? 10)%N) eqn:E; [|reflexivity].
    apply andb_true_iff in E as [E1 E2]. apply N.eqb_eq in E1, E2. subst.
    now destruct (Hr eq_refl).
  - unfold one_line in Ha. simpl in Ha. apply andb_true_iff in Ha as [Hx Ha].
    apply negb_true_iff in Hx. rewrite Hx.
    rewrite (IH (x :: cur) Ha Hc Hr). simpl. now rewrite <- app_assoc.
Qed.

Lemma splitlines_from_crlf (a rest cur : pystr) :
  one_line a = true ->
  splitlines_from cur (a ++ 13%N :: 10%N :: rest)
  = (rev cur ++ a) :: splitlines rest.
Proof.
  revert cur. induction a as [|x a IH]; intros cur Ha; simpl.
  - now rewrite app_nil_r.
  - unfold one_line in Ha. simpl in Ha. apply andb_true_iff in Ha as [Hx Ha].
    apply negb_true_iff in Hx. rewrite Hx.
    rewrite (IH (x :: cur) Ha). simpl. now rewrite <- app_assoc.
Qed.

(** [lines_of] leaves no choice: its lines are those of [splitlines]. *)
Lemma lines_of_splitlines (s : pystr) (ls : list pystr) :
  lines_of s ls -> splitlines s = ls.
Proof.
  induction 1 as [|a Hn Ha|a rest ls Ha L IH|a c rest ls Ha Hc Hr L IH].
  - reflexivity.
  - unfold splitlines. rewrite splitlines_from_last by exact Ha.
    simpl. now destruct a.
  - unfold splitlines at 1. rewrite splitlines_from_crlf by exact Ha.
    simpl. now rewrite IH.
  - unfold splitlines at 1. rewrite splitlines_from_break by assumption.
    simpl. now rewrite IH.
Qed.

(** A text is one line, or it has a first line boundary. *)
Lemma first_break (s : pystr) :
  one_line s = true
  \/ exists a c rest,
       s = a ++ c :: rest /\ one_line a = true /\ is_linebreak c = true.
Proof.
  induction s as [|x s IH]; [now left|].
  destruct (is_linebreak x) eqn:E.
  - right. exists [], x, s. auto.
  - destruct IH as [H|[a [c [rest [-> [Ha Hc]]]]]].
    + left. unfold one_line in *. simpl. now rewrite E.
    + right. exists (x :: a), c, rest. repeat split; auto.
      unfold one_line in *. simpl. now rewrite E.
Qed.

Lemma lines_of_total (n : nat) :
  forall s : pystr, (List.length s <= n)%nat -> exists ls, lines_of s ls.
Proof.
  induction n as [|n IH]; intros s Hn.
  - destruct s; [|simpl in Hn; lia]. exists []. constructor.
  - destruct (first_break s) as [H|[a [c [rest [-> [Ha Hc]]]]]].
    + destruct s as [|x s'].
      * exists []. constructor.
      * exists [x :: s']. apply lines_last; [discriminate|exact H].
    + rewrite length_app in Hn. simpl in Hn.
      destruct (N.eqb_spec c 13) as [->|Nc].
      * destruct rest as [|c' rest'].
        -- exists [a]. apply lines_break; auto; [discriminate|constructor].
        -- simpl in Hn. destruct (N.eqb_spec c' 10) as [->|Nc'].
           ++ destruct (IH rest') as [ls L]; [lia|].
              exists (a :: ls). now apply lines_crlf.
           ++ destruct (IH (c' :: rest')) as [ls L]; [simpl; lia|].
              exists (a :: ls). apply lines_break; auto.
              intros _ E. simpl in E. inversion E. contradiction.
      * destruct (IH rest) as [ls L]; [lia|].
        exists (a :: ls). apply lines_break; auto.
Qed.

(** The lines [splitlines] returns are the lines of the text. *)
Lemma splitlines_lines (s : pystr) : lines_of s (splitlines s).
Proof.
  destruct (@lines_of_total (List.length s) s (le_n _)) as [ls L].
  now rewrite (lines_of_splitlines L).
Qed.

(** ** Survey questions *)

Lemma filter_map_swap {A B} (f : A -> B) (p : B -> bool) (l : list A) :
  filter p (map f l) = map f (filter (fun x => p (f x)) l).
Proof.
  induction l as [|x l IH]; simpl; [reflexivity|].
  destruct (p (f x)); simpl; now rewrite IH.
Qed.

Lemma parse_questions_spec (text : pystr) :
  parse_questions text = non_blank_trimmed_lines text.
Proof. unfold parse_questions, non_blank_trimmed_lines. now rewrite filter_map_swap. Qed.

Lemma parse_questions_in (text q : pystr) :
  In q (parse_questions text) <->
  exists line, In line (splitlines text) /\ strip line = q /\ q <> [].
Proof.
  unfold parse_questions. rewrite in_map_iff. split.
  - intros [line [E H]]. apply filter_In in H as [H T].
    exists line. repeat split; auto. subst q. now destruct (strip line).
  - intros [line [H [E T]]]. exists line. split; [exact E|].
    apply filter_In. split; [exact H|]. rewrite E. now destruct q.
Qed.

Lemma parse_questions_clean (text : pystr) :
  Forall (fun q => str_truthy q = true /\ strip q = q /\ one_line q = true)
         (parse_questions text).
Proof.
  apply Forall_forall. intros q H.
  apply parse_questions_in in H as [line [H [E T]]]. subst q.
  repeat split.
  - now destruct (strip line).
  - apply strip_idem.
  - apply one_line_strip.
    pose proof (splitlines_one_line text) as F.
    rewrite Forall_forall in F. now apply F.
Qed.

(** ** The gateway *)

Lemma api_get_result env path query tok st :
  api_get env path query tok st
  = gateway_result env (get_request env path query tok) st.
Proof.
  unfold api_get, gateway_result, bind, requests_send, raise_for_status,
    response_json, after_sending.
  destruct (backend env (sent st) _) as [r|]; [|reflexivity].
  destruct (is_error_status (status_code r)); [reflexivity|].
  unfold ret. now destruct (json r).
Qed.

Lemma api_post_result env path payload tok st :
  api_post env path payload tok st
  = gateway_result env (post_request env path payload tok) st.
Proof.
  unfold api_post, gateway_result, bind, requests_send, raise_for_status,
    response_json, after_sending.
  destruct (backend env (sent st) _) as [r|]; [|reflexivity].
  destruct (is_error_status (status_code r)); [reflexivity|].
  unfold ret. now destruct (json r).
Qed.

Lemma gateway_result_state env rq st :
  snd (gateway_result env rq st) = after_sending rq st.
Proof.
  unfold gateway_result.
  destruct (backend env (sent st) rq) as [r|]; [|reflexivity].
  destruct (is_error_status (status_code r)); [reflexivity|].
  now destruct (json r).
Qed.

Lemma authorization_header env hs tok :
  header_value (u "Authorization") hs = None ->
  header_value (u "Authorization") (with_authorization env hs tok)
  = if truthy tok then Some (u "Bearer " ++ py_str env tok) else None.
Proof.
  intros H. unfold with_authorization. destruct (truthy tok); [|exact H].
  induction hs as [|[k v] hs IH]; simpl in *; [reflexivity|].
  destruct (pystr_eqb k (u "Authorization")); [discriminate|auto].
Qed.

(** ** What computations preserve *)

Section Preservation.

Context {X : Type} (f : state -> X).

Lemma preserves_ret {A} (a : A) : preserves f (ret a).
Proof. intro st. reflexivity. Qed.

Lemma preserves_signal {A} (s : signal) : preserves f (@signal_with A s).
Proof. intro st. reflexivity. Qed.

Lemma preserves_get_session : preserves f get_session.
Proof. intro st. reflexivity. Qed.

Lemma preserves_bind {A B} (m : M A) (k : A -> M B) :
  preserves f m -> (forall a, preserves f (k a)) -> preserves f (bind m k).
Proof.
  intros Hm Hk st. unfold bind. specialize (Hm st).
  destruct (m st) as [[a|s] st']; simpl in *; [|exact Hm].
  now rewrite Hk.
Qed.

Lemma preserves_try (body : M unit) (h : response -> M unit) :
  preserves f body -> (forall r, preserves f (h r)) ->
  preserves f (try_except_HTTPError body h).
Proof.
  intros Hb Hh st. unfold try_except_HTTPError. specialize (Hb st).
  destruct (body st) as [[a|[| |[r| | | | | | |]]] st']; simpl in *; auto.
  now rewrite Hh.
Qed.

Lemma preserves_for_each {A} (xs : list A) (body : A -> M unit) :
  (forall x, preserves f (body x)) -> preserves f (for_each xs body).
Proof.
  intros H. induction xs as [|x xs IH]; simpl.
  - apply preserves_ret.
  - apply preserves_bind; auto.
Qed.

Lemma preserves_when (c : bool) (body : M unit) :
  preserves f body -> preserves f (when c body).
Proof. intros H. destruct c; simpl; [exact H|apply preserves_ret]. Qed.

Lemma preserves_if {A} (c : bool) (m1 m2 : M A) :
  preserves f m1 -> preserves f m2 -> preserves f (if c then m1 else m2).
Proof. now destruct c. Qed.

Lemma preserves_getitem v key : preserves f (getitem v key).
Proof.
  destruct v; try apply preserves_signal. simpl.
  destruct (dict_find key kv); [apply preserves_ret|apply preserves_signal].
Qed.

Lemma preserves_get_or v key d : preserves f (get_or v key d).
Proof.
  destruct v; try apply preserves_signal. simpl.
  destruct (dict_find key kv); apply preserves_ret.
Qed.

Lemma preserves_py_iter v : preserves f (py_iter v).
Proof. destruct v; try apply preserves_signal; apply preserves_ret. Qed.

Lemma preserves_upper env v : preserves f (upper env v).
Proof. destruct v; try apply preserves_signal; apply preserves_ret. Qed.

Lemma preserves_text_area ui label key : preserves f (st_text_area ui label key).
Proof. destruct label; try apply preserves_signal; apply preserves_ret. Qed.

Lemma preserves_collect_answers env ui id numbered :
  preserves f (collect_answers env ui id numbered).
Proof.
  induction numbered as [|[i q] rest IH]; simpl.
  - apply preserves_ret.
  - apply preserves_bind; [apply preserves_text_area|intro].
    apply preserves_bind; [exact IH|intro]. apply preserves_ret.
Qed.

Lemma preserves_repeated_text_input label :
  preserves f (repeated_text_input label).
Proof. apply preserves_signal. Qed.

End Preservation.

(** ** Forms and expanders *)

(** A form is refused, or it is one more element of the page. *)
Lemma with_form_cases key st :
  with_form key st = (Sig (Raised StreamlitAPIException), st)
  \/ with_form key st = show (st_form key) st.
Proof. unfold with_form. destruct (has_form key (shown st)); auto. Qed.

Lemma with_form_fresh key st :
  has_form key (shown st) = false ->
  with_form key st
  = (Val tt, mkState (session st) (shown st ++ [st_form key]) (sent st)).
Proof. intros H. unfold with_form. now rewrite H. Qed.

Lemma with_form_again key st :
  has_form key (shown st) = true ->
  with_form key st = (Sig (Raised StreamlitAPIException), st).
Proof. intros H. unfold with_form. now rewrite H. Qed.

Lemma has_form_app key a b : has_form key (a ++ b) = has_form key a || has_form key b.
Proof. apply existsb_app. Qed.

(** An expander is refused, or it is one more element of the page. *)
Lemma with_expander_cases label st :
  (exists e, with_expander label st = (Sig (Raised e), st)
             /\ forall r, e <> HTTPError r)
  \/ with_expander label st = show (st_expander label) st.
Proof.
  destruct label; simpl; auto; left;
    (exists StreamlitAPIException + exists TypeError);
    split; try reflexivity; discriminate.
Qed.

Lemma keeps_with_form key : keeps_session (with_form key).
Proof. intro st. now destruct (with_form_cases key st) as [-> | ->]. Qed.

Lemma no_tab_with_form key : opens_no_tab (with_form key).
Proof.
  intro st. destruct (with_form_cases key st) as [-> | ->]; [reflexivity|].
  unfold tabs_of. simpl. rewrite filter_app. apply app_nil_r.
Qed.

Lemma keeps_with_expander label : keeps_session (with_expander label).
Proof.
  intro st. now destruct (with_expander_cases label st) as [[e [-> _]] | ->].
Qed.

Lemma no_tab_with_expander label : opens_no_tab (with_expander label).
Proof.
  intro st. destruct (with_expander_cases label st) as [[e [-> _]] | ->];
    [reflexivity|].
  unfold tabs_of. simpl. rewrite filter_app. apply app_nil_r.
Qed.

(** Showing an element and calling the gateway leave the session alone;
    only [st.session_state] assignments change it. *)
Lemma keeps_show e : keeps_session (show e).
Proof. intro st. reflexivity. Qed.

Lemma keeps_api_get env path query tok : keeps_session (api_get env path query tok).
Proof. intro st. now rewrite api_get_result, gateway_result_state. Qed.

Lemma keeps_api_post env path payload tok :
  keeps_session (api_post env path payload tok).
Proof. intro st. now rewrite api_post_result, gateway_result_state. Qed.

(** Only [with tabs[i]:] enters a tab. *)
Lemma no_tab_show e : is_tab e = false -> opens_no_tab (show e).
Proof.
  intros H st. unfold tabs_of. simpl. rewrite filter_app. simpl.
  rewrite H. apply app_nil_r.
Qed.

Lemma no_tab_set_session g : opens_no_tab (set_session g).
Proof. intro st. reflexivity. Qed.

Lemma no_tab_api_post env path payload tok :
  opens_no_tab (api_post env path payload tok).
Proof. intro st. now rewrite api_post_result, gateway_result_state. Qed.

Lemma keeps_session_token : keeps_session session_token.
Proof. intro st. reflexivity. Qed.

Lemma keeps_badge body : keeps_session (badge body).
Proof. apply keeps_show. Qed.

Lemma no_tab_badge body : opens_no_tab (badge body).
Proof. now apply no_tab_show. Qed.

(** Solves [preserves f m] goals by the structure of [m]: the gateway and
    the helpers first, the control structure after. *)
Ltac preserved :=
  repeat first
    [ apply keeps_with_form
    | apply keeps_with_expander
    | apply no_tab_with_form
    | apply no_tab_with_expander
    | apply preserves_collect_answers
    | apply preserves_text_area
    | apply preserves_repeated_text_input
    | apply keeps_api_get
    | apply keeps_api_post
    | apply keeps_session_token
    | apply keeps_badge
    | apply keeps_show
    | apply no_tab_api_post
    | apply no_tab_badge
    | apply no_tab_set_session
    | apply no_tab_show; reflexivity
    | apply preserves_ret
    | apply preserves_signal
    | apply preserves_get_session
    | apply preserves_getitem
    | apply preserves_get_or
    | apply preserves_py_iter
    | apply preserves_upper
    | apply preserves_when
    | apply preserves_if
    | apply preserves_for_each; intro
    | apply preserves_try; [|intro]
    | apply preserves_bind; [|intro] ].


(** ** Where an [HTTPError] can go *)

Lemma catches_ret {A} (a : A) : catches_HTTPError (ret a).
Proof. intros st r. discriminate. Qed.

Lemma catches_show e : catches_HTTPError (show e).
Proof. intros st r. discriminate. Qed.

Lemma catches_get_session : catches_HTTPError get_session.
Proof. intros st r. discriminate. Qed.

Lemma catches_set_session g : catches_HTTPError (set_session g).
Proof. intros st r. discriminate. Qed.

Lemma catches_session_token : catches_HTTPError session_token.
Proof. intros st r. discriminate. Qed.

Lemma catches_stop {A} : catches_HTTPError (@st_stop A).
Proof. intros st r. discriminate. Qed.

Lemma catches_rerun {A} : catches_HTTPError (@st_experimental_rerun A).
Proof. intros st r. discriminate. Qed.

Lemma catches_bind {A B} (m : M A) (k : A -> M B) :
  catches_HTTPError m -> (forall a, catches_HTTPError (k a)) ->
  catches_HTTPError (bind m k).
Proof.
  intros Hm Hk st r. unfold bind. specialize (Hm st r).
  destruct (m st) as [[a|s] st']; simpl in *; [apply Hk|].
  intros E. apply Hm. now inversion E.
Qed.

(** A [try] lets no [HTTPError] of its body through, whatever the body is;
    one can only come from the handler. *)
Lemma catches_try (body : M unit) (h : response -> M unit) :
  (forall r, catches_HTTPError (h r)) ->
  catches_HTTPError (try_except_HTTPError body h).
Proof.
  intros Hh st r. unfold try_except_HTTPError.
  destruct (body st) as [[a|[| |[r'| | | | | | |]]] st']; simpl;
    try discriminate.
  apply Hh.
Qed.

Lemma catches_for_each {A} (xs : list A) (body : A -> M unit) :
  (forall x, catches_HTTPError (body x)) -> catches_HTTPError (for_each xs body).
Proof.
  intros H. induction xs as [|x xs IH]; simpl.
  - apply catches_ret.
  - apply catches_bind; auto.
Qed.

Lemma catches_when (c : bool) (body : M unit) :
  catches_HTTPError body -> catches_HTTPError (when c body).
Proof. intros H. destruct c; simpl; [exact H|apply catches_ret]. Qed.

Lemma catches_if {A} (c : bool) (m1 m2 : M A) :
  catches_HTTPError m1 -> catches_HTTPError m2 ->
  catches_HTTPError (if c then m1 else m2).
Proof. now destruct c. Qed.

Lemma catches_getitem v key : catches_HTTPError (getitem v key).
Proof.
  intros st r. destruct v; simpl; try discriminate.
  destruct (dict_find key kv); discriminate.
Qed.

Lemma catches_get_or v key d : catches_HTTPError (get_or v key d).
Proof.
  intros st r. destruct v; simpl; try discriminate.
  destruct (dict_find key kv); discriminate.
Qed.

Lemma catches_py_iter v : catches_HTTPError (py_iter v).
Proof. intros st r. destruct v; discriminate. Qed.

Lemma catches_upper env v : catches_HTTPError (upper env v).
Proof. intros st r. destruct v; discriminate. Qed.

Lemma catches_badge body : catches_HTTPError (badge body).
Proof. apply catches_show. Qed.

Lemma catches_with_form key : catches_HTTPError (with_form key).
Proof.
  intros st r. destruct (with_form_cases key st) as [-> | ->]; discriminate.
Qed.

Lemma catches_with_expander label : catches_HTTPError (with_expander label).
Proof.
  intros st r. destruct (with_expander_cases label st) as [[e [-> N]] | ->];
    [|discriminate].
  simpl. intros E. inversion E. now apply (N r).
Qed.

Lemma catches_text_area ui label key :
  catches_HTTPError (st_text_area ui label key).
Proof. intros st r. destruct label; discriminate. Qed.

Lemma catches_collect_answers env ui id numbered :
  catches_HTTPError (collect_answers env ui id numbered).
Proof.
  induction numbered as [|[i q] rest IH]; simpl.
  - apply catches_ret.
  - apply catches_bind; [apply catches_text_area|intro].
    apply catches_bind; [exact IH|intro]. apply catches_ret.
Qed.

Lemma catches_repeated_text_input label :
  catches_HTTPError (repeated_text_input label).
Proof. intros st r. discriminate. Qed.

Lemma catches_error_with prefix r : catches_HTTPError (error_with prefix r).
Proof. apply catches_show. Qed.

(** Solves [catches_HTTPError m] for code whose gateway calls all stand in
    the body of a [try]: the body of a [try] is never looked into. *)
Ltac guarded :=
  repeat first
    [ apply catches_try; intro
    | apply catches_with_form
    | apply catches_with_expander
    | apply catches_collect_answers
    | apply catches_text_area
    | apply catches_repeated_text_input
    | apply catches_error_with
    | apply catches_badge
    | apply catches_session_token
    | apply catches_show
    | apply catches_ret
    | apply catches_stop
    | apply catches_rerun
    | apply catches_get_session
    | apply catches_set_session
    | apply catches_getitem
    | apply catches_get_or
    | apply catches_py_iter
    | apply catches_upper
    | apply catches_when
    | apply catches_if
    | apply catches_for_each; intro
    | apply catches_bind; [|intro] ].

Lemma catches_handler env ui (a : action) : catches_HTTPError (handler env ui a).
Proof.
  destruct a; simpl;
    unfold create_account, login, list_surveys, submit_answers, create_survey,
      submit_report, load_feed, publish_tutorial, load_tutorials,
      create_opportunity, load_opportunities, post_topic, show_topics,
      post_comment, generate_report;
    guarded.
Qed.

Lemma catches_before_gate env ui : catches_HTTPError (before_gate env ui).
Proof.
  unfold before_gate, header, auth_panel, logout_assignments.
  guarded.
  destruct (auth_mode ui); guarded.
Qed.

Lemma catches_views env ui : catches_HTTPError (views env ui).
Proof.
  unfold views, surveys_view, civic_view, skillup_view, discussions_view,
    ai_report_view, profile_view, survey_card, topic_card.
  guarded.
Qed.

(** No run of the script ends in an uncaught [HTTPError]. *)
Lemma catches_script env ui : catches_HTTPError (script env ui).
Proof.
  unfold script.
  apply catches_bind; [apply catches_before_gate|intro].
  apply catches_bind; [unfold auth_gate; guarded|intro].
  apply catches_bind; [apply catches_views|intro].
  apply catches_show.
Qed.

(** ** A failed request *)

Lemma try_caught (body : M unit) (h : response -> M unit) st r st' :
  body st = (Sig (Raised (HTTPError r)), st') ->
  try_except_HTTPError body h st = h r st'.
Proof. intros H. unfold try_except_HTTPError. now rewrite H. Qed.

Lemma bind_token {B} (k : pyval -> M B) st :
  bind session_token k st = k (token (session st)) st.
Proof. reflexivity. Qed.

Lemma bind_signal {A B} (m : M A) (k : A -> M B) st s st' :
  m st = (Sig s, st') -> bind m k st = (Sig s, st').
Proof. intros H. unfold bind. now rewrite H. Qed.

Lemma bind_value {A B} (m : M A) (k : A -> M B) st a st' :
  m st = (Val a, st') -> bind m k st = k a st'.
Proof. intros H. unfold bind. now rewrite H. Qed.

Lemma bind_assoc {A B C} (m : M A) (k1 : A -> M B) (k2 : B -> M C) st :
  bind (bind m k1) k2 st = bind m (fun a => bind (k1 a) k2) st.
Proof. unfold bind. now destruct (m st) as [[a|s] st']. Qed.

Lemma gateway_failure env rq st r :
  backend env (sent st) rq = Responded r ->
  is_error_status (status_code r) = true ->
  gateway_result env rq st = (Sig (Raised (HTTPError r)), after_sending rq st).
Proof. intros H E. unfold gateway_result. now rewrite H, E. Qed.

Lemma gateway_success env rq st r v :
  backend env (sent st) rq = Responded r ->
  is_error_status (status_code r) = false ->
  json r = Some v ->
  gateway_result env rq st = (Val v, after_sending rq st).
Proof. intros H E J. unfold gateway_result. now rewrite H, E, J. Qed.

(** When the backend answers an action's request with a 4xx or 5xx, the
    handler shows the response text after the action's prefix and returns;
    the session is as it was. *)
Lemma handler_on_failure env ui (a : action) st r :
  backend env (sent st) (action_request env ui a (token (session st)))
    = Responded r ->
  is_error_status (status_code r) = true ->
  handler env ui a st
  = (Val tt,
     mkState (session st)
             (shown st ++ [st_error (failure_prefix a ++ text r)])
             (sent st ++ [action_request env ui a (token (session st))])).
Proof.
  intros H E.
  destruct a; cbn [handler action_request failure_prefix] in *;
    unfold create_account, login, list_surveys, submit_answers, create_survey,
      submit_report, load_feed, publish_tutorial, load_tutorials,
      create_opportunity, load_opportunities, post_topic, show_topics,
      post_comment, generate_report;
    (erewrite try_caught;
     [ | rewrite ?bind_token; apply bind_signal;
         rewrite ?api_post_result, ?api_get_result;
         eapply gateway_failure; eassumption ];
     reflexivity).
Qed.

Lemma try_passes (body : M unit) (h : response -> M unit) st s st' :
  body st = (Sig s, st') ->
  (forall r, s <> Raised (HTTPError r)) ->
  try_except_HTTPError body h st = (Sig s, st').
Proof.
  intros H N. unfold try_except_HTTPError. rewrite H.
  destruct s as [| |[r| | | | | | |]]; try reflexivity.
  now destruct (N r).
Qed.

Lemma getitem_field v key x st :
  field key v = Some x -> getitem v key st = (Val x, st).
Proof.
  destruct v; simpl; try discriminate. now intros ->.
Qed.

Lemma getitem_no_field v key st :
  field key v = None -> exists e, getitem v key st = (Sig (Raised e), st)
                                  /\ forall r, e <> HTTPError r.
Proof.
  destruct v; simpl; intros H;
    try (exists TypeError; split; [reflexivity|discriminate]).
  rewrite H. exists (KeyError key). split; [reflexivity|discriminate].
Qed.

(** ** Sign-up and login *)

(** Lines 123-129 taken together. *)
Lemma register_assignments_result f tok st :
  register_assignments f tok st
  = (Val tt, mkState (after_register f tok) (shown st) (sent st)).
Proof.
  unfold register_assignments, after_register, bind, set_session. simpl.
  now destruct (su_role f).
Qed.

(** Lines 143-144 taken together. *)
Lemma login_assignments_result e tok st :
  login_assignments e tok st
  = (Val tt, mkState (after_login e tok (session st)) (shown st) (sent st)).
Proof. reflexivity. Qed.

(** Lines 86-88 taken together. *)
Lemma logout_assignments_result st :
  logout_assignments st
  = (Val tt, mkState (after_logout (session st)) (shown st) (sent st)).
Proof. reflexivity. Qed.

Lemma create_account_success env f st r data tok :
  backend env (sent st) (register_request env f) = Responded r ->
  is_error_status (status_code r) = false ->
  json r = Some data ->
  field (u "access_token") data = Some tok ->
  create_account env f st
  = (Sig RerunScript,
     mkState (after_register f tok)
             (shown st ++ [st_success (u "Account created & logged in.")])
             (sent st ++ [register_request env f])).
Proof.
  intros H E J F. unfold create_account.
  apply try_passes; [|discriminate].
  erewrite bind_value
    by (rewrite api_post_result; eapply gateway_success; eassumption).
  erewrite bind_value by (eapply getitem_field; eassumption).
  erewrite bind_value by apply register_assignments_result.
  reflexivity.
Qed.

Lemma login_success env e pwd st r data tok :
  backend env (sent st) (login_request env e pwd) = Responded r ->
  is_error_status (status_code r) = false ->
  json r = Some data ->
  field (u "access_token") data = Some tok ->
  login env e pwd st
  = (Sig RerunScript,
     mkState (after_login e tok (session st))
             (shown st ++ [st_success (u "Logged in.")])
             (sent st ++ [login_request env e pwd])).
Proof.
  intros H E J F. unfold login.
  apply try_passes; [|discriminate].
  erewrite bind_value
    by (rewrite api_post_result; eapply gateway_success; eassumption).
  erewrite bind_value by (eapply getitem_field; eassumption).
  erewrite bind_value by apply login_assignments_result.
  reflexivity.
Qed.

(** Every way "Create account" can go: the session is untouched, or the
    backend granted a token and the run ends in a rerun with the session
    of [after_register]. *)
Lemma create_account_cases env f st :
  session (snd (create_account env f st)) = session st
  \/ exists r data tok,
       backend env (sent st) (register_request env f) = Responded r
       /\ is_error_status (status_code r) = false
       /\ json r = Some data
       /\ field (u "access_token") data = Some tok
       /\ create_account env f st
          = (Sig RerunScript,
             mkState (after_register f tok)
                     (shown st ++ [st_success (u "Account created & logged in.")])
                     (sent st ++ [register_request env f])).
Proof.
  destruct (backend env (sent st) (register_request env f)) as [r|] eqn:B.
  2:{ left. unfold create_account.
      erewrite try_passes;
        [ | apply bind_signal; rewrite api_post_result; unfold gateway_result;
            fold (register_request env f); rewrite B; reflexivity
          | discriminate ].
      reflexivity. }
  destruct (is_error_status (status_code r)) eqn:E.
  { left. unfold create_account.
    erewrite try_caught;
      [ | apply bind_signal; rewrite api_post_result;
          eapply gateway_failure; eassumption ].
    reflexivity. }
  destruct (json r) as [data|] eqn:J.
  2:{ left. unfold create_account.
      erewrite try_passes;
        [ | apply bind_signal; rewrite api_post_result; unfold gateway_result;
            fold (register_request env f); rewrite B, E, J; reflexivity
          | discriminate ].
      reflexivity. }
  destruct (field (u "access_token") data) as [tok|] eqn:F.
  - right. exists r, data, tok. repeat split; auto.
    now apply create_account_success with (r := r) (data := data).
  - left. destruct (getitem_no_field data (u "access_token")
                      (after_sending (register_request env f) st) F)
      as [e [G N]].
    unfold create_account.
    erewrite try_passes;
      [ | erewrite bind_value
            by (rewrite api_post_result; eapply gateway_success; eassumption);
          apply bind_signal; exact G
        | intros r' Hr; inversion Hr; now apply (N r') ].
    reflexivity.
Qed.

Lemma login_cases env e pwd st :
  session (snd (login env e pwd st)) = session st
  \/ exists r data tok,
       backend env (sent st) (login_request env e pwd) = Responded r
       /\ is_error_status (status_code r) = false
       /\ json r = Some data
       /\ field (u "access_token") data = Some tok
       /\ login env e pwd st
          = (Sig RerunScript,
             mkState (after_login e tok (session st))
                     (shown st ++ [st_success (u "Logged in.")])
                     (sent st ++ [login_request env e pwd])).
Proof.
  destruct (backend env (sent st) (login_request env e pwd)) as [r|] eqn:B.
  2:{ left. unfold login.
      erewrite try_passes;
        [ | apply bind_signal; rewrite api_post_result; unfold gateway_result;
            fold (login_request env e pwd); rewrite B; reflexivity
          | discriminate ].
      reflexivity. }
  destruct (is_error_status (status_code r)) eqn:E.
  { left. unfold login.
    erewrite try_caught;
      [ | apply bind_signal; rewrite api_post_result;
          eapply gateway_failure; eassumption ].
    reflexivity. }
  destruct (json r) as [data|] eqn:J.
  2:{ left. unfold login.
      erewrite try_passes;
        [ | apply bind_signal; rewrite api_post_result; unfold gateway_result;
            fold (login_request env e pwd); rewrite B, E, J; reflexivity
          | discriminate ].
      reflexivity. }
  destruct (field (u "access_token") data) as [tok|] eqn:F.
  - right. exists r, data, tok. repeat split; auto.
    now apply login_success with (r := r) (data := data).
  - left. destruct (getitem_no_field data (u "access_token")
                      (after_sending (login_request env e pwd) st) F)
      as [ex [G N]].
    unfold login.
    erewrite try_passes;
      [ | erewrite bind_value
            by (rewrite api_post_result; eapply gateway_success; eassumption);
          apply bind_signal; exact G
        | intros r' Hr; inversion Hr; now apply (N r') ].
    reflexivity.
Qed.

(** ** The header and the gate *)

Lemma show_result e st :
  show e st = (Val tt, mkState (session st) (shown st ++ [e]) (sent st)).
Proof. reflexivity. Qed.

(** The header ends the run with a rerun when Logout is pressed in a
    logged-in session, and otherwise only shows its elements. *)
Lemma header_result env ui st :
  header env ui st
  = if truthy (token (session st)) && button ui (u "Logout")
    then (Sig RerunScript,
          mkState (after_logout (session st))
                  (shown st ++ header_elements env (session st)) (sent st))
    else (Val tt,
          mkState (session st)
                  (shown st ++ header_elements env (session st)) (sent st)).
Proof.
  unfold header, header_elements, bind, when, badge, show, get_session,
    logout_assignments, set_session, st_experimental_rerun, signal_with, ret.
  destruct (path_exists env (ICON_PATH env));
    cbn [session shown sent];
    destruct (truthy (token (session st))); cbn [andb session shown sent];
    try destruct (button ui (u "Logout")); cbn [session shown sent];
    repeat rewrite <- app_assoc; reflexivity.
Qed.

(** The state in which the auth panel starts. *)
Lemma before_gate_result env ui st :
  before_gate env ui st
  = if truthy (token (session st)) && button ui (u "Logout")
    then (Sig RerunScript,
          mkState (after_logout (session st))
                  (shown st ++ header_elements env (session st)) (sent st))
    else auth_panel env ui
           (mkState (session st)
                    ((shown st ++ header_elements env (session st)) ++ [st_divider])
                    (sent st)).
Proof.
  unfold before_gate, bind. rewrite header_result.
  now destruct (truthy (token (session st)) && button ui (u "Logout")).
Qed.




Lemma bind_fst_signal {A B} (m : M A) (k : A -> M B) st s :
  fst (m st) = Sig s -> fst (bind m k st) = Sig s.
Proof.
  unfold bind. destruct (m st) as [[a|s'] st']; simpl; [discriminate|].
  intros E. now inversion E.
Qed.



Lemma no_tab_before_gate env ui : opens_no_tab (before_gate env ui).
Proof.
  unfold opens_no_tab, before_gate, header, auth_panel, create_account, login,
    register_assignments, login_assignments, logout_assignments,
    st_experimental_rerun.
  preserved.
  destruct (auth_mode ui); preserved.
Qed.

(** Every way the auth panel can go: the session is untouched, or one of
    the two handlers got a token and ended the run with a rerun. *)
Lemma auth_panel_cases env ui st :
  session (snd (auth_panel env ui st)) = session st
  \/ (auth_mode ui = SignUp /\ button ui (u "Create account") = true
      /\ fst (auth_panel env ui st) = Sig RerunScript
      /\ exists r data tok,
           backend env (sent st) (register_request env (signup ui)) = Responded r
           /\ is_error_status (status_code r) = false
           /\ json r = Some data
           /\ field (u "access_token") data = Some tok
           /\ session (snd (auth_panel env ui st)) = after_register (signup ui) tok)
  \/ (auth_mode ui = Login /\ button ui (u "Login") = true
      /\ fst (auth_panel env ui st) = Sig RerunScript
      /\ exists r data tok,
           backend env (sent st)
             (login_request env (keyed ui (u "login_email"))
                (keyed ui (u "login_pwd"))) = Responded r
           /\ is_error_status (status_code r) = false
           /\ json r = Some data
           /\ field (u "access_token") data = Some tok
           /\ session (snd (auth_panel env ui st))
              = after_login (keyed ui (u "login_email")) tok (session st)).
Proof.
  unfold auth_panel. destruct (auth_mode ui) eqn:Mode.
  - destruct (button ui (u "Login")) eqn:B; [|now left].
    cbn [when].
    destruct (login_cases env (keyed ui (u "login_email"))
                (keyed ui (u "login_pwd")) st)
      as [H|[r [data [tok [H1 [H2 [H3 [H4 H5]]]]]]]]; [now left|].
    right. right. rewrite H5. repeat split; auto.
    exists r, data, tok. repeat split; auto.
  - destruct (button ui (u "Create account")) eqn:B; [|now left].
    cbn [when].
    destruct (create_account_cases env (signup ui) st)
      as [H|[r [data [tok [H1 [H2 [H3 [H4 H5]]]]]]]]; [now left|].
    right. left. rewrite H5. repeat split; auto.
    exists r, data, tok. repeat split; auto.
Qed.

(** When what runs before the gate returns, the session is as it was. *)
Lemma before_gate_returns env ui st a st' :
  before_gate env ui st = (Val a, st') -> session st' = session st.
Proof.
  rewrite before_gate_result.
  destruct (truthy (token (session st)) && button ui (u "Logout"));
    [discriminate|].
  intros H.
  destruct (auth_panel_cases env ui
              (mkState (session st)
                 ((shown st ++ header_elements env (session st)) ++ [st_divider])
                 (sent st)))
    as [E|[[_ [_ [E _]]]|[_ [_ [E _]]]]];
    rewrite H in E; simpl in E; [exact E|discriminate|discriminate].
Qed.

Lemma auth_gate_stops st :
  truthy (token (session st)) = false -> auth_gate st = (Sig StopScript, st).
Proof. intros H. unfold auth_gate, bind, get_session. now rewrite H. Qed.

Lemma auth_gate_passes st :
  truthy (token (session st)) = true -> auth_gate st = (Val tt, st).
Proof. intros H. unfold auth_gate, bind, get_session. now rewrite H. Qed.

(** From a session without a token, the run ends at or before the gate,
    in the state that the code before the gate left. *)
Lemma run_without_token env ui prev :
  truthy (token (session_init prev)) = false ->
  (exists s, fst (run env ui prev) = Sig s)
  /\ snd (run env ui prev)
     = snd (before_gate env ui (empty_state (session_init prev))).
Proof.
  intros H. unfold run, script, empty_state.
  destruct (before_gate env ui (mkState (session_init prev) [] []))
    as [[a|s] st'] eqn:E.
  - rewrite (bind_value _ _ _ E).
    apply before_gate_returns in E. simpl in E.
    rewrite (bind_signal _ _ _ (auth_gate_stops st' ltac:(now rewrite E))).
    split; [now exists StopScript|reflexivity].
  - rewrite (bind_signal _ _ _ E).
    split; [now exists s|reflexivity].
Qed.

(** The two auth handlers send their one request and no other. *)
Lemma create_account_sends env f st :
  sent (snd (create_account env f st)) = sent st ++ [register_request env f].
Proof.
  cbv beta iota delta [create_account try_except_HTTPError bind].
  rewrite api_post_result. fold (register_request env f).
  pose proof (gateway_result_state env (register_request env f) st) as S.
  destruct (gateway_result env _ st) as [[data|s] st1]; simpl in S; subst st1.
  - destruct data; try reflexivity.
    unfold getitem. destruct (dict_find (u "access_token") kv); reflexivity.
  - destruct s as [| |[r| | | | | | |]]; reflexivity.
Qed.

Lemma login_sends env e pwd st :
  sent (snd (login env e pwd st)) = sent st ++ [login_request env e pwd].
Proof.
  cbv beta iota delta [login try_except_HTTPError bind].
  rewrite api_post_result. fold (login_request env e pwd).
  pose proof (gateway_result_state env (login_request env e pwd) st) as S.
  destruct (gateway_result env _ st) as [[data|s] st1]; simpl in S; subst st1.
  - destruct data; try reflexivity.
    unfold getitem. destruct (dict_find (u "access_token") kv); reflexivity.
  - destruct s as [| |[r| | | | | | |]]; reflexivity.
Qed.

(** Before the gate, the only requests are those of sign-up and login. *)
Lemma before_gate_sends env ui s :
  Forall (fun rq => rq = register_request env (signup ui)
                    \/ rq = login_request env (keyed ui (u "login_email"))
                              (keyed ui (u "login_pwd")))
         (sent (snd (before_gate env ui (empty_state s)))).
Proof.
  rewrite before_gate_result. cbn [empty_state session shown sent].
  destruct (truthy (token s) && button ui (u "Logout")); [constructor|].
  unfold auth_panel.
  destruct (auth_mode ui);
    [destruct (button ui (u "Login"))
    |destruct (button ui (u "Create account"))];
    cbn [when]; try (constructor; fail).
  - rewrite login_sends. cbn [sent app].
    apply Forall_cons; [now right|apply Forall_nil].
  - rewrite create_account_sends. cbn [sent app].
    apply Forall_cons; [now left|apply Forall_nil].
Qed.

Lemma no_tab_in st v : tabs_of st = [] -> ~ In (st_tab v) (shown st).
Proof.
  intros H I. assert (In (st_tab v) (tabs_of st)) as J.
  { apply filter_In. now split. }
  now rewrite H in J.
Qed.

(** ** Creating a survey *)

(** "Create Survey" sends one request, the POST of the payload of lines
    215-221 with the session's token, however the backend answers. *)
Lemma create_survey_sends env ui st :
  sent (snd (create_survey env ui st))
  = sent st ++ [post_request env (u "/surveys/create")
                  (create_survey_payload ui) (token (session st))].
Proof.
  cbv beta iota delta
    [create_survey try_except_HTTPError bind session_token get_session ret].
  rewrite api_post_result.
  pose proof (gateway_result_state env
                (post_request env (u "/surveys/create")
                   (create_survey_payload ui) (token (session st))) st) as S.
  destruct (gateway_result env _ st) as [[out|s] st1]; simpl in S; subst st1.
  - destruct out; try reflexivity.
    unfold get_or. destruct (dict_find (u "survey_id") kv); reflexivity.
  - destruct s as [| |[r| | | | | | |]]; reflexivity.
Qed.

Lemma create_survey_payload_questions ui :
  field (u "questions") (create_survey_payload ui)
  = Some (PList (map PStr (non_blank_trimmed_lines (cs_questions_blob ui)))).
Proof.
  rewrite <- parse_questions_spec. reflexivity.
Qed.

(** ** A page on which no handler runs *)

Lemma has_form_in key els : has_form key els = true -> In (st_form key) els.
Proof.
  unfold has_form. rewrite existsb_exists. intros [e [I F]].
  destruct e; try discriminate. simpl in F.
  apply pystr_eqb_eq in F. now subst.
Qed.

Lemma no_form_not_in key els : has_form key els = false -> ~ In (st_form key) els.
Proof.
  intros H I. assert (T : has_form key els = true).
  { unfold has_form. apply existsb_exists. exists (st_form key).
    split; [exact I|apply pystr_eqb_refl]. }
  now rewrite H in T.
Qed.

Lemma header_elements_no_form env s key :
  has_form key (header_elements env s) = false.
Proof.
  unfold header_elements.
  destruct (path_exists env (ICON_PATH env)); destruct (truthy (token s));
    reflexivity.
Qed.

(** The click on the submit button of a form is a click on no button. *)
Lemma form_submit_no_button ui form label :
  form_submit ui form = true -> button ui label = false.
Proof.
  unfold form_submit, button. now destruct (clicked ui) as [[l|k]|].
Qed.

(** The click on the submit button of a survey's form is on none of the
    buttons and forms that a run makes outside a handler. *)
Lemma survey_form_click_quiet ui id :
  form_submit ui (u "resp_" ++ id) = true -> quiet ui.
Proof.
  unfold quiet, form_submit, button.
  destruct (clicked ui) as [[l|k]|]; try discriminate.
  intros H. apply pystr_eqb_eq in H. subst k.
  repeat split; reflexivity.
Qed.

Lemma idle_quiet ui : idle ui -> quiet ui.
Proof. intros [Hb Hf]. unfold quiet. now rewrite !Hb, !Hf. Qed.

(** A logged-in run started by no click that matters shows the header and
    the three first tabs down to "Browse Tutorials", sends nothing, and
    ends at line 301. *)
Lemma quiet_run env ui s :
  truthy (token s) = true -> quiet ui ->
  run env ui (Some s)
  = (Sig (Raised DuplicateWidgetID),
     mkState s (header_elements env s ++ st_divider :: quiet_views) []).
Proof.
  intros T (Lo & Li & Ca & Ls & Lf & Fs & Fc & Ft).
  unfold run, script.
  erewrite bind_value.
  2:{ rewrite before_gate_result. cbn [session_init session shown sent app].
      rewrite T, Lo. cbn [andb]. unfold auth_panel. rewrite Li, Ca.
      now destruct (auth_mode ui). }
  erewrite bind_value by now apply auth_gate_passes.
  apply bind_signal.
  unfold views, surveys_view, civic_view, skillup_view.
  rewrite Ls, Lf, Fs, Fc, Ft.
  repeat (rewrite ?bind_assoc;
          first
            [ rewrite (bind_value _ _ _ (show_result _ _))
            | erewrite (bind_value (with_form _))
                by (apply with_form_fresh; cbn [shown];
                    rewrite !has_form_app, header_elements_no_form;
                    reflexivity)
            | rewrite (bind_value (when false _) _ _ (a := tt) eq_refl) ];
          cbv beta; cbn [session shown sent]).
  rewrite ?bind_assoc.
  erewrite bind_signal by reflexivity.
  rewrite <- !app_assoc. reflexivity.
Qed.

(** Without a token, and with neither "Login" nor "Create account" as the
    click, the run stops at the gate and sends nothing. *)
Lemma stops_at_gate env ui prev :
  truthy (token (session_init prev)) = false ->
  button ui (u "Login") = false ->
  button ui (u "Create account") = false ->
  run env ui prev
  = (Sig StopScript,
     mkState (session_init prev)
             (header_elements env (session_init prev) ++ [st_divider]) []).
Proof.
  intros T L C. unfold run, script.
  erewrite bind_value.
  2:{ rewrite before_gate_result. cbn [session shown sent app]. rewrite T.
      cbn [andb]. unfold auth_panel. rewrite L, C. now destruct (auth_mode ui). }
  now apply bind_signal, auth_gate_stops.
Qed.

(* ================================================================== *)
(** * The claims *)

(** C1 (the code does not do this).  Logout in a logged-in session assigns
    [None] to [token], [role] and [email] only: for Jane's session the run
    ends in a rerun with [name], [location] and [age] still hers, and when
    Bob logs in next, the session holds his token and his email beside her
    name, location and age. *)
Theorem logout_keeps_profile_fields :
  let env := sample_env (always (grants (u "tok-bob"))) in
  let out := run env (pressing (u "Logout") idle_ui) (Some jane) in
  let bob := typing (u "login_email") (u "bob@example.org")
               (pressing (u "Login") idle_ui) in
  let s2 := session (snd (run env bob (Some (session (snd out))))) in
  fst out = Sig RerunScript
  /\ session (snd out)
     = mkSession PNone None None
                 (Some (u "Jane")) (Some (u "Kampala")) (Some 30%Z) None
  /\ token s2 = PStr (u "tok-bob")
  /\ email s2 = Some (u "bob@example.org")
  /\ name s2 = Some (u "Jane")
  /\ location s2 = Some (u "Kampala")
  /\ age s2 = Some 30%Z.
Proof.
  cbv zeta.
  split; [vm_compute; reflexivity|].
  split; [vm_compute; reflexivity|].
  split; [vm_compute; reflexivity|].
  split; [vm_compute; reflexivity|].
  split; [vm_compute; reflexivity|].
  split; vm_compute; reflexivity.
Qed.

(** C2.  A run that starts from a session whose token is absent ([None],
    or any other falsy value) ends with a signal at or before the gate of
    lines 152-153: it enters none of the six tabs, does nothing beyond
    what the header and the auth panel did, and sends no request but the
    sign-up or login one.  The gate itself, and [require_auth], stop in
    every state without a token. *)
Theorem views_refused_without_token env ui prev :
  truthy (token (session_init prev)) = false ->
  let out := run env ui prev in
  (exists s, fst out = Sig s)
  /\ (forall v, ~ In (st_tab v) (shown (snd out)))
  /\ snd out = snd (before_gate env ui (empty_state (session_init prev)))
  /\ Forall (fun rq => rq = register_request env (signup ui)
                       \/ rq = login_request env (keyed ui (u "login_email"))
                                 (keyed ui (u "login_pwd")))
            (sent (snd out))
  /\ (forall st, truthy (token (session st)) = false ->
                 (auth_gate ;; views env ui) st = (Sig StopScript, st))
  /\ (forall st, truthy (token (session st)) = false ->
                 require_auth st
                 = (Sig StopScript,
                    mkState (session st)
                            (shown st ++ [st_warning (u "Please log in first.")])
                            (sent st))).
Proof.
  intros H. cbv zeta.
  destruct (run_without_token env ui prev H) as [Hs Hst].
  split; [exact Hs|]. split; [|split; [exact Hst|split; [|split]]].
  - intros v. apply no_tab_in. rewrite Hst.
    now rewrite (no_tab_before_gate env ui (empty_state (session_init prev))).
  - rewrite Hst. apply before_gate_sends.
  - intros st F. apply bind_signal. now apply auth_gate_stops.
  - intros st F. unfold require_auth, bind, get_session. now rewrite F.
Qed.

(** The first run of a browser session, nothing pressed: it stops at the gate. *)
Lemma views_refused_without_token_witness :
  let out := run (sample_env (always bad_email)) idle_ui None in
  (exists s, fst out = Sig s) /\ (forall v, ~ In (st_tab v) (shown (snd out))).
Proof.
  cbv zeta.
  pose proof (views_refused_without_token
                (sample_env (always bad_email)) idle_ui None eq_refl) as H.
  cbv zeta in H. destruct H as [H1 [H2 _]]. split; assumption.
Defined.

(** C3, as the code has it.  After a sign-up that the backend answers with
    [access_token], the session's token is that value, its role is the
    form's, its email, name and location are the form's values with the
    white space at both ends removed (the values that went out in the
    request), its age is the form's for an Individual and absent for an
    NGO, and its NGO goals are the form's, stripped, for an NGO and absent
    for an Individual.  The run ends in a rerun. *)
Theorem register_sets_session env f st r data tok :
  backend env (sent st) (register_request env f) = Responded r ->
  is_error_status (status_code r) = false ->
  json r = Some data ->
  field (u "access_token") data = Some tok ->
  let out := create_account env f st in
  let s := session (snd out) in
  fst out = Sig RerunScript
  /\ sent (snd out) = sent st ++ [register_request env f]
  /\ token s = tok
  /\ role s = Some (su_role f)
  /\ email s = Some (strip (su_email f))
  /\ name s = Some (strip (su_name f))
  /\ location s = Some (strip (su_location f))
  /\ age s = match su_role f with
             | Individual => Some (su_age f)
             | NGO => None
             end
  /\ ngo_goals s = match su_role f with
                   | NGO => Some (strip (su_goals f))
                   | Individual => None
                   end
  /\ field (u "email") (register_payload f) = Some (opt_str (email s))
  /\ field (u "name") (register_payload f) = Some (opt_str (name s))
  /\ field (u "location") (register_payload f) = Some (opt_str (location s))
  /\ field (u "age") (register_payload f) = Some (opt_int (age s))
  /\ field (u "goals") (register_payload f) = Some (opt_str (ngo_goals s)).
Proof.
  intros B E J F. cbv zeta.
  rewrite (create_account_success env f st B E J F).
  cbn [fst snd session sent token role email name location age ngo_goals
       after_register].
  unfold register_payload.
  destruct (su_role f); repeat split; reflexivity.
Qed.

(** Jane signs up with blanks around her name and is granted a token. *)
Lemma register_sets_session_witness :
  let out := create_account (sample_env (always (grants (u "tok-jane"))))
               padded_form (empty_state empty_session) in
  fst out = Sig RerunScript
  /\ token (session (snd out)) = PStr (u "tok-jane")
  /\ name (session (snd out)) = Some (strip (u " Jane ")).
Proof.
  cbv zeta.
  pose proof (register_sets_session
                (sample_env (always (grants (u "tok-jane")))) padded_form
                (empty_state empty_session)
                (r := grants (u "tok-jane"))
                (data := PDict [(PStr (u "access_token"), PStr (u "tok-jane"))])
                (tok := PStr (u "tok-jane"))
                eq_refl eq_refl eq_refl eq_refl) as H.
  cbv zeta in H.
  destruct H as [H1 [_ [H3 [_ [_ [H6 _]]]]]].
  split; [exact H1|]. split; [exact H3|exact H6].
Defined.

(** C3 as stated fails: with blanks around the name in the form, the
    session's name is not the value of the form. *)
Lemma register_trims_counterexample :
  let out := create_account (sample_env (always (grants (u "tok-jane"))))
               padded_form (empty_state empty_session) in
  fst out = Sig RerunScript
  /\ su_name padded_form = u " Jane "
  /\ name (session (snd out)) = Some (u "Jane")
  /\ name (session (snd out)) <> Some (su_name padded_form).
Proof.
  cbv zeta.
  split; [vm_compute; reflexivity|].
  split; [reflexivity|].
  split; [vm_compute; reflexivity|].
  vm_compute. discriminate.
Qed.

(** C4, as the code has it.  After a login that the backend answers with
    [access_token], the session's token is that value and its email is the
    login form's email with the white space at both ends removed; role,
    name, location, age and NGO goals are as they were.  The run ends in a
    rerun. *)
Theorem login_sets_token_and_email env e pwd st r data tok :
  backend env (sent st) (login_request env e pwd) = Responded r ->
  is_error_status (status_code r) = false ->
  json r = Some data ->
  field (u "access_token") data = Some tok ->
  let out := login env e pwd st in
  let s := session (snd out) in
  fst out = Sig RerunScript
  /\ sent (snd out) = sent st ++ [login_request env e pwd]
  /\ token s = tok
  /\ email s = Some (strip e)
  /\ role s = role (session st)
  /\ name s = name (session st)
  /\ location s = location (session st)
  /\ age s = age (session st)
  /\ ngo_goals s = ngo_goals (session st).
Proof.
  intros B E J F. cbv zeta.
  rewrite (login_success env e pwd st B E J F).
  repeat split; reflexivity.
Qed.

(** Bob logs in in the session that still holds Jane's fields. *)
Lemma login_sets_token_and_email_witness :
  let out := login (sample_env (always (grants (u "tok-bob"))))
               (u "bob@example.org ") (u "pw") (empty_state jane) in
  fst out = Sig RerunScript
  /\ token (session (snd out)) = PStr (u "tok-bob")
  /\ email (session (snd out)) = Some (strip (u "bob@example.org "))
  /\ name (session (snd out)) = name jane.
Proof.
  cbv zeta.
  pose proof (login_sets_token_and_email
                (sample_env (always (grants (u "tok-bob"))))
                (u "bob@example.org ") (u "pw") (empty_state jane)
                (r := grants (u "tok-bob"))
                (data := PDict [(PStr (u "access_token"), PStr (u "tok-bob"))])
                (tok := PStr (u "tok-bob"))
                eq_refl eq_refl eq_refl eq_refl) as H.
  cbv zeta in H.
  destruct H as [H1 [_ [H3 [H4 [_ [H6 _]]]]]].
  repeat split; assumption.
Defined.

(** C4 as stated fails: a login in a session that holds Jane's email
    replaces it by the email typed into the login form. *)
Lemma login_overwrites_email_counterexample :
  let out := login (sample_env (always (grants (u "tok-bob"))))
               (u "bob@example.org") (u "pw") (empty_state jane) in
  fst out = Sig RerunScript
  /\ email jane = Some (u "jane@example.org")
  /\ email (session (snd out)) = Some (u "bob@example.org")
  /\ email (session (snd out)) <> email jane.
Proof.
  cbv zeta.
  split; [vm_compute; reflexivity|].
  split; [reflexivity|].
  split; [vm_compute; reflexivity|].
  vm_compute. discriminate.
Qed.

(** C5, as the code has it.  Whichever of the fifteen actions it is: when
    the backend answers the action's request with a 4xx or 5xx status (the
    statuses for which [raise_for_status] raises [HTTPError], and no
    others), the action's handler catches the error, shows [st.error] with
    the action's prefix and the response text, leaves the session alone and
    returns, so the script goes on with what follows.  And no run of the
    whole script ends in an uncaught [HTTPError]: every gateway call stands
    in a [try] that catches it.  This is said of the code of each handler;
    which of them a run arrives at is another matter. *)
Theorem request_failure_shown_inline env ui (a : action) st r :
  backend env (sent st) (action_request env ui a (token (session st)))
    = Responded r ->
  is_error_status (status_code r) = true ->
  handler env ui a st
  = (Val tt,
     mkState (session st)
             (shown st ++ [st_error (failure_prefix a ++ text r)])
             (sent st ++ [action_request env ui a (token (session st))]))
  /\ (forall (k : M unit),
        (handler env ui a ;; k) st
        = k (mkState (session st)
               (shown st ++ [st_error (failure_prefix a ++ text r)])
               (sent st ++ [action_request env ui a (token (session st))])))
  /\ (forall prev r', fst (run env ui prev) <> Sig (Raised (HTTPError r')))
  /\ (forall code, is_error_status code = true <-> (400 <= code < 600)%Z).
Proof.
  intros B E.
  pose proof (handler_on_failure env ui a st B E) as H.
  split; [exact H|]. split; [|split].
  - intros k. now rewrite (bind_value _ _ _ H).
  - intros prev r'. apply catches_script.
  - intros code. unfold is_error_status.
    rewrite andb_true_iff, Z.leb_le, Z.ltb_lt. tauto.
Qed.

(** "Create Survey" is answered with a 400. *)
Lemma request_failure_shown_inline_witness :
  handler (sample_env (always bad_email))
    (submitting (u "create_survey_form") idle_ui) ACreateSurvey
    (empty_state jane)
  = (Val tt,
     mkState jane [st_error (u "Create failed: " ++ u "bad email")]
       [action_request (sample_env (always bad_email))
          (submitting (u "create_survey_form") idle_ui) ACreateSurvey
          (token jane)]).
Proof.
  exact (proj1 (request_failure_shown_inline
                  (sample_env (always bad_email))
                  (submitting (u "create_survey_form") idle_ui) ACreateSurvey
                  (empty_state jane) (r := bad_email) eq_refl eq_refl)).
Defined.

(** C5 as stated fails: not every answer outside 2xx is a failure for the
    code.  [raise_for_status] raises for 4xx and 5xx only.  When "Create
    Survey" is answered with a 304 without a body, no [HTTPError] is
    raised, [r.json()] raises [JSONDecodeError], which no handler catches:
    the run ends inside the Surveys tab, with no error message on the
    page. *)
Lemma not_modified_counterexample :
  let env := sample_env (always not_modified) in
  let ui := submitting (u "create_survey_form") idle_ui in
  let out := run env ui (Some jane) in
  status_code not_modified = 304%Z
  /\ is_error_status (status_code not_modified) = false
  /\ handler env ui ACreateSurvey (empty_state jane)
     = (Sig (Raised JSONDecodeError),
        mkState jane [] [action_request env ui ACreateSurvey (token jane)])
  /\ fst out = Sig (Raised JSONDecodeError)
  /\ sent (snd out) = [action_request env ui ACreateSurvey (token jane)]
  /\ tabs_of (snd out) = [st_tab VSurveys]
  /\ forall body, ~ In (st_error body) (shown (snd out)).
Proof.
  cbv zeta.
  split; [reflexivity|].
  split; [reflexivity|].
  split; [vm_compute; reflexivity|].
  split; [vm_compute; reflexivity|].
  split; [vm_compute; reflexivity|].
  split; [vm_compute; reflexivity|].
  intros body H. vm_compute in H.
  repeat (destruct H as [H|H]; [discriminate|]). exact H.
Qed.

(** C6.  With a backend that answers the sign-up request with status 400
    and the text "bad email", the handler of "Create account" leaves the
    whole session as it was and shows the error "Sign up failed: bad
    email"; a run that started without a token ends at the gate with the
    session it started with, so the token is still unset. *)
Theorem register_rejected_bad_email env ui prev r :
  (forall history,
     backend env history (register_request env (signup ui)) = Responded r) ->
  status_code r = 400%Z ->
  text r = u "bad email" ->
  auth_mode ui = SignUp ->
  button ui (u "Create account") = true ->
  truthy (token (session_init prev)) = false ->
  (forall st,
     create_account env (signup ui) st
     = (Val tt,
        mkState (session st)
                (shown st ++ [st_error (u "Sign up failed: bad email")])
                (sent st ++ [register_request env (signup ui)])))
  /\ run env ui prev
     = (Sig StopScript,
        mkState (session_init prev)
                (header_elements env (session_init prev)
                 ++ [st_divider; st_error (u "Sign up failed: bad email")])
                [register_request env (signup ui)])
  /\ truthy (token (session (snd (run env ui prev)))) = false
  /\ contains (u "Sign up failed: bad email") (u "bad email").
Proof.
  intros B S T Mode Btn Anon.
  assert (E : is_error_status (status_code r) = true) by now rewrite S.
  assert (H : forall st,
             create_account env (signup ui) st
             = (Val tt,
                mkState (session st)
                        (shown st ++ [st_error (u "Sign up failed: bad email")])
                        (sent st ++ [register_request env (signup ui)]))).
  { intros st.
    pose proof (handler_on_failure env ui ARegister st (B (sent st)) E) as H.
    cbn [handler action_request failure_prefix] in H.
    rewrite H, T. reflexivity. }
  assert (R : run env ui prev
              = (Sig StopScript,
                 mkState (session_init prev)
                   (header_elements env (session_init prev)
                    ++ [st_divider; st_error (u "Sign up failed: bad email")])
                   [register_request env (signup ui)])).
  { unfold run, script.
    erewrite bind_value.
    2:{ rewrite before_gate_result. cbn [session]. rewrite Anon. cbn [andb].
        unfold auth_panel. rewrite Mode, Btn. cbn [when]. apply H. }
    cbn [session shown sent app].
    rewrite <- app_assoc. cbn [app].
    apply bind_signal. now apply auth_gate_stops. }
  split; [exact H|]. split; [exact R|]. split.
  - rewrite R. exact Anon.
  - exists (u "Sign up failed: "), []. reflexivity.
Qed.

(** The first run of a browser session, "Create account" pressed, the backend
    answering 400 "bad email". *)
Lemma register_rejected_bad_email_witness :
  let env := sample_env (always bad_email) in
  let ui := pressing (u "Create account") (signing_up padded_form idle_ui) in
  fst (run env ui None) = Sig StopScript
  /\ token (session (snd (run env ui None))) = PNone
  /\ In (st_error (u "Sign up failed: bad email")) (shown (snd (run env ui None))).
Proof.
  cbv zeta.
  pose proof (register_rejected_bad_email
                (sample_env (always bad_email))
                (pressing (u "Create account") (signing_up padded_form idle_ui))
                None (r := bad_email)
                (fun _ => eq_refl) eq_refl eq_refl eq_refl eq_refl eq_refl) as H.
  destruct H as [_ [R _]]. rewrite R.
  split; [reflexivity|]. split; [reflexivity|].
  cbn [snd shown]. apply in_or_app. right. right. left. reflexivity.
Defined.

(** C7.  [api_get] and [api_post] each send one request.  Its headers carry
    [Authorization: Bearer <token>] exactly when the token is truthy (a
    non-empty string is; [None] and the empty string are not) and
    [accept: application/json] always; the POST also carries
    [Content-Type: application/json] and as body [json.dumps(payload or
    {})], the GET carries the query and no body.  The GET's timeout is 30,
    the POST's 60.  Each returns the response's parsed JSON when the
    status is not an error. *)
Theorem gateway_requests env path query payload tok st :
  let g := get_request env path query tok in
  let p := post_request env path payload tok in
  api_get env path query tok st = gateway_result env g st
  /\ api_post env path payload tok st = gateway_result env p st
  /\ sent (snd (api_get env path query tok st)) = sent st ++ [g]
  /\ sent (snd (api_post env path payload tok st)) = sent st ++ [p]
  /\ header_value (u "Authorization") (headers g)
     = (if truthy tok then Some (u "Bearer " ++ py_str env tok) else None)
  /\ header_value (u "Authorization") (headers p)
     = (if truthy tok then Some (u "Bearer " ++ py_str env tok) else None)
  /\ (forall c t, py_str env (PStr (c :: t)) = c :: t
                  /\ truthy (PStr (c :: t)) = true)
  /\ truthy PNone = false /\ truthy (PStr []) = false
  /\ header_value (u "accept") (headers g) = Some (u "application/json")
  /\ header_value (u "accept") (headers p) = Some (u "application/json")
  /\ header_value (u "Content-Type") (headers p) = Some (u "application/json")
  /\ data p = Some (json_dumps env (py_or payload (PDict [])))
  /\ data g = None /\ params g = query
  /\ meth g = GET /\ meth p = POST
  /\ url g = BACKEND_URL env ++ path /\ url p = BACKEND_URL env ++ path
  /\ timeout g = 30%Z /\ timeout p = 60%Z.
Proof.
  cbv zeta.
  split; [apply api_get_result|]. split; [apply api_post_result|].
  split; [now rewrite api_get_result, gateway_result_state|].
  split; [now rewrite api_post_result, gateway_result_state|].
  split; [now apply authorization_header|].
  split; [now apply authorization_header|].
  split; [intros c t; split; reflexivity|].
  split; [reflexivity|]. split; [reflexivity|].
  unfold get_request, post_request, with_authorization.
  destruct (truthy tok); repeat split; reflexivity.
Qed.

(** C8 (the code does not do this).  The form of a survey is made inside
    [if st.button("List surveys")] (line 173), and a button is [True] only
    in the run that its own click started.  With a backend that lists survey
    42, the run started by "List surveys" sends the list request and puts
    the form [resp_42] on the page.  The click on "Submit Answers" of that
    form, with "yes" and "no" typed in, starts a run of its own: in it the
    button is [False], the list is not loaded, the form is not there, no
    request is sent and no confirmation is shown.  So it is for every
    survey, backend and session: a run started by the submit button of a
    survey's form sends nothing, and the page it makes holds no such
    form. *)
Theorem survey_answers_never_sent :
  let env := sample_env one_survey in
  let listed := run env (pressing (u "List surveys") idle_ui) (Some jane) in
  let answered := run env answering_42 (Some jane) in
  sent (snd listed) = [list_request env (token jane)]
  /\ In (st_form (u "resp_42")) (shown (snd listed))
  /\ form_submit answering_42 (u "resp_42") = true
  /\ keyed answering_42 (u "ans_42_0") = u "yes"
  /\ keyed answering_42 (u "ans_42_1") = u "no"
  /\ button answering_42 (u "List surveys") = false
  /\ sent (snd answered) = []
  /\ ~ In (st_form (u "resp_42")) (shown (snd answered))
  /\ ~ In (st_success (u "Submitted. Thank you!")) (shown (snd answered))
  /\ (forall ui form label,
        form_submit ui form = true -> button ui label = false)
  /\ (forall env' ui' prev id,
        form_submit ui' (u "resp_" ++ id) = true ->
        sent (snd (run env' ui' prev)) = []
        /\ ~ In (st_form (u "resp_" ++ id)) (shown (snd (run env' ui' prev)))).
Proof.
  cbv zeta.
  split; [vm_compute; reflexivity|].
  split; [apply has_form_in; vm_compute; reflexivity|].
  split; [reflexivity|]. split; [reflexivity|]. split; [reflexivity|].
  split; [reflexivity|].
  split; [vm_compute; reflexivity|].
  split; [apply no_form_not_in; vm_compute; reflexivity|].
  split.
  { intros H. vm_compute in H.
    repeat (destruct H as [H|H]; [discriminate|]). exact H. }
  split; [apply form_submit_no_button|].
  intros env' ui' prev id H.
  pose proof (survey_form_click_quiet ui' id H) as Q.
  destruct (truthy (token (session_init prev))) eqn:T.
  - destruct prev as [s|]; [|discriminate]. cbn [session_init] in T.
    rewrite (@quiet_run env' ui' s T Q). cbn [snd sent shown].
    split; [reflexivity|]. apply no_form_not_in.
    rewrite has_form_app, header_elements_no_form. reflexivity.
  - destruct Q as (_ & Li & Ca & _).
    rewrite (@stops_at_gate env' ui' prev T Li Ca). cbn [snd sent shown].
    split; [reflexivity|]. apply no_form_not_in.
    rewrite has_form_app, header_elements_no_form. reflexivity.
Qed.



(** C10.  "Create Survey" sends one POST to /surveys/create whose payload
    holds under [questions] the list the text of the questions box gives
    when it is split at line boundaries, each line is stripped of white
    space at both ends, and the lines that are then empty are dropped, in
    the order of the text.  Every question sent is non-empty, has no white
    space at either end and no line boundary inside, and is the stripped
    form of a line of the text; every line that is not blank is sent.
    The lines are those of the text and no others: [splitlines] gives the
    one list that [lines_of] admits, which is told from the text alone.
    And stripping a line takes away white space at its two ends and
    nothing else. *)
Theorem create_survey_questions env ui st :
  let blob := cs_questions_blob ui in
  sent (snd (create_survey env ui st))
  = sent st ++ [post_request env (u "/surveys/create")
                  (create_survey_payload ui) (token (session st))]
  /\ field (u "questions") (create_survey_payload ui)
     = Some (PList (map PStr (parse_questions blob)))
  /\ parse_questions blob = non_blank_trimmed_lines blob
  /\ Forall (fun q => str_truthy q = true /\ strip q = q /\ one_line q = true
                      /\ head_ok (fun c => negb (isspace c)) q = true
                      /\ last_ok (fun c => negb (isspace c)) q = true)
            (parse_questions blob)
  /\ (forall q, In q (parse_questions blob) <->
                exists line, In line (splitlines blob)
                             /\ strip line = q /\ q <> [])
  /\ lines_of blob (splitlines blob)
  /\ (forall ls, lines_of blob ls -> ls = splitlines blob)
  /\ (forall line,
        exists pre post,
          line = pre ++ strip line ++ post
          /\ forallb isspace pre = true /\ forallb isspace post = true
          /\ head_ok (fun c => negb (isspace c)) (strip line) = true
          /\ last_ok (fun c => negb (isspace c)) (strip line) = true).
Proof.
  cbv zeta.
  split; [apply create_survey_sends|].
  split; [reflexivity|].
  split; [apply parse_questions_spec|].
  split; [|split; [intros q; apply parse_questions_in|]].
  - pose proof (parse_questions_clean (cs_questions_blob ui)) as F.
    rewrite Forall_forall in *. intros q H.
    destruct (F q H) as [F1 [F2 F3]]. repeat split; auto.
    + rewrite <- F2. apply strip_head.
    + rewrite <- F2. apply strip_last.
  - split; [apply splitlines_lines|].
    split; [intros ls L; symmetry; now apply lines_of_splitlines|].
    intros line. destruct (strip_middle line) as [pre [post [E [P1 P2]]]].
    exists pre, post. split; [exact E|]. split; [exact P1|]. split; [exact P2|].
    split; [apply strip_head|apply strip_last].
Qed.

Example create_survey_questions_sample :
  parse_questions (u "  Is water clean? " ++ [13; 10]%N ++ [9; 10]%N
                   ++ u "Is it far?" ++ [10; 10]%N ++ u "   ")
  = [u "Is water clean?"; u "Is it far?"].
Proof. vm_compute. reflexivity. Qed.

(* ================================================================== *)
(** * Further properties *)

(** X1.  When the backend answers "List surveys" with an empty list, the
    handler shows the empty-state message and no survey card. *)
Theorem empty_survey_list_message env ui st r :
  backend env (sent st) (action_request env ui AListSurveys (token (session st)))
    = Responded r ->
  is_error_status (status_code r) = false ->
  json r = Some (PList []) ->
  list_surveys env ui st
  = (Val tt,
     mkState (session st)
             (shown st ++ [st_info (u "No surveys found for that location.")])
             (sent st ++ [action_request env ui AListSurveys (token (session st))])).
Proof.
  intros B E J. unfold list_surveys, try_except_HTTPError.
  rewrite bind_token.
  erewrite bind_value
    by (rewrite api_get_result; eapply gateway_success; eassumption).
  reflexivity.
Qed.

(** Kampala has no surveys. *)
Lemma empty_survey_list_message_witness :
  shown (snd (list_surveys (sample_env (always (answers_with (PList []))))
                idle_ui (empty_state jane)))
  = [st_info (u "No surveys found for that location.")].
Proof.
  rewrite (empty_survey_list_message
             (sample_env (always (answers_with (PList [])))) idle_ui
             (empty_state jane) (r := answers_with (PList []))
             eq_refl eq_refl eq_refl).
  reflexivity.
Defined.

(** X2.  Logout in any logged-in session: the run shows the header and ends
    in a rerun; token, role and email are [None], and name, location, age
    and NGO goals are what they were. *)
Theorem logout_result env ui s :
  truthy (token s) = true ->
  button ui (u "Logout") = true ->
  run env ui (Some s)
  = (Sig RerunScript, mkState (after_logout s) (header_elements env s) [])
  /\ token (after_logout s) = PNone
  /\ role (after_logout s) = None
  /\ email (after_logout s) = None
  /\ name (after_logout s) = name s
  /\ location (after_logout s) = location s
  /\ age (after_logout s) = age s
  /\ ngo_goals (after_logout s) = ngo_goals s.
Proof.
  intros T L. split; [|repeat split].
  unfold run, script. apply bind_signal.
  rewrite before_gate_result. cbn [session_init session shown sent app].
  now rewrite T, L.
Qed.

(** Jane logs out. *)
Lemma logout_result_witness :
  session (snd (run (sample_env (always bad_email))
                  (pressing (u "Logout") idle_ui) (Some jane)))
  = after_logout jane.
Proof.
  rewrite (proj1 (logout_result (sample_env (always bad_email))
                    (pressing (u "Logout") idle_ui) jane eq_refl eq_refl)).
  reflexivity.
Defined.

(* ================================================================== *)
(** * Failures that are not caught *)

(** X4.  Only [requests.HTTPError] is caught.  Whichever of the fifteen
    actions it is: when the connection fails, or when the backend answers
    with a status that is no error and a body that is not JSON, the handler
    shows nothing and the exception leaves it, so the run ends there; the
    session is as it was and the request has gone out. *)
Theorem other_failures_end_the_run env ui (a : action) st :
  let rq := action_request env ui a (token (session st)) in
  (backend env (sent st) rq = ConnectionFailed ->
   handler env ui a st
   = (Sig (Raised RequestException),
      mkState (session st) (shown st) (sent st ++ [rq])))
  /\ (forall r,
        backend env (sent st) rq = Responded r ->
        is_error_status (status_code r) = false ->
        json r = None ->
        handler env ui a st
        = (Sig (Raised JSONDecodeError),
           mkState (session st) (shown st) (sent st ++ [rq]))).
Proof.
  cbv zeta. split.
  - intros B.
    destruct a; cbn [handler action_request] in *;
      unfold create_account, login, list_surveys, submit_answers, create_survey,
        submit_report, load_feed, publish_tutorial, load_tutorials,
        create_opportunity, load_opportunities, post_topic, show_topics,
        post_comment, generate_report;
      (erewrite try_passes;
       [ | rewrite ?bind_token; apply bind_signal;
           rewrite ?api_post_result, ?api_get_result;
           unfold gateway_result; rewrite B; reflexivity
         | discriminate ];
       reflexivity).
  - intros r B E J.
    destruct a; cbn [handler action_request] in *;
      unfold create_account, login, list_surveys, submit_answers, create_survey,
        submit_report, load_feed, publish_tutorial, load_tutorials,
        create_opportunity, load_opportunities, post_topic, show_topics,
        post_comment, generate_report;
      (erewrite try_passes;
       [ | rewrite ?bind_token; apply bind_signal;
           rewrite ?api_post_result, ?api_get_result;
           unfold gateway_result; rewrite B, E, J; reflexivity
         | discriminate ];
       reflexivity).
Qed.

(** X5.  A sign-up or login response that is no error but carries no
    [access_token] (or is no JSON object at all) raises [KeyError] or
    [TypeError] at [data["access_token"]]: nothing is assigned to the
    session, no success message is shown, and the run ends with that
    exception. *)
Theorem missing_access_token env f e pwd st r data :
  is_error_status (status_code r) = false ->
  json r = Some data ->
  field (u "access_token") data = None ->
  let raised := match data with
                | PDict _ => KeyError (u "access_token")
                | _ => TypeError
                end in
  (backend env (sent st) (register_request env f) = Responded r ->
   create_account env f st
   = (Sig (Raised raised),
      mkState (session st) (shown st) (sent st ++ [register_request env f])))
  /\ (backend env (sent st) (login_request env e pwd) = Responded r ->
      login env e pwd st
      = (Sig (Raised raised),
         mkState (session st) (shown st) (sent st ++ [login_request env e pwd]))).
Proof.
  intros E J F. cbv zeta.
  assert (G : forall st',
             getitem data (u "access_token") st'
             = (Sig (Raised match data with
                            | PDict _ => KeyError (u "access_token")
                            | _ => TypeError
                            end), st')).
  { intros st'. destruct data; try reflexivity. simpl in *. now rewrite F. }
  split; intros B.
  - unfold create_account.
    erewrite try_passes;
      [ | erewrite bind_value
            by (rewrite api_post_result; eapply gateway_success; eassumption);
          apply bind_signal; apply G
        | now destruct data ].
    reflexivity.
  - unfold login.
    erewrite try_passes;
      [ | erewrite bind_value
            by (rewrite api_post_result; eapply gateway_success; eassumption);
          apply bind_signal; apply G
        | now destruct data ].
    reflexivity.
Qed.

(** The backend answers the sign-up with an empty object. *)
Lemma missing_access_token_witness :
  create_account (sample_env (always acknowledges)) padded_form
    (empty_state empty_session)
  = (Sig (Raised (KeyError (u "access_token"))),
     mkState empty_session []
       [register_request (sample_env (always acknowledges)) padded_form]).
Proof.
  exact (proj1 (@missing_access_token
                  (sample_env (always acknowledges)) padded_form [] []
                  (empty_state empty_session) acknowledges (PDict [])
                  eq_refl eq_refl eq_refl) eq_refl).
Defined.

(* ================================================================== *)
(** * What only grows, and what every request carries *)

Section Growth.

Context {X : Type} (f : state -> list X).

Lemma grows_ret {A} (a : A) : grows f (ret a).
Proof. intro st. exists []. simpl. now rewrite app_nil_r. Qed.

Lemma grows_signal {A} (s : signal) : grows f (@signal_with A s).
Proof. intro st. exists []. simpl. now rewrite app_nil_r. Qed.

Lemma grows_get_session : grows f get_session.
Proof. intro st. exists []. simpl. now rewrite app_nil_r. Qed.

Lemma grows_session_token : grows f session_token.
Proof. intro st. exists []. simpl. now rewrite app_nil_r. Qed.

Lemma grows_bind {A B} (m : M A) (k : A -> M B) :
  grows f m -> (forall a, grows f (k a)) -> grows f (bind m k).
Proof.
  intros Hm Hk st. unfold bind. destruct (Hm st) as [m1 E1].
  destruct (m st) as [[a|s] st']; simpl in *; [|now exists m1].
  destruct (Hk a st') as [m2 E2]. exists (m1 ++ m2).
  now rewrite E2, E1, app_assoc.
Qed.

Lemma grows_try (body : M unit) (h : response -> M unit) :
  grows f body -> (forall r, grows f (h r)) ->
  grows f (try_except_HTTPError body h).
Proof.
  intros Hb Hh st. unfold try_except_HTTPError. destruct (Hb st) as [m1 E1].
  destruct (body st) as [[a|[| |[r| | | | | | |]]] st']; simpl in *;
    try (now exists m1).
  destruct (Hh r st') as [m2 E2]. exists (m1 ++ m2).
  now rewrite E2, E1, app_assoc.
Qed.

Lemma grows_for_each {A} (xs : list A) (body : A -> M unit) :
  (forall x, grows f (body x)) -> grows f (for_each xs body).
Proof.
  intros H. induction xs as [|x xs IH]; simpl.
  - apply grows_ret.
  - apply grows_bind; auto.
Qed.

Lemma grows_when (c : bool) (body : M unit) :
  grows f body -> grows f (when c body).
Proof. intros H. destruct c; simpl; [exact H|apply grows_ret]. Qed.

Lemma grows_if {A} (c : bool) (m1 m2 : M A) :
  grows f m1 -> grows f m2 -> grows f (if c then m1 else m2).
Proof. now destruct c. Qed.

Lemma grows_getitem v key : grows f (getitem v key).
Proof.
  destruct v; try apply grows_signal. simpl.
  destruct (dict_find key kv); [apply grows_ret|apply grows_signal].
Qed.

Lemma grows_get_or v key d : grows f (get_or v key d).
Proof.
  destruct v; try apply grows_signal. simpl.
  destruct (dict_find key kv); apply grows_ret.
Qed.

Lemma grows_py_iter v : grows f (py_iter v).
Proof. destruct v; try apply grows_signal; apply grows_ret. Qed.

Lemma grows_upper env v : grows f (upper env v).
Proof. destruct v; try apply grows_signal; apply grows_ret. Qed.

Lemma grows_text_area ui label key : grows f (st_text_area ui label key).
Proof. destruct label; try apply grows_signal; apply grows_ret. Qed.

Lemma grows_collect_answers env ui id numbered :
  grows f (collect_answers env ui id numbered).
Proof.
  induction numbered as [|[i q] rest IH]; simpl.
  - apply grows_ret.
  - apply grows_bind; [apply grows_text_area|intro].
    apply grows_bind; [exact IH|intro]. apply grows_ret.
Qed.

Lemma grows_repeated_text_input label : grows f (repeated_text_input label).
Proof. apply grows_signal. Qed.

End Growth.

Lemma shown_grows_show e : grows shown (show e).
Proof. intro st. now exists [e]. Qed.

Lemma shown_grows_api_get env path query tok :
  grows shown (api_get env path query tok).
Proof.
  intro st. exists []. rewrite api_get_result, gateway_result_state.
  simpl. now rewrite app_nil_r.
Qed.

Lemma shown_grows_api_post env path payload tok :
  grows shown (api_post env path payload tok).
Proof.
  intro st. exists []. rewrite api_post_result, gateway_result_state.
  simpl. now rewrite app_nil_r.
Qed.

Lemma sent_grows_show e : grows sent (show e).
Proof. intro st. exists []. simpl. now rewrite app_nil_r. Qed.

Lemma shown_grows_with_form key : grows shown (with_form key).
Proof.
  intro st. destruct (with_form_cases key st) as [-> | ->].
  - exists []. simpl. now rewrite app_nil_r.
  - now exists [st_form key].
Qed.

Lemma sent_grows_with_form key : grows sent (with_form key).
Proof.
  intro st. exists [].
  destruct (with_form_cases key st) as [-> | ->]; simpl; now rewrite app_nil_r.
Qed.

Lemma shown_grows_with_expander label : grows shown (with_expander label).
Proof.
  intro st. destruct (with_expander_cases label st) as [[e [-> _]] | ->].
  - exists []. simpl. now rewrite app_nil_r.
  - now exists [st_expander label].
Qed.

Lemma sent_grows_with_expander label : grows sent (with_expander label).
Proof.
  intro st. exists [].
  destruct (with_expander_cases label st) as [[e [-> _]] | ->]; simpl;
    now rewrite app_nil_r.
Qed.

Lemma sent_grows_api_get env path query tok :
  grows sent (api_get env path query tok).
Proof.
  intro st. exists [get_request env path query tok].
  now rewrite api_get_result, gateway_result_state.
Qed.

Lemma sent_grows_api_post env path payload tok :
  grows sent (api_post env path payload tok).
Proof.
  intro st. exists [post_request env path payload tok].
  now rewrite api_post_result, gateway_result_state.
Qed.

Lemma grows_set_session {X} (f : state -> list X) g :
  (forall s sh se, f (mkState (g s) sh se) = f (mkState s sh se)) ->
  grows f (set_session g).
Proof.
  intros H st. exists []. unfold set_session. simpl. rewrite H.
  destruct st. simpl. now rewrite app_nil_r.
Qed.

(** Solves [grows shown m] and [grows sent m] by the structure of [m]. *)
Ltac growing :=
  repeat first
    [ apply shown_grows_with_form
    | apply sent_grows_with_form
    | apply shown_grows_with_expander
    | apply sent_grows_with_expander
    | apply grows_collect_answers
    | apply grows_text_area
    | apply grows_repeated_text_input
    | apply shown_grows_api_get
    | apply shown_grows_api_post
    | apply sent_grows_api_get
    | apply sent_grows_api_post
    | apply grows_session_token
    | apply shown_grows_show
    | apply sent_grows_show
    | apply grows_set_session; reflexivity
    | apply grows_ret
    | apply grows_signal
    | apply grows_get_session
    | apply grows_getitem
    | apply grows_get_or
    | apply grows_py_iter
    | apply grows_upper
    | apply grows_when
    | apply grows_if
    | apply grows_for_each; intro
    | apply grows_try; [|intro]
    | apply grows_bind; [|intro] ].

Lemma shown_grows_views env ui : grows shown (views env ui).
Proof.
  unfold views, surveys_view, civic_view, skillup_view, discussions_view,
    ai_report_view, profile_view, list_surveys, survey_card, submit_answers,
    create_survey, submit_report, load_feed, feed_card, publish_tutorial,
    load_tutorials, tutorial_card, create_opportunity, load_opportunities,
    opportunity_card, post_topic, show_topics, topic_card, post_comment,
    generate_report, error_with, badge.
  growing.
Qed.

Section SendsOnly.

Variable s : Session.
Variable P : request -> Prop.

Lemma so_ret {A} (a : A) : sends_only s P (ret a).
Proof. intros st H F. now split. Qed.

Lemma so_signal {A} (sg : signal) : sends_only s P (@signal_with A sg).
Proof. intros st H F. now split. Qed.

Lemma so_get_session : sends_only s P get_session.
Proof. intros st H F. now split. Qed.

Lemma so_show e : sends_only s P (show e).
Proof. intros st H F. now split. Qed.

Lemma so_bind {A B} (m : M A) (k : A -> M B) :
  sends_only s P m -> (forall a, sends_only s P (k a)) ->
  sends_only s P (bind m k).
Proof.
  intros Hm Hk st H F. unfold bind. destruct (Hm st H F) as [H1 F1].
  destruct (m st) as [[a|sg] st']; simpl in *; [now apply Hk|now split].
Qed.

(** The token a view hands to the gateway is the session's. *)
Lemma so_token {B} (k : pyval -> M B) :
  sends_only s P (k (token s)) -> sends_only s P (bind session_token k).
Proof.
  intros Hk st H F. rewrite bind_token, H. now apply Hk.
Qed.

Lemma so_try (body : M unit) (h : response -> M unit) :
  sends_only s P body -> (forall r, sends_only s P (h r)) ->
  sends_only s P (try_except_HTTPError body h).
Proof.
  intros Hb Hh st H F. unfold try_except_HTTPError.
  destruct (Hb st H F) as [H1 F1].
  destruct (body st) as [[a|[| |[r| | | | | | |]]] st']; simpl in *;
    try (now split).
  now apply Hh.
Qed.

Lemma so_for_each {A} (xs : list A) (body : A -> M unit) :
  (forall x, sends_only s P (body x)) -> sends_only s P (for_each xs body).
Proof.
  intros H. induction xs as [|x xs IH]; simpl.
  - apply so_ret.
  - apply so_bind; auto.
Qed.

Lemma so_when (c : bool) (body : M unit) :
  sends_only s P body -> sends_only s P (when c body).
Proof. intros H. destruct c; simpl; [exact H|apply so_ret]. Qed.

Lemma so_if {A} (c : bool) (m1 m2 : M A) :
  sends_only s P m1 -> sends_only s P m2 ->
  sends_only s P (if c then m1 else m2).
Proof. now destruct c. Qed.

Lemma so_getitem v key : sends_only s P (getitem v key).
Proof.
  destruct v; try apply so_signal. simpl.
  destruct (dict_find key kv); [apply so_ret|apply so_signal].
Qed.

Lemma so_get_or v key d : sends_only s P (get_or v key d).
Proof.
  destruct v; try apply so_signal. simpl.
  destruct (dict_find key kv); apply so_ret.
Qed.

Lemma so_py_iter v : sends_only s P (py_iter v).
Proof. destruct v; try apply so_signal; apply so_ret. Qed.

Lemma so_upper env v : sends_only s P (upper env v).
Proof. destruct v; try apply so_signal; apply so_ret. Qed.

Lemma so_with_form key : sends_only s P (with_form key).
Proof.
  intros st H F. destruct (with_form_cases key st) as [-> | ->]; now split.
Qed.

Lemma so_with_expander label : sends_only s P (with_expander label).
Proof.
  intros st H F.
  destruct (with_expander_cases label st) as [[e [-> _]] | ->]; now split.
Qed.

Lemma so_text_area ui label key : sends_only s P (st_text_area ui label key).
Proof. destruct label; try apply so_signal; apply so_ret. Qed.

Lemma so_collect_answers env ui id numbered :
  sends_only s P (collect_answers env ui id numbered).
Proof.
  induction numbered as [|[i q] rest IH]; simpl.
  - apply so_ret.
  - apply so_bind; [apply so_text_area|intro].
    apply so_bind; [exact IH|intro]. apply so_ret.
Qed.

Lemma so_repeated_text_input label : sends_only s P (repeated_text_input label).
Proof. apply so_signal. Qed.

Lemma so_api_get env path query tok :
  P (get_request env path query tok) ->
  sends_only s P (api_get env path query tok).
Proof.
  intros Hp st H F. rewrite api_get_result, gateway_result_state.
  split; [exact H|]. simpl. apply Forall_app. split; [exact F|].
  now constructor.
Qed.

Lemma so_api_post env path payload tok :
  P (post_request env path payload tok) ->
  sends_only s P (api_post env path payload tok).
Proof.
  intros Hp st H F. rewrite api_post_result, gateway_result_state.
  split; [exact H|]. simpl. apply Forall_app. split; [exact F|].
  now constructor.
Qed.

End SendsOnly.

(** With a truthy token the gateway's requests bear it. *)
Lemma get_request_bears env path query tok :
  truthy tok = true -> bears env tok (get_request env path query tok).
Proof.
  intros T. unfold bears, get_request. cbn [headers].
  rewrite authorization_header by reflexivity. now rewrite T.
Qed.

Lemma post_request_bears env path payload tok :
  truthy tok = true -> bears env tok (post_request env path payload tok).
Proof.
  intros T. unfold bears, post_request. cbn [headers].
  rewrite authorization_header by reflexivity. now rewrite T.
Qed.

(** Solves [sends_only s P m] for the code of the views, given that [P]
    holds of every GET ([Hg]) and POST ([Hp]) made with the session's
    token. *)
Ltac only_sending Hg Hp :=
  repeat first
    [ apply so_with_form
    | apply so_with_expander
    | apply so_collect_answers
    | apply so_text_area
    | apply so_repeated_text_input
    | apply so_api_get; apply Hg
    | apply so_api_post; apply Hp
    | apply so_token
    | apply so_show
    | apply so_ret
    | apply so_signal
    | apply so_get_session
    | apply so_getitem
    | apply so_get_or
    | apply so_py_iter
    | apply so_upper
    | apply so_when
    | apply so_if
    | apply so_for_each; intro
    | apply so_try; [|intro]
    | apply so_bind; [|intro] ].

(** Every request of the six views is a gateway call made with the
    session's token. *)
Lemma views_send_only env ui s (P : request -> Prop) :
  (forall path query, P (get_request env path query (token s))) ->
  (forall path payload, P (post_request env path payload (token s))) ->
  sends_only s P (views env ui).
Proof.
  intros Hg Hp.
  unfold views, surveys_view, civic_view, skillup_view, discussions_view,
    ai_report_view, profile_view, list_surveys, survey_card, submit_answers,
    create_survey, submit_report, load_feed, feed_card, publish_tutorial,
    load_tutorials, tutorial_card, create_opportunity, load_opportunities,
    opportunity_card, post_topic, show_topics, topic_card, post_comment,
    generate_report, error_with, badge.
  only_sending Hg Hp.
Qed.

(** X6.  Every request a run of the script sends is the sign-up request, the
    login request, or carries [Authorization: Bearer <token>] with the token
    of the session the run started with; the sign-up and login requests
    carry no [Authorization] header, whatever the session holds. *)
Theorem every_request_authorized env ui prev :
  let s0 := session_init prev in
  let sign_up := register_request env (signup ui) in
  let log_in := login_request env (keyed ui (u "login_email"))
                  (keyed ui (u "login_pwd")) in
  Forall (fun rq => rq = sign_up \/ rq = log_in \/ bears env (token s0) rq)
         (sent (snd (run env ui prev)))
  /\ header_value (u "Authorization") (headers sign_up) = None
  /\ header_value (u "Authorization") (headers log_in) = None.
Proof.
  cbv zeta. split; [|split; reflexivity].
  pose proof (before_gate_sends env ui (session_init prev)) as F0.
  assert (F : Forall
                (fun rq =>
                   rq = register_request env (signup ui)
                   \/ rq = login_request env (keyed ui (u "login_email"))
                             (keyed ui (u "login_pwd"))
                   \/ bears env (token (session_init prev)) rq)
                (sent (snd (before_gate env ui (empty_state (session_init prev)))))).
  { eapply Forall_impl; [|exact F0]. intros rq [H|H]; auto. }
  clear F0. unfold run, script, empty_state in *.
  destruct (before_gate env ui (mkState (session_init prev) [] []))
    as [[a|sg] st1] eqn:E.
  2:{ now rewrite (bind_signal _ _ _ E). }
  rewrite (bind_value _ _ _ E). simpl in F.
  pose proof (before_gate_returns _ _ _ E) as S. simpl in S.
  destruct (truthy (token (session_init prev))) eqn:T.
  - rewrite (bind_value _ _ _ (auth_gate_passes st1 ltac:(now rewrite S))).
    assert (V : sends_only (session_init prev)
                  (fun rq =>
                     rq = register_request env (signup ui)
                     \/ rq = login_request env (keyed ui (u "login_email"))
                               (keyed ui (u "login_pwd"))
                     \/ bears env (token (session_init prev)) rq)
                  (views env ui ;;
                   show (st_caption ([169%N] ++ u " Humanet prototype")))).
    { apply so_bind; [|intro; apply so_show].
      apply views_send_only; intros; right; right;
        [now apply get_request_bears|now apply post_request_bears]. }
    now apply V.
  - now rewrite (bind_signal _ _ _ (auth_gate_stops st1 ltac:(now rewrite S))).
Qed.

(* ================================================================== *)
(** * Whole runs *)

(** X7.  A run without a token in which neither "Login" nor "Create
    account" is pressed shows the header and the divider, sends nothing to
    the backend and stops at the gate with the session it started with. *)
Theorem visitor_run_sends_nothing env ui prev :
  truthy (token (session_init prev)) = false ->
  button ui (u "Login") = false ->
  button ui (u "Create account") = false ->
  run env ui prev
  = (Sig StopScript,
     mkState (session_init prev)
             (header_elements env (session_init prev) ++ [st_divider]) []).
Proof.
  intros T L C. unfold run, script.
  erewrite bind_value.
  2:{ rewrite before_gate_result. cbn [session shown sent app]. rewrite T.
      cbn [andb]. unfold auth_panel. rewrite L, C. now destruct (auth_mode ui). }
  now apply bind_signal, auth_gate_stops.
Qed.

(** The first run of a browser session, nothing pressed. *)
Lemma visitor_run_sends_nothing_witness :
  sent (snd (run (sample_env (always bad_email)) idle_ui None)) = []
  /\ fst (run (sample_env (always bad_email)) idle_ui None) = Sig StopScript.
Proof.
  rewrite (visitor_run_sends_nothing (sample_env (always bad_email)) idle_ui None
             eq_refl eq_refl eq_refl).
  split; reflexivity.
Defined.

Lemma grows_keeps_shown (m : M unit) e st :
  grows shown m -> In e (shown st) -> In e (shown (snd (m st))).
Proof.
  intros G I. destruct (G st) as [more E]. rewrite E.
  apply in_or_app. now left.
Qed.

(** A logged-in run in which neither Logout nor an auth button is pressed
    passes the gate and enters the Surveys tab. *)
Lemma logged_in_run_enters_surveys env ui s :
  truthy (token s) = true ->
  button ui (u "Logout") = false ->
  button ui (u "Login") = false ->
  button ui (u "Create account") = false ->
  In (st_tab VSurveys) (shown (snd (run env ui (Some s)))).
Proof.
  intros T O L C. unfold run, script.
  erewrite bind_value.
  2:{ rewrite before_gate_result. cbn [session_init session shown sent app].
      rewrite T, O. cbn [andb]. unfold auth_panel. rewrite L, C.
      now destruct (auth_mode ui). }
  erewrite bind_value by now apply auth_gate_passes.
  unfold views, surveys_view. rewrite !bind_assoc.
  rewrite (bind_value _ _ _ (show_result _ _)).
  apply grows_keeps_shown.
  - unfold civic_view, skillup_view, discussions_view,
      ai_report_view, profile_view, list_surveys, survey_card, submit_answers,
      create_survey, submit_report, load_feed, feed_card, publish_tutorial,
      load_tutorials, tutorial_card, create_opportunity, load_opportunities,
      opportunity_card, post_topic, show_topics, topic_card, post_comment,
      generate_report, error_with, badge.
    growing.
  - cbn [shown]. apply in_or_app. right. now left.
Qed.

(** X8.  Sign-up followed by the rerun it triggers.  The run of a granted
    sign-up shows the success message and ends in a rerun with the session
    of lines 123-129.  If the granted [access_token] is falsy ([null], an
    empty string), every following run still stops at the gate and enters
    no tab, although the message said "logged in"; if it is truthy, the
    next run in which no header or auth button is pressed enters the
    Surveys tab. *)
Theorem rerun_after_sign_up env ui prev r data tok :
  truthy (token (session_init prev)) = false ->
  auth_mode ui = SignUp ->
  button ui (u "Create account") = true ->
  backend env [] (register_request env (signup ui)) = Responded r ->
  is_error_status (status_code r) = false ->
  json r = Some data ->
  field (u "access_token") data = Some tok ->
  let s1 := after_register (signup ui) tok in
  run env ui prev
  = (Sig RerunScript,
     mkState s1
       (header_elements env (session_init prev)
        ++ [st_divider; st_success (u "Account created & logged in.")])
       [register_request env (signup ui)])
  /\ (truthy tok = false ->
      forall env' ui',
        (exists sg, fst (run env' ui' (Some s1)) = Sig sg)
        /\ forall v, ~ In (st_tab v) (shown (snd (run env' ui' (Some s1)))))
  /\ (truthy tok = true ->
      forall env' ui',
        button ui' (u "Logout") = false ->
        button ui' (u "Login") = false ->
        button ui' (u "Create account") = false ->
        In (st_tab VSurveys) (shown (snd (run env' ui' (Some s1))))).
Proof.
  intros T Mode Btn B E J F. cbv zeta. split; [|split].
  - unfold run, script. apply bind_signal.
    rewrite before_gate_result. cbn [session shown sent app]. rewrite T.
    cbn [andb]. unfold auth_panel. rewrite Mode, Btn. cbn [when].
    erewrite create_account_success; [|exact B|exact E|exact J|exact F].
    cbn [shown sent app]. now rewrite <- app_assoc.
  - intros Tk env' ui'.
    destruct (run_without_token env' ui' (Some (after_register (signup ui) tok)) Tk)
      as [Hs Hst].
    split; [exact Hs|]. intros v. apply no_tab_in. rewrite Hst.
    now rewrite (no_tab_before_gate env' ui'
                   (empty_state (session_init (Some (after_register (signup ui) tok))))).
  - intros Tk env' ui' O L C. now apply logged_in_run_enters_surveys.
Qed.

(** Jane signs up on her first visit and is granted a token. *)
Lemma rerun_after_sign_up_witness :
  let env := sample_env (always (grants (u "tok-jane"))) in
  let ui := pressing (u "Create account") (signing_up padded_form idle_ui) in
  fst (run env ui None) = Sig RerunScript
  /\ In (st_tab VSurveys)
        (shown (snd (run env idle_ui
                       (Some (after_register padded_form (PStr (u "tok-jane"))))))).
Proof.
  cbv zeta.
  pose proof (@rerun_after_sign_up
                (sample_env (always (grants (u "tok-jane"))))
                (pressing (u "Create account") (signing_up padded_form idle_ui))
                None (grants (u "tok-jane"))
                (PDict [(PStr (u "access_token"), PStr (u "tok-jane"))])
                (PStr (u "tok-jane"))
                eq_refl eq_refl eq_refl eq_refl eq_refl eq_refl eq_refl) as H.
  cbv zeta in H. destruct H as [R [_ H]]. split.
  - now rewrite R.
  - exact (H eq_refl (sample_env (always (grants (u "tok-jane")))) idle_ui
             eq_refl eq_refl eq_refl).
Defined.

(** ** A page on which nothing is pressed *)

Lemma header_elements_no_tab env s : filter is_tab (header_elements env s) = [].
Proof.
  unfold header_elements.
  destruct (path_exists env (ICON_PATH env)); destruct (truthy (token s));
    reflexivity.
Qed.

(** X9.  A logged-in run in which nothing is pressed shows the header, the
    Surveys tab, the Civic Reports tab and the SkillUp tab down to "Browse
    Tutorials", and ends there: line 301 makes the text input "Filter by
    location (optional)" that line 257 has made, and Streamlit raises
    [DuplicateWidgetID].  Nothing is sent, the session is as it was, and
    the Discussions, AI Report and Profile tabs are not entered. *)
Theorem idle_page_ends_in_skillup env ui s :
  truthy (token s) = true ->
  idle ui ->
  let out := run env ui (Some s) in
  fst out = Sig (Raised DuplicateWidgetID)
  /\ shown (snd out) = header_elements env s ++ st_divider :: quiet_views
  /\ tabs_of (snd out) = [st_tab VSurveys; st_tab VCivicReports; st_tab VSkillUp]
  /\ sent (snd out) = []
  /\ session (snd out) = s.
Proof.
  intros T I. cbv zeta.
  rewrite (@quiet_run env ui s T (idle_quiet I)).
  cbn [fst snd session shown sent].
  split; [reflexivity|]. split; [reflexivity|].
  split; [|split; reflexivity].
  unfold tabs_of. cbn [shown].
  rewrite filter_app, header_elements_no_tab. reflexivity.
Qed.

(** Jane opens the page. *)
Lemma idle_page_ends_in_skillup_witness :
  fst (run (sample_env (always bad_email)) idle_ui (Some jane))
  = Sig (Raised DuplicateWidgetID)
  /\ sent (snd (run (sample_env (always bad_email)) idle_ui (Some jane))) = [].
Proof.
  pose proof (@idle_page_ends_in_skillup
                (sample_env (always bad_email)) idle_ui jane
                eq_refl (conj (fun _ => eq_refl) (fun _ => eq_refl))) as H.
  cbv zeta in H. destruct H as [H1 [_ [_ [H4 _]]]]. split; assumption.
Defined.

(* ================================================================== *)
(** * More on the questions box and the base URL *)

Lemma splitlines_join (qs : list pystr) :
  Forall (fun q => str_truthy q = true /\ one_line q = true) qs ->
  splitlines (join [10%N] qs) = qs.
Proof.
  induction qs as [|q qs IH]; intros F; [reflexivity|].
  inversion F as [|? ? [Hq Ho] F']; subst.
  destruct qs as [|q' rest].
  - simpl. unfold splitlines. rewrite splitlines_from_last by exact Ho.
    simpl. now destruct q.
  - change (join [10%N] (q :: q' :: rest))
      with (q ++ 10%N :: join [10%N] (q' :: rest)).
    rewrite splitlines_newline by exact Ho. now rewrite IH.
Qed.

(** X11.  Questions typed one per line, each non-empty, without white space
    at its ends and without a line boundary inside, are sent exactly as
    typed and in that order; so the list that "Create Survey" sends,
    joined by newlines and parsed again, is the same list. *)
Theorem questions_one_per_line (qs : list pystr) :
  Forall (fun q => str_truthy q = true /\ strip q = q /\ one_line q = true) qs ->
  parse_questions (join [10%N] qs) = qs
  /\ forall text,
       parse_questions (join [10%N] (parse_questions text))
       = parse_questions text.
Proof.
  assert (H : forall l,
             Forall (fun q => str_truthy q = true /\ strip q = q
                              /\ one_line q = true) l ->
             parse_questions (join [10%N] l) = l).
  { intros l F. unfold parse_questions. rewrite splitlines_join.
    - induction F as [|q l [T [S O]] F IH]; [reflexivity|].
      simpl. rewrite S, T. simpl. now rewrite S, IH.
    - eapply Forall_impl; [|exact F]. now intros q [T [_ O]]. }
  intros F. split; [now apply H|].
  intros text. apply H, parse_questions_clean.
Qed.

(** Two questions, one per line. *)
Lemma questions_one_per_line_witness :
  parse_questions (join [10%N] [u "Is water clean?"; u "Is it far?"])
  = [u "Is water clean?"; u "Is it far?"].
Proof.
  apply (@questions_one_per_line [u "Is water clean?"; u "Is it far?"]).
  repeat constructor.
Defined.

Lemma lstrip_by_all (p : N -> bool) (s : pystr) :
  forallb p s = true -> lstrip_by p s = [].
Proof.
  induction s as [|c s IH]; simpl; [reflexivity|].
  intros H. apply andb_true_iff in H as [Hc Hs]. now rewrite Hc, IH.
Qed.

Lemma strip_blank (s : pystr) : forallb isspace s = true -> strip s = [].
Proof. intros H. unfold strip. now rewrite lstrip_by_all. Qed.

(** The characters of a line are characters of the text. *)
Lemma splitlines_from_chars (n : nat) :
  forall (s cur l : pystr) (c : N),
    (List.length s <= n)%nat ->
    In l (splitlines_from cur s) -> In c l -> In c cur \/ In c s.
Proof.
  induction n as [|n IH]; intros s cur l c Hn Hl Hc.
  - destruct s; [|simpl in Hn; lia]. simpl in Hl.
    destruct cur as [|x cur]; [destruct Hl|].
    destruct Hl as [<-|[]]. left. now apply in_rev.
  - destruct s as [|x rest]; simpl in Hl.
    + destruct cur as [|y cur]; [destruct Hl|].
      destruct Hl as [<-|[]]. left. now apply in_rev.
    + simpl in Hn. destruct (is_linebreak x).
      * destruct rest as [|x' rest'].
        -- destruct Hl as [<-|[]]. left. now apply in_rev.
        -- simpl in Hn.
           destruct ((x =? 13)%N && (x' =? 10)%N);
             (destruct Hl as [<-|Hl]; [left; now apply in_rev|]).
           ++ destruct (IH rest' [] l c ltac:(lia) Hl Hc) as [[]|H].
              right. right. now right.
           ++ destruct (IH (x' :: rest') [] l c ltac:(simpl; lia) Hl Hc)
                as [[]|H].
              right. now right.
      * destruct (IH rest (x :: cur) l c ltac:(lia) Hl Hc) as [[<-|H]|H].
        -- right. now left.
        -- now left.
        -- right. now right.
Qed.

Lemma parse_questions_blank (text : pystr) :
  forallb isspace text = true -> parse_questions text = [].
Proof.
  intros B. destruct (parse_questions text) as [|q qs] eqn:E; [reflexivity|].
  assert (I : In q (parse_questions text)) by (rewrite E; now left).
  apply parse_questions_in in I as [line [Hl [Hs Hn]]].
  exfalso. apply Hn. rewrite <- Hs. apply strip_blank.
  apply forallb_forall. intros c Hc.
  destruct (splitlines_from_chars (n := List.length text) text [] line c
              (le_n _) Hl Hc) as [[]|H].
  rewrite forallb_forall in B. now apply B.
Qed.

(** X12.  Nothing is checked before a survey is created: when the questions
    box holds only white space and line breaks (or nothing), "Create
    Survey" still sends its request, with an empty [questions] list. *)
Theorem blank_questions_box env ui st :
  forallb isspace (cs_questions_blob ui) = true ->
  field (u "questions") (create_survey_payload ui) = Some (PList [])
  /\ sent (snd (create_survey env ui st))
     = sent st ++ [post_request env (u "/surveys/create")
                     (create_survey_payload ui) (token (session st))].
Proof.
  intros B. split; [|apply create_survey_sends].
  unfold create_survey_payload. cbv zeta.
  rewrite (parse_questions_blank _ B). reflexivity.
Qed.

(** The questions box left empty. *)
Lemma blank_questions_box_witness :
  field (u "questions") (create_survey_payload idle_ui) = Some (PList []).
Proof.
  exact (proj1 (@blank_questions_box (sample_env (always acknowledges)) idle_ui
                  (empty_state jane) eq_refl)).
Defined.

Lemma rstrip_by_snoc (p : N -> bool) (s : pystr) (c : N) :
  p c = true -> rstrip_by p (s ++ [c]) = rstrip_by p s.
Proof.
  intros H. unfold rstrip_by. rewrite rev_app_distr. simpl. now rewrite H.
Qed.

(** X13.  The base URL of every request never ends in a slash, whatever
    the environment variable holds: it is http://localhost:8000 when
    BACKEND_URL is not set, and a value with a trailing slash gives the same
    base as the value without it.  Every request goes to the base URL
    followed by the path. *)
Theorem backend_url_has_no_trailing_slash env :
  last_ok (fun c => negb (N.eqb 47 c)) (BACKEND_URL env) = true
  /\ (getenv env (u "BACKEND_URL") = None ->
      BACKEND_URL env = u "http://localhost:8000")
  /\ (forall base,
        getenv env (u "BACKEND_URL") = Some (base ++ u "/") ->
        BACKEND_URL env = rstrip_by (N.eqb 47) base)
  /\ (forall path query payload tok,
        url (get_request env path query tok) = BACKEND_URL env ++ path
        /\ url (post_request env path payload tok) = BACKEND_URL env ++ path).
Proof.
  split; [apply rstrip_by_last|]. split; [|split].
  - intros H. unfold BACKEND_URL. rewrite H. reflexivity.
  - intros base H. unfold BACKEND_URL. rewrite H.
    now apply rstrip_by_snoc.
  - intros. split; reflexivity.
Qed.

(* ================================================================== *)
(** * Login without a role *)

Lemma shown_grows_after_header env ui :
  grows shown
    (show st_divider ;; auth_panel env ui ;; auth_gate ;; views env ui ;;
     show (st_caption ([169%N] ++ u " Humanet prototype"))).
Proof.
  apply grows_bind; [apply shown_grows_show|intro].
  apply grows_bind.
  { unfold auth_panel, create_account, login, register_assignments,
      login_assignments, st_experimental_rerun.
    destruct (auth_mode ui); growing. }
  intro. apply grows_bind; [unfold auth_gate, st_stop; growing|intro].
  apply grows_bind; [apply shown_grows_views|intro].
  apply shown_grows_show.
Qed.

(** Whatever else a run does, it shows the header for the session it
    started with. *)
Lemma run_shows_header env ui prev e :
  In e (header_elements env (session_init prev)) ->
  In e (shown (snd (run env ui prev))).
Proof.
  intros I. unfold run, script, before_gate. rewrite !bind_assoc.
  unfold bind at 1. rewrite header_result. cbn [session shown sent app].
  destruct (truthy (token (session_init prev)) && button ui (u "Logout")).
  - exact I.
  - apply grows_keeps_shown; [|exact I].
    pose proof (shown_grows_after_header env ui) as G.
    intros st. destruct (G st) as [more E]. exists more.
    rewrite <- E. reflexivity.
Qed.

(** X14.  A login carries no role.  After a granted login on a first visit
    the session holds the token and the stripped email and nothing else,
    and while that token is truthy every later run shows the badge "Logged
    in as None" in its header. *)
Theorem login_knows_no_role env ui r data tok :
  auth_mode ui = Login ->
  button ui (u "Login") = true ->
  backend env []
    (login_request env (keyed ui (u "login_email")) (keyed ui (u "login_pwd")))
    = Responded r ->
  is_error_status (status_code r) = false ->
  json r = Some data ->
  field (u "access_token") data = Some tok ->
  let s1 := mkSession tok None (Some (strip (keyed ui (u "login_email"))))
              None None None None in
  fst (run env ui None) = Sig RerunScript
  /\ session (snd (run env ui None)) = s1
  /\ (truthy tok = true ->
      forall env' ui',
        In (st_markdown (badge_markup (u "Logged in as None")))
           (shown (snd (run env' ui' (Some s1))))).
Proof.
  intros Mode Btn B E J F. cbv zeta.
  assert (R : run env ui None
              = (Sig RerunScript,
                 mkState (after_login (keyed ui (u "login_email")) tok
                            empty_session)
                   ((header_elements env empty_session ++ [st_divider])
                    ++ [st_success (u "Logged in.")])
                   [login_request env (keyed ui (u "login_email"))
                      (keyed ui (u "login_pwd"))])).
  { unfold run, script. apply bind_signal.
    rewrite before_gate_result. cbn [session_init session shown sent app].
    cbn [empty_session token truthy andb].
    unfold auth_panel. rewrite Mode, Btn. cbn [when].
    erewrite login_success; [|exact B|exact E|exact J|exact F].
    reflexivity. }
  rewrite R. split; [reflexivity|]. split; [reflexivity|].
  intros T env' ui'. apply run_shows_header.
  unfold header_elements. cbn [session_init token role]. rewrite T.
  apply in_or_app. right. now left.
Qed.

(** Bob logs in on his first visit. *)
Lemma login_knows_no_role_witness :
  let env := sample_env (always (grants (u "tok-bob"))) in
  let ui := typing (u "login_email") (u "bob@example.org")
              (pressing (u "Login") idle_ui) in
  role (session (snd (run env ui None))) = None
  /\ token (session (snd (run env ui None))) = PStr (u "tok-bob").
Proof.
  cbv zeta.
  pose proof (@login_knows_no_role
                (sample_env (always (grants (u "tok-bob"))))
                (typing (u "login_email") (u "bob@example.org")
                   (pressing (u "Login") idle_ui))
                (grants (u "tok-bob"))
                (PDict [(PStr (u "access_token"), PStr (u "tok-bob"))])
                (PStr (u "tok-bob"))
                eq_refl eq_refl eq_refl eq_refl eq_refl eq_refl) as H.
  cbv zeta in H. destruct H as [_ [H _]]. rewrite H. split; reflexivity.
Defined.

(* ================================================================== *)
(** * What reaches the markdown *)

Section ShowsOnly.

Variable Q : element -> Prop.

Lemma sh_ret {A} (a : A) : shows_only Q (ret a).
Proof. intros st F. exact F. Qed.

Lemma sh_signal {A} (sg : signal) : shows_only Q (@signal_with A sg).
Proof. intros st F. exact F. Qed.

Lemma sh_get_session : shows_only Q get_session.
Proof. intros st F. exact F. Qed.

Lemma sh_session_token : shows_only Q session_token.
Proof. intros st F. exact F. Qed.

Lemma sh_set_session g : shows_only Q (set_session g).
Proof. intros st F. exact F. Qed.

Lemma sh_show e : Q e -> shows_only Q (show e).
Proof.
  intros H st F. simpl. apply Forall_app. split; [exact F|now constructor].
Qed.

Lemma sh_bind {A B} (m : M A) (k : A -> M B) :
  shows_only Q m -> (forall a, shows_only Q (k a)) -> shows_only Q (bind m k).
Proof.
  intros Hm Hk st F. unfold bind. specialize (Hm st F).
  destruct (m st) as [[a|sg] st']; simpl in *; [now apply Hk|exact Hm].
Qed.

Lemma sh_try (body : M unit) (h : response -> M unit) :
  shows_only Q body -> (forall r, shows_only Q (h r)) ->
  shows_only Q (try_except_HTTPError body h).
Proof.
  intros Hb Hh st F. unfold try_except_HTTPError. specialize (Hb st F).
  destruct (body st) as [[a|[| |[r| | | | | | |]]] st']; simpl in *; auto.
  now apply Hh.
Qed.

Lemma sh_for_each {A} (xs : list A) (body : A -> M unit) :
  (forall x, shows_only Q (body x)) -> shows_only Q (for_each xs body).
Proof.
  intros H. induction xs as [|x xs IH]; simpl.
  - apply sh_ret.
  - apply sh_bind; auto.
Qed.

Lemma sh_when (c : bool) (body : M unit) :
  shows_only Q body -> shows_only Q (when c body).
Proof. intros H. destruct c; simpl; [exact H|apply sh_ret]. Qed.

Lemma sh_if {A} (c : bool) (m1 m2 : M A) :
  shows_only Q m1 -> shows_only Q m2 -> shows_only Q (if c then m1 else m2).
Proof. now destruct c. Qed.

Lemma sh_getitem v key : shows_only Q (getitem v key).
Proof.
  destruct v; try apply sh_signal. simpl.
  destruct (dict_find key kv); [apply sh_ret|apply sh_signal].
Qed.

Lemma sh_get_or v key d : shows_only Q (get_or v key d).
Proof.
  destruct v; try apply sh_signal. simpl.
  destruct (dict_find key kv); apply sh_ret.
Qed.

Lemma sh_py_iter v : shows_only Q (py_iter v).
Proof. destruct v; try apply sh_signal; apply sh_ret. Qed.

Lemma sh_upper env v : shows_only Q (upper env v).
Proof. destruct v; try apply sh_signal; apply sh_ret. Qed.

Lemma sh_with_form key : Q (st_form key) -> shows_only Q (with_form key).
Proof.
  intros H st F. destruct (with_form_cases key st) as [-> | ->]; [exact F|].
  now apply sh_show.
Qed.

Lemma sh_with_expander label :
  Q (st_expander label) -> shows_only Q (with_expander label).
Proof.
  intros H st F.
  destruct (with_expander_cases label st) as [[e [-> _]] | ->]; [exact F|].
  now apply sh_show.
Qed.

Lemma sh_text_area ui label key : shows_only Q (st_text_area ui label key).
Proof. destruct label; try apply sh_signal; apply sh_ret. Qed.

Lemma sh_collect_answers env ui id numbered :
  shows_only Q (collect_answers env ui id numbered).
Proof.
  induction numbered as [|[i q] rest IH]; simpl.
  - apply sh_ret.
  - apply sh_bind; [apply sh_text_area|intro].
    apply sh_bind; [exact IH|intro]. apply sh_ret.
Qed.

Lemma sh_repeated_text_input label : shows_only Q (repeated_text_input label).
Proof. apply sh_signal. Qed.

(** What follows a computation that never returns shows nothing. *)
Lemma sh_bind_never {A B} (m : M A) (k : A -> M B) :
  shows_only Q m -> never_returns m -> shows_only Q (bind m k).
Proof.
  intros Hm Hn st F. unfold bind. specialize (Hm st F).
  destruct (Hn st) as [sg E].
  destruct (m st) as [[a|sg'] st']; simpl in *; [discriminate|exact Hm].
Qed.

Lemma sh_api_get env path query tok : shows_only Q (api_get env path query tok).
Proof. intros st F. now rewrite api_get_result, gateway_result_state. Qed.

Lemma sh_api_post env path payload tok :
  shows_only Q (api_post env path payload tok).
Proof. intros st F. now rewrite api_post_result, gateway_result_state. Qed.

End ShowsOnly.

(** The badge of the header and the badge of a report are among the five. *)
Lemma badge_of_role_fixed env (o : option Role) :
  fixed_text (st_markdown (badge_markup (u "Logged in as "
                                         ++ py_str env (opt_role o)))).
Proof. destruct o as [[|]|]; vm_compute; reflexivity. Qed.

Lemma badge_of_verified_fixed (c : bool) :
  fixed_text (st_markdown (badge_markup (if c then u "Verified"
                                         else u "Unverified"))).
Proof. destruct c; vm_compute; reflexivity. Qed.

(** Solves [shows_only fixed_text m] by the structure of [m]. *)
Ltac fixed_texts :=
  repeat first
    [ apply sh_with_form; exact I
    | apply sh_with_expander; exact I
    | apply sh_collect_answers
    | apply sh_text_area
    | apply sh_repeated_text_input
    | apply sh_api_get
    | apply sh_api_post
    | apply sh_session_token
    | apply sh_set_session
    | match goal with
      | |- shows_only _ (show (st_markdown (badge_markup (if _ then _ else _)))) =>
          apply sh_show; apply badge_of_verified_fixed
      | |- shows_only _ (show (st_markdown (badge_markup (_ ++ py_str _ _)))) =>
          apply sh_show; apply badge_of_role_fixed
      | |- shows_only _ (show (st_markdown _)) =>
          apply sh_show; vm_compute; reflexivity
      | |- shows_only _ (show _) => apply sh_show; exact I
      end
    | apply sh_ret
    | apply sh_signal
    | apply sh_get_session
    | apply sh_getitem
    | apply sh_get_or
    | apply sh_py_iter
    | apply sh_upper
    | apply sh_when
    | apply sh_if
    | apply sh_for_each; intro
    | apply sh_try; [|intro]
    | apply sh_bind; [|intro] ].

(** X15.  Every [st.markdown] call of a run gets one of fifteen texts that
    are fixed in the script; the badge, the one call made with
    [unsafe_allow_html=True], is among them with its five texts.  So no
    text typed by the user and no text of a backend response reaches the
    page as unescaped HTML.  The other elements are not spoken of:
    [st.write], [st.caption], [st.error] and the label of an expander do
    carry such text. *)
Theorem markdown_has_fixed_text env ui prev :
  Forall fixed_text (shown (snd (run env ui prev))).
Proof.
  assert (H : shows_only fixed_text (script env ui)).
  { unfold script, before_gate, header, auth_panel, auth_gate, views,
      create_account, login, register_assignments, login_assignments,
      logout_assignments, st_experimental_rerun, st_stop,
      surveys_view, civic_view, skillup_view, discussions_view,
      ai_report_view, profile_view, list_surveys, survey_card, submit_answers,
      create_survey, submit_report, load_feed, feed_card, publish_tutorial,
      load_tutorials, tutorial_card, create_opportunity, load_opportunities,
      opportunity_card, post_topic, show_topics, topic_card, post_comment,
      generate_report, error_with, badge.
    fixed_texts.
    destruct (auth_mode ui); fixed_texts. }
  apply H. constructor.
Qed.

(* ================================================================== *)
(** * Where every page ends *)

Lemma never_signal {A} (sg : signal) : never_returns (@signal_with A sg).
Proof. intro st. now exists sg. Qed.

Lemma never_bind_left {A B} (m : M A) (k : A -> M B) :
  never_returns m -> never_returns (bind m k).
Proof.
  intros H st. destruct (H st) as [sg E]. exists sg. now apply bind_fst_signal.
Qed.

Lemma never_bind_right {A B} (m : M A) (k : A -> M B) :
  (forall a, never_returns (k a)) -> never_returns (bind m k).
Proof.
  intros H st. unfold bind. destruct (m st) as [[a|sg] st'].
  - apply H.
  - now exists sg.
Qed.

(** The SkillUp tab never gets past line 301. *)
Lemma skillup_never_returns env ui : never_returns (skillup_view env ui).
Proof.
  unfold skillup_view.
  do 6 (apply never_bind_right; intro).
  apply never_bind_left. apply never_signal.
Qed.

Lemma views_never_return env ui : never_returns (views env ui).
Proof.
  unfold views.
  do 2 (apply never_bind_right; intro).
  apply never_bind_left, skillup_never_returns.
Qed.

Lemma script_never_returns env ui : never_returns (script env ui).
Proof.
  unfold script.
  do 2 (apply never_bind_right; intro).
  apply never_bind_left, views_never_return.
Qed.

(** Solves [shows_only early_tab m] by the structure of [m], for code
    that enters none of the three later tabs. *)
Ltac early_tabs :=
  repeat first
    [ apply sh_with_form; exact I
    | apply sh_with_expander; exact I
    | apply sh_collect_answers
    | apply sh_text_area
    | apply sh_repeated_text_input
    | apply sh_api_get
    | apply sh_api_post
    | apply sh_session_token
    | apply sh_set_session
    | apply sh_show; exact I
    | apply sh_ret
    | apply sh_signal
    | apply sh_get_session
    | apply sh_getitem
    | apply sh_get_or
    | apply sh_py_iter
    | apply sh_upper
    | apply sh_when
    | apply sh_if
    | apply sh_for_each; intro
    | apply sh_try; [|intro]
    | apply sh_bind; [|intro] ].

Lemma script_shows_early_tabs env ui : shows_only early_tab (script env ui).
Proof.
  unfold script.
  apply sh_bind.
  { unfold before_gate, header, auth_panel, create_account, login,
      register_assignments, login_assignments, logout_assignments,
      st_experimental_rerun, badge.
    early_tabs. destruct (auth_mode ui); early_tabs. }
  intro. apply sh_bind; [unfold auth_gate, st_stop; early_tabs|intro].
  apply sh_bind_never; [|apply views_never_return].
  unfold views.
  apply sh_bind.
  { unfold surveys_view, list_surveys, survey_card, submit_answers,
      create_survey, error_with.
    early_tabs. }
  intro. apply sh_bind.
  { unfold civic_view, submit_report, load_feed, feed_card, error_with, badge.
    early_tabs. }
  intro. apply sh_bind_never; [|apply skillup_never_returns].
  unfold skillup_view, publish_tutorial, load_tutorials, tutorial_card,
    create_opportunity, load_opportunities, opportunity_card, error_with.
  early_tabs.
Qed.

(** X18.  No run of the script returns from its last line, and no run
    enters the Discussions, the AI Report or the Profile tab: a run ends
    with [st.stop()], with a rerun or with an exception, at the latest at
    line 301, whose text input is the one of line 257 made again.  The
    six views, started in any state, never return. *)
Theorem later_tabs_never_reached env ui prev :
  let out := run env ui prev in
  (exists sg, fst out = Sig sg)
  /\ ~ In (st_tab VDiscussions) (shown (snd out))
  /\ ~ In (st_tab VAIReport) (shown (snd out))
  /\ ~ In (st_tab VProfile) (shown (snd out))
  /\ never_returns (views env ui).
Proof.
  cbv zeta.
  split; [apply script_never_returns|].
  assert (F : Forall early_tab (shown (snd (run env ui prev)))).
  { apply script_shows_early_tabs. constructor. }
  rewrite Forall_forall in F.
  split; [exact (F (st_tab VDiscussions))|].
  split; [exact (F (st_tab VAIReport))|].
  split; [exact (F (st_tab VProfile))|].
  apply views_never_return.
Qed.

(** The click on "Create Survey" is a click on nothing else. *)
Lemma create_survey_click ui :
  form_submit ui (u "create_survey_form") = true ->
  (forall label, button ui label = false)
  /\ form_submit ui (u "civic_report_form") = false
  /\ form_submit ui (u "tutorial_form") = false.
Proof.
  unfold form_submit, button.
  destruct (clicked ui) as [[l|k]|]; try discriminate.
  intros H. apply pystr_eqb_eq in H. subst k. repeat split.
Qed.

(** X20.  A refused "Create Survey" on the page.  In a logged-in run
    started by the click on "Create Survey", when the backend answers the
    request with a 4xx or 5xx, the error message is shown in the Surveys
    tab and the run goes on: it enters the Civic Reports and SkillUp tabs
    and ends where every page ends, at line 301.  One request was sent and
    the session is as it was. *)
Theorem refused_create_survey_page env ui s r :
  truthy (token s) = true ->
  form_submit ui (u "create_survey_form") = true ->
  backend env [] (action_request env ui ACreateSurvey (token s)) = Responded r ->
  is_error_status (status_code r) = true ->
  let out := run env ui (Some s) in
  fst out = Sig (Raised DuplicateWidgetID)
  /\ In (st_error (u "Create failed: " ++ text r)) (shown (snd out))
  /\ tabs_of (snd out) = [st_tab VSurveys; st_tab VCivicReports; st_tab VSkillUp]
  /\ sent (snd out) = [action_request env ui ACreateSurvey (token s)]
  /\ session (snd out) = s.
Proof.
  intros T Hf B E. cbv zeta.
  destruct (create_survey_click ui Hf) as (Hb & Fc & Ft).
  assert (R : exists els,
             run env ui (Some s)
             = (Sig (Raised DuplicateWidgetID),
                mkState s els [action_request env ui ACreateSurvey (token s)])
             /\ In (st_error (u "Create failed: " ++ text r)) els
             /\ filter is_tab els
                = [st_tab VSurveys; st_tab VCivicReports; st_tab VSkillUp]).
  { eexists. split; [|split].
    - unfold run, script.
      erewrite bind_value.
      2:{ rewrite before_gate_result. cbn [session_init session shown sent app].
          rewrite T, Hb. cbn [andb]. unfold auth_panel. rewrite !Hb.
          now destruct (auth_mode ui). }
      erewrite bind_value by now apply auth_gate_passes.
      apply bind_signal.
      unfold views, surveys_view, civic_view, skillup_view.
      rewrite !Hb, Hf, Fc, Ft.
      repeat (rewrite ?bind_assoc;
              first
                [ rewrite (bind_value _ _ _ (show_result _ _))
                | erewrite (bind_value (with_form _))
                    by (apply with_form_fresh; cbn [shown];
                        rewrite !has_form_app, header_elements_no_form;
                        reflexivity)
                | rewrite (bind_value (when false _) _ _ (a := tt) eq_refl)
                | erewrite (bind_value (when true (create_survey env ui)))
                    by (cbn [when];
                        apply (@handler_on_failure env ui ACreateSurvey _ r);
                        [exact B|exact E]) ];
              cbv beta; cbn [session shown sent failure_prefix app]).
      rewrite ?bind_assoc.
      erewrite bind_signal by reflexivity.
      reflexivity.
    - rewrite !in_app_iff. simpl. tauto.
    - rewrite !filter_app, header_elements_no_tab. reflexivity. }
  destruct R as [els [R [I F]]]. rewrite R. cbn [fst snd session shown sent].
  repeat split; assumption.
Qed.

(** Jane's survey is refused with a 400. *)
Lemma refused_create_survey_page_witness :
  let out := run (sample_env (always bad_email))
               (submitting (u "create_survey_form") idle_ui) (Some jane) in
  fst out = Sig (Raised DuplicateWidgetID)
  /\ In (st_error (u "Create failed: " ++ u "bad email")) (shown (snd out)).
Proof.
  cbv zeta.
  pose proof (@refused_create_survey_page
                (sample_env (always bad_email))
                (submitting (u "create_survey_form") idle_ui) jane bad_email
                eq_refl eq_refl eq_refl eq_refl) as H.
  cbv zeta in H. destruct H as [H1 [H2 _]]. split; assumption.
Defined.

(* ================================================================== *)
(** * The cards of the survey list *)

(** The text areas of a card raise at the first question that is not a
    string. *)
Lemma collect_answers_refuses env ui id numbered st :
  forallb is_str (map snd numbered) = false ->
  collect_answers env ui id numbered st = (Sig (Raised TypeError), st).
Proof.
  induction numbered as [|[i q] rest IH]; simpl; intros H; [discriminate|].
  destruct (is_str q) eqn:Hq.
  - simpl in H. destruct q; try discriminate. unfold st_text_area.
    rewrite (bind_value (ret _) _ _ eq_refl).
    now rewrite (bind_signal _ _ _ (IH H)).
  - now destruct q.
Qed.

Lemma map_snd_enumerate {A} (l : list A) : map snd (enumerate l) = l.
Proof.
  unfold enumerate. generalize 0%nat.
  induction l as [|x l IH]; intros n; simpl; [reflexivity|]. now rewrite IH.
Qed.

(** X19.  What Streamlit refuses in a card of the survey list ends the run,
    since nothing catches it.  A survey whose form key [resp_<id>] is the
    key of a form already on the page (the list holds the id twice) is
    shown down to its questions, and the call of [st.form] raises.  A
    survey with a question that is not a string gets its form, and the
    call of [st.text_area] with that question as label raises
    [TypeError].  In both cases nothing is sent. *)
Theorem survey_card_refused env ui s st title sdg target qs id :
  field (u "title") s = Some title ->
  field (u "sdg") s = Some sdg ->
  field (u "target_location") s = Some target ->
  field (u "questions") s = Some (PList qs) ->
  field (u "id") s = Some id ->
  let form := u "resp_" ++ py_str env id in
  let head := card_head env title sdg target qs in
  (has_form form (shown st) = true ->
   survey_card env ui s st
   = (Sig (Raised StreamlitAPIException),
      mkState (session st) (shown st ++ head) (sent st)))
  /\ (has_form form (shown st) = false ->
      forallb is_str qs = false ->
      survey_card env ui s st
      = (Sig (Raised TypeError),
         mkState (session st)
           (shown st ++ head ++ [st_form form; st_markdown (u "**Your Answers**")])
           (sent st))).
Proof.
  intros Ht Hs Hg Hq Hi. cbv zeta.
  assert (Top : forall k : list pyval -> pyval -> M unit,
            (title <- getitem s (u "title") ;;
             sdg <- getitem s (u "sdg") ;;
             show (st_write (PStr (u "**" ++ py_str env title ++ u "** (SDG "
                                   ++ py_str env sdg ++ u ")"))) ;;
             target <- getitem s (u "target_location") ;;
             show (st_caption (u "Target: " ++ py_str env target)) ;;
             qs <- getitem s (u "questions") ;;
             questions <- py_iter qs ;;
             show (st_code (numbered_questions env questions)) ;;
             id <- getitem s (u "id") ;;
             k questions id) st
            = k qs id (mkState (session st)
                         (shown st ++ card_head env title sdg target qs)
                         (sent st))).
  { intros k.
    rewrite (bind_value _ _ _ (getitem_field _ _ _ Ht)).
    rewrite (bind_value _ _ _ (getitem_field _ _ _ Hs)).
    rewrite (bind_value _ _ _ (show_result _ _)).
    rewrite (bind_value _ _ _ (getitem_field _ _ _ Hg)).
    rewrite (bind_value _ _ _ (show_result _ _)).
    rewrite (bind_value _ _ _ (getitem_field _ _ _ Hq)).
    rewrite (bind_value (py_iter (PList qs)) _ _ (a := qs) eq_refl).
    rewrite (bind_value _ _ _ (show_result _ _)).
    rewrite (bind_value _ _ _ (getitem_field _ _ _ Hi)).
    cbn [session shown sent]. unfold card_head.
    repeat rewrite <- app_assoc. reflexivity. }
  specialize (Top (fun questions id =>
                     with_form (u "resp_" ++ py_str env id) ;;
                     show (st_markdown (u "**Your Answers**")) ;;
                     answers <- collect_answers env ui id (enumerate questions) ;;
                     when (form_submit ui (u "resp_" ++ py_str env id))
                       (submit_answers env id (PDict answers)))).
  cbv beta in Top. fold (survey_card env ui s) in Top. rewrite Top. clear Top.
  split.
  - intros H.
    apply bind_signal. apply with_form_again.
    cbn [shown]. rewrite has_form_app, H. reflexivity.
  - intros H Q.
    erewrite bind_value.
    2:{ apply with_form_fresh. cbn [shown]. rewrite has_form_app, H.
        reflexivity. }
    rewrite (bind_value _ _ _ (show_result _ _)).
    erewrite bind_signal.
    2:{ apply collect_answers_refuses. now rewrite map_snd_enumerate. }
    cbn [session shown sent]. repeat rewrite <- app_assoc. reflexivity.
Qed.

(** The list holds survey 42 a second time. *)
Lemma survey_card_refused_witness :
  fst (survey_card (sample_env one_survey) idle_ui survey_42
         (mkState jane [st_form (u "resp_42")] []))
  = Sig (Raised StreamlitAPIException)
  /\ fst (survey_card (sample_env one_survey) idle_ui survey_42_numbered
            (empty_state jane))
     = Sig (Raised TypeError).
Proof.
  pose proof (@survey_card_refused
                (sample_env one_survey) idle_ui survey_42
                (mkState jane [st_form (u "resp_42")] [])
                (PStr (u "Water")) (PInt 6) (PStr (u "Kampala"))
                [PStr (u "Is water clean?"); PStr (u "Is it far?")] (PInt 42)
                eq_refl eq_refl eq_refl eq_refl eq_refl) as H1.
  pose proof (@survey_card_refused
                (sample_env one_survey) idle_ui survey_42_numbered
                (empty_state jane)
                (PStr (u "Water")) (PInt 6) (PStr (u "Kampala"))
                [PStr (u "Is water clean?"); PInt 2] (PInt 42)
                eq_refl eq_refl eq_refl eq_refl eq_refl) as H2.
  cbv zeta in H1, H2.
  split.
  - now rewrite (proj1 H1 eq_refl).
  - now rewrite (proj2 H2 eq_refl eq_refl).
Defined.

(* ================================================================== *)
(** * Answers and reports *)

(** X17.  A report of the feed must carry [title], [category], [location]
    and [created_at]; [verified] may be missing.  When the first report of
    the list lacks [title], "Load feed" ends the run with the uncaught
    [KeyError], after the request and with nothing shown; a report with the
    four keys, a string as category and no [verified] is shown with the
    badge "Unverified". *)
Theorem feed_report_keys env ui st r items rest :
  backend env (sent st) (action_request env ui ALoadFeed (token (session st)))
    = Responded r ->
  is_error_status (status_code r) = false ->
  json r = Some (PList (PDict items :: rest)) ->
  (dict_find (u "title") items = None ->
   load_feed env ui st
   = (Sig (Raised (KeyError (u "title"))),
      mkState (session st) (shown st)
        (sent st ++ [action_request env ui ALoadFeed (token (session st))])))
  /\ (forall title category loc created_at st',
        dict_find (u "title") items = Some title ->
        dict_find (u "category") items = Some (PStr category) ->
        dict_find (u "location") items = Some loc ->
        dict_find (u "created_at") items = Some created_at ->
        dict_find (u "verified") items = None ->
        feed_card env (PDict items) st'
        = (Val tt,
           mkState (session st')
             (shown st'
              ++ [st_write (PStr (u "**" ++ py_str env title ++ u "** "
                                  ++ [8212%N] ++ u " "
                                  ++ str_upper env category));
                  st_caption (py_str env loc ++ u " " ++ [8226%N] ++ u " "
                              ++ py_str env created_at);
                  st_markdown (badge_markup (u "Unverified"))])
             (sent st'))).
Proof.
  intros B E J. split.
  - intros T. unfold load_feed.
    erewrite try_passes;
      [ | rewrite bind_token;
          erewrite bind_value
            by (rewrite api_get_result; eapply gateway_success; eassumption);
          cbn [truthy negb when];
          rewrite (bind_value (ret tt) _ _ (a := tt) eq_refl);
          erewrite (bind_value (py_iter _)) by reflexivity;
          cbn [for_each]; apply bind_signal; unfold feed_card;
          apply bind_signal; unfold getitem; rewrite T; reflexivity
        | discriminate ].
    reflexivity.
  - intros title category loc created_at st' Ht Hc Hl Hd Hv.
    unfold feed_card, getitem, get_or, upper, badge.
    rewrite Ht, Hc, Hl, Hd, Hv.
    unfold bind, ret, show. cbn [session shown sent truthy].
    repeat rewrite <- app_assoc. reflexivity.
Qed.

(** The feed holds one report that has no title. *)
Lemma feed_report_keys_witness :
  fst (load_feed
         (sample_env (always (answers_with (PList [PDict []]))))
         (pressing (u "Load feed") idle_ui) (empty_state jane))
  = Sig (Raised (KeyError (u "title"))).
Proof.
  rewrite (proj1 (@feed_report_keys
                    (sample_env (always (answers_with (PList [PDict []]))))
                    (pressing (u "Load feed") idle_ui) (empty_state jane)
                    (answers_with (PList [PDict []])) [] []
                    eq_refl eq_refl eq_refl) eq_refl).
  reflexivity.
Defined.

(** X4 and X13 at sample inputs. *)
Lemma other_failures_end_the_run_witness :
  handler (sample_env (fun _ _ => ConnectionFailed)) idle_ui ALoadFeed
    (empty_state jane)
  = (Sig (Raised RequestException),
     mkState jane []
       [action_request (sample_env (fun _ _ => ConnectionFailed)) idle_ui
          ALoadFeed (token jane)]).
Proof.
  exact (proj1 (@other_failures_end_the_run
                  (sample_env (fun _ _ => ConnectionFailed)) idle_ui ALoadFeed
                  (empty_state jane)) eq_refl).
Defined.

Lemma backend_url_has_no_trailing_slash_witness :
  BACKEND_URL (sample_env (always bad_email)) = u "http://localhost:8000".
Proof.
  exact (proj1 (proj2 (backend_url_has_no_trailing_slash
                         (sample_env (always bad_email)))) eq_refl).
Defined.
